(** * Patient mock API: query planning, create/update/patch, projections

    A shallow embedding of the Express/SQLite handlers of the patient
    mock API (index.js and its later generation), and the properties of
    its specification that they satisfy or break.

    Layout:
    - [Js]      : the JavaScript values the handlers compute with
                  (parsed JSON bodies, truthiness, [||], string methods);
    - [Http]    : error envelope and the [requireJson] middleware;
    - [Legacy]  : the [/api/patients] generation (table keyed by
                  [patientKey], strict [sortBy]);
    - [AdminV1] : the [/api/v1/patients] admin-shape generation
                  (list, search, create, PUT, PATCH);
    - [SpecV1]  : the later [/api/v1/patients] generation (payer/insurance
                  normalisation, list-item and legacy projectors). *)

From Stdlib Require Import ZArith List String Ascii Bool Lia.
From Stdlib Require Import DecimalString.
Import ListNotations.

Local Open Scope string_scope.
Local Open Scope Z_scope.

Set Warnings "-register-all".

(* ====================================================================== *)
(** ** JavaScript values *)
(* ====================================================================== *)

Module Js.

(** A JavaScript value as the handlers see it: the result of
    [express.json()] on a request body, of [JSON.parse] on a stored
    document, or of a property access ([Undefined] for an absent key).
    Numbers are integers in this model. Objects keep their properties in
    insertion order. *)
Inductive value : Type :=
| Undefined
| Null
| Bool (b : bool)
| Num (z : Z)
| Str (s : string)
| Arr (l : list value)
| Obj (fields : list (string * value)).

(** Truthiness, as used by [if (x)], [!x], [x || y], [x ? a : b]. *)
Definition truthy (v : value) : bool :=
  match v with
  | Undefined | Null => false
  | Bool b => b
  | Num z => negb (z =? 0)
  | Str s => negb (s =? "")%string
  | Arr _ | Obj _ => true
  end.

(** [a || b] and [a && b]. *)
Definition or (a b : value) : value := if truthy a then a else b.
Definition and (a b : value) : value := if truthy a then b else a.

Fixpoint lookup (k : string) (fields : list (string * value)) : value :=
  match fields with
  | [] => Undefined
  | (k', v) :: rest => if (k =? k')%string then v else lookup k rest
  end.

(** Property access [v.k] on a value that is not null or undefined: an
    object yields the property or [undefined]; the primitives and arrays
    that reach the handlers have none of the keys read here. *)
Definition get (k : string) (v : value) : value :=
  match v with
  | Obj fields => lookup k fields
  | _ => Undefined
  end.

(** [v !== undefined]. *)
Definition defined (v : value) : bool :=
  match v with Undefined => false | _ => true end.

(** [typeof v === 'object'] (true of [null], arrays and objects). *)
Definition is_object (v : value) : bool :=
  match v with Null | Arr _ | Obj _ => true | _ => false end.

Definition is_string (v : value) : bool :=
  match v with Str _ => true | _ => false end.

(** [Array.isArray(v)]. *)
Definition isArray (v : value) : bool :=
  match v with Arr _ => true | _ => false end.

(** [list.includes(v)] for a literal array of strings. *)
Definition includes (allowed : list string) (v : value) : bool :=
  match v with
  | Str s => existsb (String.eqb s) allowed
  | _ => false
  end.

(** [JSON.parse(JSON.stringify(v))]: properties whose value is
    [undefined] are dropped, [undefined] array slots become [null]. *)
Fixpoint reparse (v : value) : value :=
  match v with
  | Arr l =>
      Arr (map (fun x => match x with Undefined => Null | _ => reparse x end) l)
  | Obj fields =>
      Obj ((fix go (fs : list (string * value)) : list (string * value) :=
              match fs with
              | [] => []
              | (k, x) :: rest =>
                  match x with
                  | Undefined => go rest
                  | _ => (k, reparse x) :: go rest
                  end
              end) fields)
  | _ => v
  end.

(** *** String methods *)

Definition lower_ascii (c : ascii) : ascii :=
  let n := nat_of_ascii c in
  if (Nat.leb 65 n && Nat.leb n 90)%bool then ascii_of_nat (n + 32) else c.

Definition upper_ascii (c : ascii) : ascii :=
  let n := nat_of_ascii c in
  if (Nat.leb 97 n && Nat.leb n 122)%bool then ascii_of_nat (n - 32) else c.

Fixpoint map_string (f : ascii -> ascii) (s : string) : string :=
  match s with
  | EmptyString => EmptyString
  | String c rest => String (f c) (map_string f rest)
  end.

Definition toLowerCase : string -> string := map_string lower_ascii.
Definition toUpperCase : string -> string := map_string upper_ascii.

(** [s.startsWith(p)]. *)
Definition startsWith (p s : string) : bool := String.prefix p s.

(** [s.length]: the UTF-16 code units of a text held as UTF-8 bytes. A
    continuation byte adds nothing, the lead byte of a four-byte
    sequence two, every other byte one. *)
Fixpoint length (s : string) : nat :=
  match s with
  | EmptyString => 0
  | String c rest =>
      let n := nat_of_ascii c in
      (if Nat.ltb n 128 then 1
       else if Nat.ltb n 192 then 0
       else if Nat.ltb n 240 then 1
       else 2) + length rest
  end.


(** [s.includes(c)] for a one-character needle. *)
Fixpoint includes_char (c : ascii) (s : string) : bool :=
  match s with
  | EmptyString => false
  | String d rest => if Ascii.eqb c d then true else includes_char c rest
  end.

(** [s.split(c)] for a one-character separator: never empty. *)
Fixpoint split (c : ascii) (s : string) : list string :=
  match s with
  | EmptyString => [EmptyString]
  | String d rest =>
      if Ascii.eqb c d then EmptyString :: split c rest
      else match split c rest with
           | [] => [String d EmptyString]
           | hd :: tl => String d hd :: tl
           end
  end.

Definition is_space (c : ascii) : bool :=
  let n := nat_of_ascii c in
  (Nat.eqb n 32 || (Nat.leb 9 n && Nat.leb n 13))%bool.

Fixpoint trimStart (s : string) : string :=
  match s with
  | String c rest => if is_space c then trimStart rest else s
  | EmptyString => EmptyString
  end.

Fixpoint trimEnd (s : string) : string :=
  match s with
  | EmptyString => EmptyString
  | String c rest =>
      match trimEnd rest with
      | EmptyString => if is_space c then EmptyString else String c EmptyString
      | rest' => String c rest'
      end
  end.

(** [s.trim()] on ASCII white space. *)
Definition trim (s : string) : string := trimEnd (trimStart s).

(** A value interpolated in a template literal, for the strings and
    absent parts that occur in the date reformatting. *)
Definition interpolate (o : option string) : string :=
  match o with Some s => s | None => "undefined" end.

End Js.

(* ====================================================================== *)
(** ** HTTP envelope and the JSON content-type guard *)
(* ====================================================================== *)

Module Http.

(** The body written by [handleError]: [{code, message, errorCode?,
    details?}]; the optional members are present only when truthy. *)
Record error : Type := mkError {
  code : Z;
  message : string;
  errorCode : option string;
  details : option Js.value
}.

Definition handleError (status : Z) (msg : string)
    (errorCode : option string) (details : Js.value) : error :=
  {| code := status;
     message := msg;
     errorCode := match errorCode with
                  | Some c => if (c =? "")%string then None else Some c
                  | None => None
                  end;
     details := if Js.truthy details then Some details else None |}.

(** What a handler sends: a status with a payload, or an error envelope. *)
Inductive response (A : Type) : Type :=
| Sent (status : Z) (payload : A)
| Failed (e : error).
Arguments Sent {A} status payload.
Arguments Failed {A} e.

(** What [req.is("application/json")] returns: the matched type, [false]
    when the content type is another one, [null] when the request has no
    body. Only the first is truthy. *)
Inductive type_is : Type := Matched | NoMatch | NoBody.

Definition type_is_truthy (t : type_is) : bool :=
  match t with Matched => true | _ => false end.

Record request : Type := mkRequest {
  path : string;
  method : string;
  is_json : type_is
}.

(** A middleware either passes the request on or answers it. *)
Inductive middleware_result : Type :=
| Next
| Respond (e : error).

Definition modifying_methods : list string := ["POST"; "PUT"; "PATCH"].

(** [requireJson] of index.js (first generation, with the APIC bypass). *)
Definition requireJson (req : request) : middleware_result :=
  if Js.startsWith "/api/apic/" (path req) then Next
  else
    let method := Js.toUpperCase (method req) in
    if existsb (String.eqb method) modifying_methods then
      if negb (type_is_truthy (is_json req)) then
        Respond (handleError 415 "Content-Type must be application/json"
                   (Some "INVALID_CONTENT_TYPE") Js.Null)
      else Next
    else Next.

End Http.

(* ====================================================================== *)
(** ** JavaScript conversions used at the edges *)
(* ====================================================================== *)

Module Conv.

(** Decimal rendering of an integer, as [String(n)] gives it. *)
Definition decimal (z : Z) : string := NilZero.string_of_int (Z.to_int z).

Fixpoint strip_zeros (s : string) : string :=
  match s with
  | EmptyString => EmptyString
  | String c rest =>
      match strip_zeros rest with
      | EmptyString => if Ascii.eqb c "0" then EmptyString else String c EmptyString
      | rest' => String c rest'
      end
  end.

(** The text SQLite gives a REAL whose value is the integer [z] (its
    [%!.15g] rendering): up to 15 digits followed by [.0]; beyond
    that the 15 leading digits, rounded, in exponent form. *)
Definition real_text (z : Z) : string :=
  let sign := if z <? 0 then "-" else "" in
  let a := Z.abs z in
  if a <? 10 ^ 15 then sign ++ decimal a ++ ".0"
  else
    let e := Z.of_nat (String.length (decimal a)) - 1 in
    let rounded := (a + 5 * 10 ^ (e - 15)) / 10 ^ (e - 14) in
    let m := if rounded <? 10 ^ 15 then rounded else rounded / 10 in
    let e := if rounded <? 10 ^ 15 then e else e + 1 in
    match decimal m with
    | String d rest =>
        let frac := strip_zeros rest in
        sign ++ String d "" ++ "." ++ (if (frac =? "")%string then "0" else frac)
        ++ "e+" ++ decimal e
    | EmptyString => ""
    end.

(** [String(v)]: what a regular-expression test or the SQLite driver
    sees of a value that is not a string. *)
Fixpoint toString (v : Js.value) : string :=
  match v with
  | Js.Undefined => "undefined"
  | Js.Null => "null"
  | Js.Bool true => "true"
  | Js.Bool false => "false"
  | Js.Num z => decimal z
  | Js.Str s => s
  | Js.Arr l =>
      (fix join (xs : list Js.value) : string :=
         match xs with
         | [] => ""
         | x :: rest =>
             let here := match x with
                         | Js.Undefined | Js.Null => ""
                         | _ => toString x
                         end in
             match rest with
             | [] => here
             | _ => here ++ "," ++ join rest
             end
         end) l
  | Js.Obj _ => "[object Object]"
  end.

Definition quote : string := String (ascii_of_nat 34) EmptyString.

Definition hex_digit (n : nat) : ascii :=
  nth n ["0"; "1"; "2"; "3"; "4"; "5"; "6"; "7"; "8"; "9";
         "a"; "b"; "c"; "d"; "e"; "f"]%char "0"%char.

Definition backslash : string := String (ascii_of_nat 92) EmptyString.

(** One character inside a JSON string literal. *)
Definition escape_char (c : ascii) : string :=
  let n := nat_of_ascii c in
  if Nat.eqb n 34 then backslash ++ quote
  else if Nat.eqb n 92 then backslash ++ backslash
  else if Nat.eqb n 8 then backslash ++ "b"
  else if Nat.eqb n 9 then backslash ++ "t"
  else if Nat.eqb n 10 then backslash ++ "n"
  else if Nat.eqb n 12 then backslash ++ "f"
  else if Nat.eqb n 13 then backslash ++ "r"
  else if Nat.ltb n 32 then
    backslash ++ "u00" ++
    String (hex_digit (Nat.div n 16)) (String (hex_digit (Nat.modulo n 16)) "")
  else String c "".

Fixpoint escape (s : string) : string :=
  match s with
  | EmptyString => ""
  | String c rest => escape_char c ++ escape rest
  end.

(** [JSON.stringify(v)] for a value that is not [undefined]: the text of
    a stored document, which ORDER BY compares on the JSON columns. *)
Fixpoint stringify (v : Js.value) : string :=
  match v with
  | Js.Undefined | Js.Null => "null"
  | Js.Bool true => "true"
  | Js.Bool false => "false"
  | Js.Num z => decimal z
  | Js.Str s => quote ++ escape s ++ quote
  | Js.Arr l =>
      "[" ++
      (fix items (xs : list Js.value) : string :=
         match xs with
         | [] => ""
         | x :: rest =>
             match rest with
             | [] => stringify x
             | _ => stringify x ++ "," ++ items rest
             end
         end) l ++ "]"
  | Js.Obj fields =>
      "{" ++
      (fix members (fs : list (string * Js.value)) (first : bool) : string :=
         match fs with
         | [] => ""
         | (k, x) :: rest =>
             match x with
             | Js.Undefined => members rest first
             | _ =>
                 (if first then "" else ",") ++
                 quote ++ escape k ++ quote ++ ":" ++ stringify x ++
                 members rest false
             end
         end) fields true ++ "}"
  end.

(** The reading of a numeric query parameter through [Number(...)]:
    [NaN] or an integer. Fractions and infinities are outside this
    model, and so are the requests that carry them. *)
Inductive number : Type := NaN | Finite (z : Z).

(** [n || d] on such a reading: [NaN] and [0] are falsy. *)
Definition number_or (n : number) (d : Z) : Z :=
  match n with
  | NaN => d
  | Finite z => if z =? 0 then d else z
  end.

(** [Number(undefined)] is [NaN]. *)
Definition Number (p : option number) : number :=
  match p with Some n => n | None => NaN end.

Definition isNaN (n : number) : bool :=
  match n with NaN => true | Finite _ => false end.

(** [n < k] is false on [NaN]. *)
Definition number_lt (n : number) (k : Z) : bool :=
  match n with NaN => false | Finite z => z <? k end.

Definition number_gt (n : number) (k : Z) : bool :=
  match n with NaN => false | Finite z => z >? k end.

(** [Math.ceil(a / b)] for integers [a >= 0] and [b > 0]. *)
Definition ceil_div (a b : Z) : Z := (a + b - 1) / b.

(** [/^\S+@\S+\.\S+$/.test(s)] on ASCII text: no white space, an [@]
    after at least one character, and after it a [.] with at least one
    character on each side. *)
Fixpoint no_space (s : string) : bool :=
  match s with
  | EmptyString => true
  | String c rest => negb (Js.is_space c) && no_space rest
  end.

(** [\S+\.\S+] matches: a dot that is neither first nor last. *)
Fixpoint inner_dot (s : string) : bool :=
  match s with
  | String _ (String d rest as tl) =>
      (Ascii.eqb d "." && negb (rest =? "")%string) || inner_dot tl
  | _ => false
  end.

(** [\S+@\S+\.\S+] matches: an [@] that is not first, followed by a text
    with an inner dot. *)
Fixpoint at_then_dot (s : string) : bool :=
  match s with
  | String _ (String d rest as tl) =>
      (Ascii.eqb d "@" && inner_dot rest) || at_then_dot tl
  | _ => false
  end.

Definition email_format (s : string) : bool := no_space s && at_then_dot s.

End Conv.

(* ====================================================================== *)
(** ** SQLite values *)
(* ====================================================================== *)

Module Sql.

(** A value SQLite handles: NULL, an INTEGER, a REAL whose value is the
    integer [z], or a TEXT. *)
Inductive value : Type := Null | Int (z : Z) | Real (z : Z) | Text (s : string).

Definition int32 (z : Z) : bool := (- 2 ^ 31 <=? z) && (z <? 2 ^ 31).

(** How the driver binds a JavaScript parameter: a number of the int32
    range as an INTEGER and any other number as a REAL, a boolean as 0
    or 1, an array or object as the text [[object Object]]. *)
Definition bind (v : Js.value) : value :=
  match v with
  | Js.Undefined | Js.Null => Null
  | Js.Bool b => Int (if b then 1 else 0)
  | Js.Num z => if int32 z then Int z else Real z
  | Js.Str s => Text s
  | Js.Arr _ | Js.Obj _ => Text "[object Object]"
  end.

(** TEXT affinity: a number stored in a TEXT column becomes its text. *)
Definition as_text (v : value) : value :=
  match v with
  | Int z => Text (Conv.decimal z)
  | Real z => Text (Conv.real_text z)
  | _ => v
  end.

(** The JavaScript value the driver returns for a column. *)
Definition to_js (v : value) : Js.value :=
  match v with
  | Null => Js.Null
  | Int z | Real z => Js.Num z
  | Text s => Js.Str s
  end.

(** [column = ?] on a TEXT column: NULL never compares equal. *)
Definition text_eq (col param : value) : bool :=
  match as_text col, as_text param with
  | Text a, Text b => (a =? b)%string
  | _, _ => false
  end.

Definition is_null (v : value) : bool :=
  match v with Null => true | _ => false end.

(** The text after the continuation bytes it starts with. *)
Fixpoint next_char (text : string) : string :=
  match text with
  | String c rest =>
      let n := nat_of_ascii c in
      if Nat.leb 128 n && Nat.ltb n 192 then next_char rest else text
  | EmptyString => EmptyString
  end.

(** [x LIKE pattern]: [%] matches any run, [_] one character (of one
    or more bytes), letters compare without case (ASCII). *)
Fixpoint like (pattern text : string) : bool :=
  match pattern with
  | EmptyString => (text =? "")%string
  | String p rest =>
      if Ascii.eqb p "%" then
        (fix any (t : string) : bool :=
           like rest t ||
           match t with
           | EmptyString => false
           | String _ t' => any t'
           end) text
      else
        match text with
        | EmptyString => false
        | String c text' =>
            if Ascii.eqb p "_" then like rest (next_char text')
            else Ascii.eqb (Js.lower_ascii p) (Js.lower_ascii c) && like rest text'
        end
  end.

(** Collation used by ORDER BY: NULL first, then numbers, then text
    byte-wise. *)
Definition compare (a b : value) : comparison :=
  match a, b with
  | Null, Null => Eq
  | Null, _ => Lt
  | _, Null => Gt
  | (Int x | Real x), (Int y | Real y) => Z.compare x y
  | (Int _ | Real _), Text _ => Lt
  | Text _, (Int _ | Real _) => Gt
  | Text x, Text y => String.compare x y
  end.

Section OrderBy.
Context {row : Type}.
Variable key : row -> value.
Variable desc : bool.

Definition before (a b : row) : bool :=
  match compare (key a) (key b) with
  | Gt => desc
  | Lt => negb desc
  | Eq => true
  end.

Fixpoint insert_sorted (r : row) (rows : list row) : list row :=
  match rows with
  | [] => [r]
  | x :: rest => if before r x then r :: rows else x :: insert_sorted r rest
  end.

(** ORDER BY key ASC|DESC, ties kept in table order. *)
Definition order_by (rows : list row) : list row :=
  fold_right insert_sorted [] rows.
End OrderBy.

(** LIMIT n OFFSET k, for integers SQLite can bind. A page query whose
    offset is beyond them fails, and the handlers answer 500; the list
    and search handlers below are their code on the requests whose page
    window can be bound. *)
Definition limit_offset {row : Type} (n k : Z) (rows : list row) : list row :=
  firstn (Z.to_nat n) (skipn (Z.to_nat k) rows).

End Sql.

(* ====================================================================== *)
(** ** The [/api/patients] generation *)
(* ====================================================================== *)

Module Legacy.

(** A row of the table [patients (patientKey PRIMARY KEY, patientId,
    shipToId, firstName, lastName, dateOfBirth, teamName, primaryPayer,
    metadata)]. The last two columns hold serialized JSON or NULL. *)
Record row : Type := mkRow {
  patientKey : Sql.value;
  patientId : Sql.value;
  shipToId : Sql.value;
  firstName : Sql.value;
  lastName : Sql.value;
  dateOfBirth : Sql.value;
  teamName : Sql.value;
  primaryPayer : option Js.value;
  metadata : option Js.value
}.

Definition table : Type := list row.

(** [safeParse] on a JSON column: NULL is falsy; stored text is the
    output of [JSON.stringify]. *)
Definition safeParse (val : option Js.value) : Js.value :=
  match val with
  | None => Js.Undefined
  | Some j => Js.reparse j
  end.

Definition rowToPatient (r : row) : Js.value :=
  Js.Obj [ ("patientKey", Sql.to_js (patientKey r));
           ("patientId", Sql.to_js (patientId r));
           ("firstName", Sql.to_js (firstName r));
           ("lastName", Sql.to_js (lastName r));
           ("dateOfBirth", Sql.to_js (dateOfBirth r));
           ("teamName", Sql.to_js (teamName r));
           ("primaryPayer", safeParse (primaryPayer r)) ].

(** Query string of the search endpoint. Numeric parameters are given by
    their [Number(...)] reading, [None] standing for an absent key. *)
Record query : Type := mkQuery {
  q : option string;
  pageNo : option Conv.number;
  pageSize : option Conv.number;
  sortBy : option string;
  sortDir : option string;
  soldTo : option string
}.

(** [req.query.k || d] for a string parameter. *)
Definition param_or (p : option string) (d : string) : string :=
  match p with
  | Some s => if (s =? "")%string then d else s
  | None => d
  end.

Definition ALLOWED_SORT_FIELDS : list string :=
  ["firstName"; "lastName"; "patientId"; "team"].

Definition has (set : list string) (s : string) : bool :=
  existsb (String.eqb s) set.

(** The column a name in the ORDER BY clause refers to, if any. *)
Definition column_by_name (name : string) : option (row -> Sql.value) :=
  if (name =? "patientKey")%string then Some patientKey
  else if (name =? "patientId")%string then Some patientId
  else if (name =? "shipToId")%string then Some shipToId
  else if (name =? "firstName")%string then Some firstName
  else if (name =? "lastName")%string then Some lastName
  else if (name =? "dateOfBirth")%string then Some dateOfBirth
  else if (name =? "teamName")%string then Some teamName
  else None.

(** [LOWER(col) LIKE ?] and [col LIKE ?]; NULL matches nothing. *)
Definition like_value (pattern : string) (v : Sql.value) : bool :=
  match Sql.as_text v with
  | Sql.Text t => Sql.like pattern t
  | _ => false
  end.

Definition lower (v : Sql.value) : Sql.value :=
  match Sql.as_text v with
  | Sql.Text t => Sql.Text (Js.toLowerCase t)
  | other => other
  end.

(** The WHERE clause built from [q]; the same clause and parameters go
    to the COUNT query and to the page query. *)
Definition where_clause (q : string) (r : row) : bool :=
  if (q =? "")%string then true
  else
    let likeQ := "%" ++ Js.toLowerCase q ++ "%" in
    like_value likeQ (lower (firstName r))
    || like_value likeQ (lower (lastName r))
    || like_value likeQ (patientId r)
    || like_value likeQ (lower (teamName r)).

(** What the search handler computes before it touches the store. *)
Record plan : Type := mkPlan {
  plan_q : string;
  plan_pageNo : Z;
  plan_pageSize : Z;
  dbSort : string;
  dbDir : string
}.

Definition sort_error : Http.error :=
  Http.handleError 400
    "Invalid sortBy value. must be one of: firstName, lastName, patientId, team"
    (Some "BAD_REQUEST")
    (Js.Arr [Js.Obj [("field", Js.Str "sortBy");
                     ("issue", Js.Str "must be one of: firstName, lastName, patientId, team")]]).

(** GET /api/patients/:shipToId, up to the queries. *)
Definition searchPlan (shipToId : string) (query : query) : Http.error + plan :=
  if (shipToId =? "")%string then
    inl (Http.handleError 400 "shipToId is required" None Js.Null)
  else
    let q := Js.trim (param_or (q query) "") in
    let pageNo := Z.max 1 (Conv.number_or (Conv.Number (pageNo query)) 1) in
    let pageSize :=
      Z.max 1 (Z.min 25 (Conv.number_or (Conv.Number (pageSize query)) 25)) in
    let sortBy := param_or (sortBy query) "firstName" in
    let sortDir := Js.toLowerCase (param_or (sortDir query) "asc") in
    if negb (has ALLOWED_SORT_FIELDS sortBy) then inl sort_error
    else
      let dbSort := "firstName" in
      let dbSort := if (sortBy =? "lastName")%string then "lastName" else dbSort in
      let dbSort := if (sortBy =? "patientId")%string then "patientId" else dbSort in
      let dbSort := if (sortBy =? "team")%string then "teamName" else dbSort in
      let dbDir := if (sortDir =? "desc")%string then "DESC" else "ASC" in
      inr {| plan_q := q; plan_pageNo := pageNo; plan_pageSize := pageSize;
             dbSort := dbSort; dbDir := dbDir |}.

Record page : Type := mkPage {
  page_soldTo : string;
  page_pageNo : Z;
  page_pageSize : Z;
  totalRecords : Z;
  totalPages : Z;
  patients : list Js.value
}.

(** GET /api/patients/:shipToId. It is the first GET route registered
    for a path [/api/patients/<x>] and it always answers, so it also
    serves the requests meant for [/api/patients/:id], whose handler
    (registered later) no request reaches. *)
Definition searchPatients (db : table) (shipToId : string) (query : query)
  : Http.response page :=
  match searchPlan shipToId query with
  | inl e => Http.Failed e
  | inr p =>
      let matching := filter (where_clause (plan_q p)) db in
      let totalRecords := Z.of_nat (List.length matching) in
      let totalPages := Conv.ceil_div totalRecords (plan_pageSize p) in
      let offset := (plan_pageNo p - 1) * plan_pageSize p in
      match column_by_name (dbSort p) with
      | None =>
          Http.Failed (Http.handleError 500
                         ("SQLITE_ERROR: no such column: " ++ dbSort p) None Js.Null)
      | Some column =>
          let rows :=
            Sql.limit_offset (plan_pageSize p) offset
              (Sql.order_by column (dbDir p =? "DESC")%string matching) in
          Http.Sent 200
            {| page_soldTo := param_or (soldTo query) "1563073";
               page_pageNo := plan_pageNo p;
               page_pageSize := plan_pageSize p;
               totalRecords := totalRecords;
               totalPages := totalPages;
               patients := map rowToPatient rows |}
      end
  end.

Definition key_is (id : string) (r : row) : bool :=
  Sql.text_eq (patientKey r) (Sql.Text id).

(** DELETE FROM patients WHERE patientKey = ?: the remaining table and
    the number of rows removed. *)
Definition delete_where_key (id : string) (db : table) : table * Z :=
  (filter (fun r => negb (key_is id r)) db,
   Z.of_nat (List.length (filter (key_is id) db))).

(** DELETE /api/patients/:id. *)
Definition deletePatient (db : table) (id : string)
  : Http.response unit * table :=
  let '(db', changes) := delete_where_key id db in
  if changes =? 0 then
    (Http.Failed (Http.handleError 404 "Patient not found" None Js.Null), db')
  else (Http.Sent 204 tt, db').

(** A DELETE request on a path [/api/patients/<id>]: the path
    parameter and the [patientKeys] of its query string. *)
Record delete_request : Type := mkDeleteRequest {
  path_id : string;
  patientKeys : list string
}.

(** The one DELETE route of this generation on such a path is
    [/api/patients/:id]; its handler reads the path parameter only. *)
Definition deleteRoute (db : table) (req : delete_request)
  : Http.response unit * table :=
  deletePatient db (path_id req).

End Legacy.

(* ====================================================================== *)
(** ** The [patients] table of the [/api/v1] generations *)
(* ====================================================================== *)

Module Patients.

(** Scalar columns: all TEXT, except [isPinned INTEGER DEFAULT 0];
    [id] is the primary key, [firstName] and [lastName] are NOT NULL. *)
Inductive scol : Type :=
| id | guid | firstName | lastName | dateOfBirth | gender | phone | email
| roomNumber | bedNumber | admissionDate | dischargeDate | payer | status
| isPinned.

(** JSON columns: NULL, or the text [JSON.stringify] gave for a value. *)
Inductive dcol : Type :=
| address | primaryPhysician | insurance | diagnosisCodes | metadata
| team | agency | lastOrder.

Scheme Equality for scol.
Scheme Equality for dcol.

Record row : Type := mkRow {
  scalar : scol -> Sql.value;
  doc : dcol -> option Js.value
}.

Definition table : Type := list row.

(** One [column = ?] of an INSERT or UPDATE with its bound parameter. *)
Inductive assignment : Type :=
| SetScalar (c : scol) (v : Sql.value)
| SetDoc (c : dcol) (v : option Js.value).

(** Column affinity on write. The handlers bind only 0 or 1 to
    [isPinned]. *)
Definition affinity (c : scol) (v : Sql.value) : Sql.value :=
  match c with
  | isPinned => v
  | _ => Sql.as_text v
  end.

Definition assign (r : row) (a : assignment) : row :=
  match a with
  | SetScalar c v =>
      {| scalar := fun c' => if scol_beq c c' then affinity c v else scalar r c';
         doc := doc r |}
  | SetDoc c v =>
      {| scalar := scalar r;
         doc := fun c' => if dcol_beq c c' then v else doc r c' |}
  end.

Definition assign_all (sets : list assignment) (r : row) : row :=
  fold_left assign sets r.

(** The row of all NULLs, [isPinned] at its default. *)
Definition blank : row :=
  {| scalar := fun c => match c with isPinned => Sql.Int 0 | _ => Sql.Null end;
     doc := fun _ => None |}.

(** [x ? JSON.stringify(x) : null]. *)
Definition document (x : Js.value) : option Js.value :=
  if Js.truthy x then Some x else None.

(** [row.c ? JSON.parse(row.c) : undefined]; also [safeParse(row.c)],
    the stored text being always valid JSON. *)
Definition parsed (r : row) (c : dcol) : Js.value :=
  match doc r c with
  | None => Js.Undefined
  | Some j => Js.reparse j
  end.

Definition id_is (key : string) (r : row) : bool :=
  Sql.text_eq (scalar r id) (Sql.Text key).

(** The NOT NULL constraints of the schema. *)
Definition not_null_ok (r : row) : bool :=
  negb (Sql.is_null (scalar r firstName)) && negb (Sql.is_null (scalar r lastName)).

(** SELECT ... WHERE id = ? (first row). *)
Definition select_by_id (key : string) (db : table) : option row :=
  find (id_is key) db.

(** The message of the NOT NULL constraint a row breaks; the columns
    are checked in the order of the schema. *)
Definition not_null_failed (r : row) : string :=
  "SQLITE_CONSTRAINT: NOT NULL constraint failed: patients."
  ++ (if Sql.is_null (scalar r firstName) then "firstName" else "lastName").

Definition unique_failed : string :=
  "SQLITE_CONSTRAINT: UNIQUE constraint failed: patients.id".

(** INSERT: fails, with the driver's message, on a NULL in a NOT NULL
    column or on a duplicate primary key. *)
Definition insert (sets : list assignment) (db : table) : string + table :=
  let r := assign_all sets blank in
  if negb (not_null_ok r) then inl (not_null_failed r)
  else if existsb (fun old => Sql.text_eq (scalar old id) (scalar r id)) db
       then inl unique_failed
  else inr (db ++ [r])%list.

(** UPDATE patients SET ... WHERE id = ?: the new table and the number
    of rows changed, or a constraint failure that changes nothing. *)
Definition update_where_id (key : string) (sets : list assignment) (db : table)
  : string + table * Z :=
  let hit := filter (id_is key) db in
  match find (fun r => negb (not_null_ok (assign_all sets r))) hit with
  | Some r => inl (not_null_failed (assign_all sets r))
  | None =>
      inr (map (fun r => if id_is key r then assign_all sets r else r) db,
           Z.of_nat (List.length hit))
  end.

(** DELETE FROM patients WHERE id = ?. *)
Definition delete_where_id (key : string) (db : table) : table * Z :=
  (filter (fun r => negb (id_is key r)) db,
   Z.of_nat (List.length (filter (id_is key) db))).

(** The text ORDER BY sees in a column named in the clause. *)
Definition column_by_name (name : string) : option (row -> Sql.value) :=
  let scalar_named (c : scol) := Some (fun r => scalar r c) in
  let doc_named (c : dcol) :=
    Some (fun r => match doc r c with
                   | None => Sql.Null
                   | Some j => Sql.Text (Conv.stringify j)
                   end) in
  if (name =? "id")%string then scalar_named id
  else if (name =? "guid")%string then scalar_named guid
  else if (name =? "firstName")%string then scalar_named firstName
  else if (name =? "lastName")%string then scalar_named lastName
  else if (name =? "dateOfBirth")%string then scalar_named dateOfBirth
  else if (name =? "gender")%string then scalar_named gender
  else if (name =? "phone")%string then scalar_named phone
  else if (name =? "email")%string then scalar_named email
  else if (name =? "roomNumber")%string then scalar_named roomNumber
  else if (name =? "bedNumber")%string then scalar_named bedNumber
  else if (name =? "admissionDate")%string then scalar_named admissionDate
  else if (name =? "dischargeDate")%string then scalar_named dischargeDate
  else if (name =? "payer")%string then scalar_named payer
  else if (name =? "status")%string then scalar_named status
  else if (name =? "isPinned")%string then scalar_named isPinned
  else if (name =? "address")%string then doc_named address
  else if (name =? "primaryPhysician")%string then doc_named primaryPhysician
  else if (name =? "insurance")%string then doc_named insurance
  else if (name =? "diagnosisCodes")%string then doc_named diagnosisCodes
  else if (name =? "metadata")%string then doc_named metadata
  else if (name =? "team")%string then doc_named team
  else if (name =? "agency")%string then doc_named agency
  else if (name =? "lastOrder")%string then doc_named lastOrder
  else None.

(** [a || ' ' || b ...]: NULL if an operand is NULL. *)
Definition concat (a b : Sql.value) : Sql.value :=
  match Sql.as_text a, Sql.as_text b with
  | Sql.Text x, Sql.Text y => Sql.Text (x ++ y)
  | _, _ => Sql.Null
  end.

(** [COALESCE(v, '')]. *)
Definition coalesce_empty (v : Sql.value) : Sql.value :=
  match v with Sql.Null => Sql.Text "" | _ => v end.

(** [LOWER(firstName || ' ' || lastName || ' ' || COALESCE(guid,'')
    || ' ' || COALESCE(email,'')) LIKE ?]. SQLite's LOWER folds the
    ASCII letters only; the handlers lower-case [q] in JavaScript, which
    is the same mapping when [q] is ASCII text. *)
Definition text_matches (pattern : string) (r : row) : bool :=
  let haystack :=
    concat (concat (concat (concat (concat (concat
      (scalar r firstName) (Sql.Text " ")) (scalar r lastName)) (Sql.Text " "))
      (coalesce_empty (scalar r guid))) (Sql.Text " "))
      (coalesce_empty (scalar r email)) in
  match haystack with
  | Sql.Text t => Sql.like pattern (Js.toLowerCase t)
  | _ => false
  end.

(** [isPinned = ?] with an integer parameter. *)
Definition pinned_is (flag : Z) (r : row) : bool :=
  match scalar r isPinned with
  | Sql.Int z => z =? flag
  | _ => false
  end.

(** [rowToPatient]: the stored row as the flat response object. *)
Definition rowToPatient (r : row) : Js.value :=
  let or_undefined (v : Js.value) := Js.or v Js.Undefined in
  Js.Obj [ ("id", Sql.to_js (scalar r id));
           ("guid", Js.or (Sql.to_js (scalar r guid)) Js.Null);
           ("firstName", Sql.to_js (scalar r firstName));
           ("lastName", Sql.to_js (scalar r lastName));
           ("dateOfBirth", Sql.to_js (scalar r dateOfBirth));
           ("gender", Sql.to_js (scalar r gender));
           ("phone", Sql.to_js (scalar r phone));
           ("email", or_undefined (Sql.to_js (scalar r email)));
           ("address", parsed r address);
           ("roomNumber", or_undefined (Sql.to_js (scalar r roomNumber)));
           ("bedNumber", or_undefined (Sql.to_js (scalar r bedNumber)));
           ("dischargeDate", or_undefined (Sql.to_js (scalar r dischargeDate)));
           ("primaryPhysician", parsed r primaryPhysician);
           ("payer", or_undefined (Sql.to_js (scalar r payer)));
           ("insurance", parsed r insurance);
           ("diagnosisCodes", parsed r diagnosisCodes);
           ("status", Sql.to_js (scalar r status));
           ("isPinned", Js.Bool (Js.truthy (Sql.to_js (scalar r isPinned))));
           ("metadata", parsed r metadata);
           ("team", parsed r team);
           ("agency", parsed r agency);
           ("lastOrder", parsed r lastOrder) ].

End Patients.

(* ====================================================================== *)
(** ** The [/api/v1/patients] admin-shape generation (index.js) *)
(* ====================================================================== *)

Module AdminV1.

Import Patients.

(** [req.query.k || d] and [req.get(h) || d]. *)
Definition param_or (p : option string) (d : string) : string :=
  match p with
  | Some s => if (s =? "")%string then d else s
  | None => d
  end.

(** Truthiness of a header or query string. *)
Definition present (p : option string) : bool :=
  match p with
  | Some s => negb (s =? "")%string
  | None => false
  end.

Definition has (set : list string) (s : string) : bool :=
  existsb (String.eqb s) set.

(** [handleError(res, 500, err.message || 'DB error')]. *)
Definition db_error (message : string) : Http.error :=
  Http.handleError 500 (if (message =? "")%string then "DB error" else message)
    None Js.Null.

Definition no_such_column (name : string) : Http.error :=
  Http.handleError 500 ("SQLITE_ERROR: no such column: " ++ name) None Js.Null.

(** *** GET /api/v1/patients *)

Record list_query : Type := mkListQuery {
  lq_q : option string;
  lq_pageNo : option Conv.number;
  lq_pageSize : option Conv.number;
  lq_sortBy : option string;
  lq_sortMethod : option string;
  lq_isPinned : option string
}.

(** The clauses of an ORDER BY, kept apart: [`${column} ${direction}`]. *)
Record order : Type := mkOrder { order_column : string; order_direction : string }.

Definition allowedSort : list string :=
  ["firstName"; "lastName"; "dateOfBirth"; "admissionDate"].

(** The sort clause of the list endpoint. *)
Definition listSort (query : list_query) : order :=
  let sortBy := param_or (lq_sortBy query) "firstName" in
  let sortMethod := Js.toUpperCase (param_or (lq_sortMethod query) "asc") in
  let safeSortBy := if has allowedSort sortBy then sortBy else "firstName" in
  let safeSortMethod := if has ["ASC"; "DESC"] sortMethod then sortMethod else "ASC" in
  {| order_column := safeSortBy; order_direction := safeSortMethod |}.

(** The conditions pushed on [where], joined by AND. *)
Definition whereClause (where_ : list (row -> bool)) (r : row) : bool :=
  forallb (fun condition => condition r) where_.

Definition listWhere (query : list_query) : list (row -> bool) :=
  let q := Js.trim (param_or (lq_q query) "") in
  let where_ := [] in
  let where_ :=
    if negb (q =? "")%string
    then (where_ ++ [text_matches ("%" ++ Js.toLowerCase q ++ "%")])%list
    else where_ in
  let where_ :=
    match lq_isPinned query with
    | Some flag =>
        let pinned := if (Js.toLowerCase flag =? "true")%string then 1 else 0 in
        (where_ ++ [pinned_is pinned])%list
    | None => where_
    end in
  where_.

Record listing : Type := mkListing {
  data : list Js.value;
  totalRecords : Z;
  pageNo : Z;
  curentPageSize : Z;
  pagesCount : Z
}.

(** SELECT COUNT( * ) FROM patients WHERE ... *)
Definition count_where (where_ : list (row -> bool)) (db : table) : Z :=
  Z.of_nat (List.length (filter (whereClause where_) db)).

(** SELECT * FROM patients WHERE ... ORDER BY ... LIMIT ? OFFSET ? *)
Definition select_page (where_ : list (row -> bool)) (by_ : order)
    (limit offset : Z) (db : table) : Http.error + list row :=
  match column_by_name (order_column by_) with
  | None => inl (no_such_column (order_column by_))
  | Some column =>
      inr (Sql.limit_offset limit offset
             (Sql.order_by column (order_direction by_ =? "DESC")%string
                (filter (whereClause where_) db)))
  end.

Definition listPatients (db : table) (query : list_query) : Http.response listing :=
  let pageNo := Z.max 1 (Conv.number_or (Conv.Number (lq_pageNo query)) 1) in
  let pageSize :=
    Z.max 1 (Z.min 100 (Conv.number_or (Conv.Number (lq_pageSize query)) 25)) in
  let offset := (pageNo - 1) * pageSize in
  let sortClause := listSort query in
  let where_ := listWhere query in
  let totalRecords := count_where where_ db in
  let pagesCount := Conv.ceil_div totalRecords pageSize in
  match select_page where_ sortClause pageSize offset db with
  | inl e => Http.Failed e
  | inr rows =>
      Http.Sent 200
        {| data := map rowToPatient rows;
           totalRecords := totalRecords;
           pageNo := pageNo;
           curentPageSize := pageSize;
           pagesCount := pagesCount |}
  end.

(** *** GET /api/v1/patients/search *)

Record search_query : Type := mkSearchQuery {
  sq_soldTo : option string;
  sq_pageNo : option Conv.number;
  sq_pageSize : option Conv.number;
  sq_sortBy : option string;
  sq_sortMethod : option string;
  sq_q : option string
}.

Record search_headers : Type := mkHeaders {
  authorization : option string;
  ping_authorization : option string
}.

Definition ALLOWED_SORT_FIELDS_V2 : list string :=
  ["LAST_NAME"; "FIRST_NAME"; "TEAM"; "ADDRESS"; "PATIENT_ID"].

(** [rowToPatientSearch]: the search shape, built from [rowToPatient]. *)
Definition rowToPatientSearch (r : row) : Js.value :=
  let pat := rowToPatient r in
  let insurance := Js.get "insurance" pat in
  let payerObj :=
    if Js.truthy insurance then
      Js.Obj [ ("payerTypeName",
                Js.or (Js.get "payer" pat) (Js.Str "Private Insurance/Self Pay"));
               ("planName", Js.or (Js.get "providerName" insurance) (Js.Str "Unknown"));
               ("planId", Js.or (Js.get "policyNumber" insurance) Js.Undefined);
               ("groupNumber", Js.or (Js.get "groupNumber" insurance) Js.Undefined) ]
    else Js.Undefined in
  let team := Js.get "team" pat in
  Js.Obj [ ("patientId", Js.get "id" pat);
           ("firstName", Js.get "firstName" pat);
           ("lastName", Js.get "lastName" pat);
           ("dob", Js.get "dateOfBirth" pat);
           ("team", if Js.truthy team then Js.get "name" team else Js.Undefined);
           ("isPinned", Js.get "isPinned" pat);
           ("lastOrder", Js.get "lastOrder" pat);
           ("payer", payerObj) ].

(** The validation messages of the search endpoint, in order. *)
Definition searchErrors (query : search_query) : list string :=
  let errors := [] in
  let errors :=
    match sq_soldTo query with
    | Some s =>
        if (s =? "")%string
        then (errors ++ ["Required parameter 'soldTo' is missing"])%list
        else if (Js.trim s =? "")%string
        then (errors ++ ["soldTo is required and cannot be empty"])%list
        else errors
    | None => (errors ++ ["Required parameter 'soldTo' is missing"])%list
    end in
  let pageNo := Conv.Number (sq_pageNo query) in
  let errors :=
    match sq_pageNo query with
    | Some _ =>
        if Conv.isNaN pageNo || Conv.number_lt pageNo 1
        then (errors ++ ["Invalid query parameter: pageNo must be greater than or equal to 1"])%list
        else errors
    | None => errors
    end in
  let pageSize := Conv.Number (sq_pageSize query) in
  let errors :=
    match sq_pageSize query with
    | Some _ =>
        if Conv.isNaN pageSize || Conv.number_lt pageSize 1 || Conv.number_gt pageSize 100
        then (errors ++ ["Invalid query parameter: pageSize must be between 1 and 100"])%list
        else errors
    | None => errors
    end in
  let errors :=
    if present (sq_sortBy query)
       && negb (has ALLOWED_SORT_FIELDS_V2 (param_or (sq_sortBy query) ""))
    then (errors ++ ["Invalid sortBy value. Must be one of: LAST_NAME, FIRST_NAME, TEAM, ADDRESS, PATIENT_ID"])%list
    else errors in
  let errors :=
    if present (sq_sortMethod query)
       && negb (has ["ASC"; "DESC"] (param_or (sq_sortMethod query) ""))
    then (errors ++ ["Invalid sortMethod value. Must be one of: ASC, DESC"])%list
    else errors in
  errors.

Fixpoint join (sep : string) (parts : list string) : string :=
  match parts with
  | [] => ""
  | [one] => one
  | part :: rest => part ++ sep ++ join sep rest
  end.

(** The sort mapping of the search endpoint ([dbSort]). *)
Definition searchSort (query : search_query) : order :=
  let default := {| order_column := "lastName"; order_direction := "ASC" |} in
  match sq_sortBy query with
  | Some sortBy =>
      if (sortBy =? "")%string then default
      else
        let dir :=
          match sq_sortMethod query with
          | Some m => if (m =? "DESC")%string then "DESC" else "ASC"
          | None => "ASC"
          end in
        if (sortBy =? "LAST_NAME")%string then mkOrder "lastName" dir
        else if (sortBy =? "FIRST_NAME")%string then mkOrder "firstName" dir
        else if (sortBy =? "PATIENT_ID")%string then mkOrder "id" dir
        else if (sortBy =? "TEAM")%string then mkOrder "team" dir
        else if (sortBy =? "ADDRESS")%string then mkOrder "address" dir
        else default
  | None => default
  end.

Definition searchWhere (query : search_query) : list (row -> bool) :=
  let q := Js.trim (param_or (sq_q query) "") in
  if negb (q =? "")%string
  then [text_matches ("%" ++ Js.toLowerCase q ++ "%")]
  else [].

Record search_result : Type := mkSearchResult {
  sr_patients : list Js.value;
  sr_totalRecords : Z;
  sr_pageNo : Z;
  sr_pagesCount : Z
}.

Definition unauthorized (detail : string) : Http.error :=
  Http.handleError 401 "Unauthorized" None (Js.Str detail).

Definition searchPatients (db : table) (headers : search_headers)
    (query : search_query) : Http.response search_result :=
  if negb (present (authorization headers)) then
    Http.Failed (unauthorized "Full authentication is required to access this resource. Missing or invalid Authorization header.")
  else if negb (present (ping_authorization headers)) then
    Http.Failed (unauthorized "Missing required Ping-Authorization header.")
  else
    let errors := searchErrors query in
    if (0 <? Z.of_nat (List.length errors)) then
      Http.Failed (Http.handleError 400 "Bad Request" None (Js.Str (join "; " errors)))
    else
      let pNo := Z.max 1 (Conv.number_or (Conv.Number (sq_pageNo query)) 1) in
      let pSize :=
        Z.max 1 (Z.min 100 (Conv.number_or (Conv.Number (sq_pageSize query)) 25)) in
      let offset := (pNo - 1) * pSize in
      let dbSort := searchSort query in
      let where_ := searchWhere query in
      let totalRecords := count_where where_ db in
      let pagesCount := Conv.ceil_div totalRecords pSize in
      match select_page where_ dbSort pSize offset db with
      | inl e => Http.Failed e
      | inr rows =>
          Http.Sent 200
            {| sr_patients := map rowToPatientSearch rows;
               sr_totalRecords := totalRecords;
               sr_pageNo := pNo;
               sr_pagesCount := pagesCount |}
      end.

(** *** POST /api/v1/patients *)

(** The environment of a write: the [X-User] header, the clock's
    [new Date().toISOString()] and the next [randomUUID()]. *)
Record env : Type := mkEnv {
  x_user : option string;
  now : string;
  uuid : string
}.

(** [req.body || {}]. *)
Definition body_or_empty (body : Js.value) : Js.value :=
  Js.or body (Js.Obj []).

(** [regex.test(body.email)] for the e-mail pattern. *)
Definition email_ok (v : Js.value) : bool := Conv.email_format (Conv.toString v).

Definition genders : list string := ["MALE"; "FEMALE"; "OTHER"].
Definition statuses : list string := ["ACTIVE"; "DISCHARGED"; "PENDING"].

Definition createErrors (body : Js.value) : list string :=
  let errors :=
    flat_map (fun field =>
                if negb (Js.truthy (Js.get field body))
                then [field ++ " is required"] else [])
             ["firstName"; "lastName"; "insurance"] in
  let errors :=
    if Js.truthy (Js.get "email" body) && negb (email_ok (Js.get "email" body))
    then (errors ++ ["Invalid email format"])%list else errors in
  let errors :=
    if Js.truthy (Js.get "gender" body) && negb (Js.includes genders (Js.get "gender" body))
    then (errors ++ ["Invalid gender"])%list else errors in
  errors.

Definition validation_failed (errors : list string) : Http.error :=
  Http.handleError 400 "Validation Failed" (Some "VAL_ERR")
    (Js.Arr (map Js.Str errors)).

(** The [patient] object of the create handler. *)
Definition newPatient (e : env) (body : Js.value) : Js.value :=
  let createdAt := Js.Str (now e) in
  let createdBy := Js.Str (param_or (x_user e) "system") in
  Js.Obj [ ("id", Js.Str (uuid e));
           ("guid", Js.or (Js.get "guid" body) Js.Null);
           ("firstName", Js.get "firstName" body);
           ("lastName", Js.get "lastName" body);
           ("dateOfBirth", Js.or (Js.get "dateOfBirth" body) Js.Null);
           ("gender", Js.or (Js.get "gender" body) Js.Null);
           ("phone", Js.or (Js.get "phone" body) Js.Null);
           ("email", Js.or (Js.get "email" body) Js.Null);
           ("address", if Js.truthy (Js.get "address" body)
                       then Js.get "address" body else Js.Null);
           ("roomNumber", Js.or (Js.get "roomNumber" body) Js.Null);
           ("bedNumber", Js.or (Js.get "bedNumber" body) Js.Null);
           ("admissionDate", Js.get "admissionDate" body);
           ("dischargeDate", Js.or (Js.get "dischargeDate" body) Js.Null);
           ("primaryPhysician", Js.or (Js.get "primaryPhysician" body) Js.Null);
           ("payer", Js.or (Js.get "payer" body) Js.Null);
           ("insurance", Js.get "insurance" body);
           ("diagnosisCodes", if Js.isArray (Js.get "diagnosisCodes" body)
                              then Js.get "diagnosisCodes" body else Js.Null);
           ("status", Js.or (Js.get "status" body) (Js.Str "ACTIVE"));
           ("isPinned", Js.Num (if Js.truthy (Js.get "isPinned" body) then 1 else 0));
           ("metadata", Js.Obj [ ("createdAt", createdAt);
                                 ("createdBy", createdBy);
                                 ("updatedAt", createdAt);
                                 ("updatedBy", createdBy) ]);
           ("team", Js.or (Js.get "team" body) Js.Null);
           ("agency", Js.or (Js.get "agency" body) Js.Null);
           ("lastOrder", Js.or (Js.get "lastOrder" body) Js.Null) ].

(** The parameters of the INSERT, column by column. *)
Definition insertParams (patient : Js.value) : list assignment :=
  let p (k : string) := Js.get k patient in
  [ SetScalar id (Sql.bind (p "id"));
    SetScalar guid (Sql.bind (p "guid"));
    SetScalar firstName (Sql.bind (p "firstName"));
    SetScalar lastName (Sql.bind (p "lastName"));
    SetScalar dateOfBirth (Sql.bind (p "dateOfBirth"));
    SetScalar gender (Sql.bind (p "gender"));
    SetScalar phone (Sql.bind (p "phone"));
    SetScalar email (Sql.bind (p "email"));
    SetDoc address (document (p "address"));
    SetScalar roomNumber (Sql.bind (p "roomNumber"));
    SetScalar bedNumber (Sql.bind (p "bedNumber"));
    SetScalar admissionDate (Sql.bind (p "admissionDate"));
    SetScalar dischargeDate (Sql.bind (p "dischargeDate"));
    SetDoc primaryPhysician (document (p "primaryPhysician"));
    SetScalar payer (Sql.bind (p "payer"));
    SetDoc insurance (document (p "insurance"));
    SetDoc diagnosisCodes (document (p "diagnosisCodes"));
    SetScalar status (Sql.bind (p "status"));
    SetScalar isPinned (Sql.Int (if Js.truthy (p "isPinned") then 1 else 0));
    SetDoc metadata (Some (p "metadata"));
    SetDoc team (document (p "team"));
    SetDoc agency (document (p "agency"));
    SetDoc lastOrder (document (p "lastOrder")) ].

(** SELECT id FROM patients WHERE firstName = ? AND lastName = ? AND
    dateOfBirth = ?. *)
Definition same_name_and_dob (patient : Js.value) (r : row) : bool :=
  Sql.text_eq (scalar r firstName) (Sql.bind (Js.get "firstName" patient))
  && Sql.text_eq (scalar r lastName) (Sql.bind (Js.get "lastName" patient))
  && Sql.text_eq (scalar r dateOfBirth) (Sql.bind (Js.get "dateOfBirth" patient)).

Definition duplicate_patient (patient : Js.value) : Http.error :=
  Http.handleError 409 "Patient already exists" (Some "DUP_PATIENT")
    (Js.Arr [Js.Str ("Patient with name " ++ Conv.toString (Js.get "firstName" patient)
                     ++ " " ++ Conv.toString (Js.get "lastName" patient)
                     ++ " and DOB " ++ Conv.toString (Js.get "dateOfBirth" patient)
                     ++ " already exists")]).

Definition createPatient (db : table) (e : env) (body : Js.value)
  : Http.response Js.value * table :=
  let body := body_or_empty body in
  let errors := createErrors body in
  if (0 <? Z.of_nat (List.length errors)) then
    (Http.Failed (validation_failed errors), db)
  else
    let patient := newPatient e body in
    match find (same_name_and_dob patient) db with
    | Some _ => (Http.Failed (duplicate_patient patient), db)
    | None =>
        match insert (insertParams patient) db with
        | inl message => (Http.Failed (db_error message), db)
        | inr db' => (Http.Sent 201 patient, db')
        end
    end.

(** *** GET and DELETE /api/v1/patients/:id *)

Definition not_found : Http.error :=
  Http.handleError 404 "Patient not found" None Js.Null.

Definition invalid_id : Http.error :=
  Http.handleError 400 "Invalid id" None Js.Null.

Definition getPatient (db : table) (key : string) : Http.response Js.value :=
  if (key =? "")%string then Http.Failed invalid_id
  else match select_by_id key db with
       | None => Http.Failed not_found
       | Some r => Http.Sent 200 (rowToPatient r)
       end.

Definition deletePatient (db : table) (key : string) : Http.response unit * table :=
  if (key =? "")%string then (Http.Failed invalid_id, db)
  else
    let '(db', changes) := delete_where_id key db in
    if changes =? 0 then (Http.Failed not_found, db') else (Http.Sent 204 tt, db').

(** *** PUT /api/v1/patients/:id *)

Definition replaceErrors (body : Js.value) : list string :=
  let errors :=
    flat_map (fun field =>
                if negb (Js.truthy (Js.get field body))
                then [field ++ " is required for full update"] else [])
             ["firstName"; "lastName"; "insurance"] in
  let errors :=
    if Js.truthy (Js.get "email" body) && negb (email_ok (Js.get "email" body))
    then (errors ++ ["Invalid email format"])%list else errors in
  let errors :=
    if Js.truthy (Js.get "gender" body) && negb (Js.includes genders (Js.get "gender" body))
    then (errors ++ ["Invalid gender"])%list else errors in
  errors.

(** The metadata document the PUT handler writes. *)
Definition replaceMetadata (e : env) (body : Js.value) : Js.value :=
  let updatedAt := Js.Str (now e) in
  let updatedBy := Js.Str (param_or (x_user e) "system") in
  let sent := Js.get "metadata" body in
  Js.Obj [ ("updatedAt", updatedAt);
           ("updatedBy", updatedBy);
           ("createdAt", Js.or (Js.and sent (Js.get "createdAt" sent)) updatedAt);
           ("createdBy", Js.or (Js.and sent (Js.get "createdBy" sent)) updatedBy) ].

(** The [updates] of the PUT handler, as the parameters of its UPDATE. *)
Definition replaceParams (e : env) (body : Js.value) : list assignment :=
  let b (k : string) := Js.get k body in
  [ SetScalar guid (Sql.bind (Js.or (b "guid") Js.Null));
    SetScalar firstName (Sql.bind (b "firstName"));
    SetScalar lastName (Sql.bind (b "lastName"));
    SetScalar dateOfBirth (Sql.bind (Js.or (b "dateOfBirth") Js.Null));
    SetScalar gender (Sql.bind (Js.or (b "gender") Js.Null));
    SetScalar phone (Sql.bind (Js.or (b "phone") Js.Null));
    SetScalar email (Sql.bind (Js.or (b "email") Js.Null));
    SetDoc address (document (b "address"));
    SetScalar roomNumber (Sql.bind (Js.or (b "roomNumber") Js.Null));
    SetScalar bedNumber (Sql.bind (Js.or (b "bedNumber") Js.Null));
    SetScalar admissionDate (Sql.bind (b "admissionDate"));
    SetScalar dischargeDate (Sql.bind (Js.or (b "dischargeDate") Js.Null));
    SetDoc primaryPhysician (document (b "primaryPhysician"));
    SetScalar payer (Sql.bind (Js.or (b "payer") Js.Null));
    SetDoc insurance (document (b "insurance"));
    SetDoc diagnosisCodes
      (if Js.isArray (b "diagnosisCodes") then Some (b "diagnosisCodes") else None);
    SetScalar status (Sql.bind (Js.or (b "status") (Js.Str "ACTIVE")));
    SetScalar isPinned (Sql.Int (if Js.truthy (b "isPinned") then 1 else 0));
    SetDoc metadata (Some (replaceMetadata e body));
    SetDoc team (document (b "team"));
    SetDoc agency (document (b "agency"));
    SetDoc lastOrder (document (b "lastOrder")) ].

Definition replacePatient (db : table) (e : env) (key : string) (body : Js.value)
  : Http.response Js.value * table :=
  let body := body_or_empty body in
  if (key =? "")%string then (Http.Failed invalid_id, db)
  else
    let errors := replaceErrors body in
    if (0 <? Z.of_nat (List.length errors)) then
      (Http.Failed (validation_failed errors), db)
    else
      match update_where_id key (replaceParams e body) db with
      | inl message => (Http.Failed (db_error message), db)
      | inr (db', changes) =>
          if changes =? 0 then (Http.Failed not_found, db')
          else match select_by_id key db' with
               | None => (Http.Sent 200 Js.Null, db')
               | Some r => (Http.Sent 200 (rowToPatient r), db')
               end
      end.

(** *** PATCH /api/v1/patients/:id *)

Definition bad_request (msg : string) : Http.error :=
  Http.handleError 400 msg None Js.Null.

(** [if (present) add(column, value)]: [add] pushes [column = ?] on
    [fields] and the value on [params]. *)
Definition add_if (present : bool) (a : assignment) (fields : list assignment)
  : list assignment :=
  if present then (fields ++ [a])%list else fields.

(** The [fields]/[params] the PATCH handler collects from the body, or
    the validation error it returns on the way. *)
Definition patchFields (body : Js.value) : Http.error + list assignment :=
  let b (k : string) := Js.get k body in
  let scalar_of (k : string) (c : scol) := add_if (Js.defined (b k)) (SetScalar c (Sql.bind (b k))) in
  let doc_of (k : string) (c : dcol) := add_if (Js.defined (b k)) (SetDoc c (document (b k))) in
  let fields := [] in
  let fields := scalar_of "firstName" firstName fields in
  let fields := scalar_of "lastName" lastName fields in
  let fields := scalar_of "dateOfBirth" dateOfBirth fields in
  if Js.defined (b "gender") && negb (Js.includes genders (b "gender")) then
    inl (bad_request "Invalid gender")
  else
  let fields := scalar_of "gender" gender fields in
  let fields := scalar_of "phone" phone fields in
  let fields := scalar_of "email" email fields in
  let fields := doc_of "address" address fields in
  let fields := scalar_of "roomNumber" roomNumber fields in
  let fields := scalar_of "bedNumber" bedNumber fields in
  let fields := scalar_of "admissionDate" admissionDate fields in
  let fields := scalar_of "dischargeDate" dischargeDate fields in
  let fields := doc_of "primaryPhysician" primaryPhysician fields in
  let fields := scalar_of "payer" payer fields in
  let fields := doc_of "insurance" insurance fields in
  let fields :=
    add_if (Js.defined (b "diagnosisCodes"))
      (SetDoc diagnosisCodes
         (if Js.isArray (b "diagnosisCodes") then Some (b "diagnosisCodes") else None))
      fields in
  if Js.defined (b "status") && negb (Js.includes statuses (b "status")) then
    inl (bad_request "Invalid status")
  else
  let fields := scalar_of "status" status fields in
  let fields :=
    add_if (Js.defined (b "isPinned"))
      (SetScalar isPinned (Sql.Int (if Js.truthy (b "isPinned") then 1 else 0)))
      fields in
  let fields := doc_of "team" team fields in
  let fields := doc_of "agency" agency fields in
  let fields := doc_of "lastOrder" lastOrder fields in
  inr fields.

(** [mergedMeta]: the stored creation stamps, the new update stamps. *)
Definition mergedMeta (e : env) (existingMeta : Js.value) : Js.value :=
  let updatedAt := Js.Str (now e) in
  let updatedBy := Js.Str (param_or (x_user e) "system") in
  Js.Obj [ ("createdAt", Js.or (Js.get "createdAt" existingMeta) updatedAt);
           ("createdBy", Js.or (Js.get "createdBy" existingMeta) updatedBy);
           ("updatedAt", updatedAt);
           ("updatedBy", updatedBy) ].

Definition patchPatient (db : table) (e : env) (key : string) (body : Js.value)
  : Http.response Js.value * table :=
  if (key =? "")%string then (Http.Failed invalid_id, db)
  else
    let body := body_or_empty body in
    match patchFields body with
    | inl err => (Http.Failed err, db)
    | inr fields =>
        if Z.of_nat (List.length fields) =? 0 then
          (Http.Failed (bad_request "No updatable fields provided"), db)
        else
          match select_by_id key db with
          | None => (Http.Failed not_found, db)
          | Some mRow =>
              let existingMeta :=
                match doc mRow metadata with
                | Some j => Js.reparse j
                | None => Js.Obj []
                end in
              let fields :=
                (fields ++ [SetDoc metadata (Some (mergedMeta e existingMeta))])%list in
              match update_where_id key fields db with
              | inl message => (Http.Failed (db_error message), db)
              | inr (db', changes) =>
                  if changes =? 0 then (Http.Failed not_found, db')
                  else match select_by_id key db' with
                       | None => (Http.Sent 200 Js.Null, db')
                       | Some r => (Http.Sent 200 (rowToPatient r), db')
                       end
              end
          end
    end.

End AdminV1.

(* ====================================================================== *)
(** ** The later [/api/v1/patients] generation *)
(* ====================================================================== *)

Module SpecV1.

Import Patients.

(** [obj.k = v] on the properties of an object. *)
Fixpoint set (k : string) (v : Js.value) (fields : list (string * Js.value))
  : list (string * Js.value) :=
  match fields with
  | [] => [(k, v)]
  | (k', old) :: rest =>
      if (k =? k')%string then (k, v) :: rest else (k', old) :: set k v rest
  end.

Fixpoint indexed (i : Z) (l : list Js.value) : list (string * Js.value) :=
  match l with
  | [] => []
  | x :: rest => (Conv.decimal i, x) :: indexed (i + 1) rest
  end.

(** [{ ...(typeof v === 'object' ? v : {}) }] for a truthy [v]. *)
Definition spread (v : Js.value) : list (string * Js.value) :=
  match v with
  | Js.Obj fields => fields
  | Js.Arr l => indexed 0 l
  | _ => []
  end.

(** [v.includes('-')] as the projector calls it on a truthy value:
    [None] when the call throws a TypeError. *)
Definition includes_dash (v : Js.value) : option bool :=
  match v with
  | Js.Str s => Some (Js.includes_char "-" s)
  | Js.Arr l =>
      Some (existsb (fun x => match x with
                              | Js.Str s => (s =? "-")%string
                              | _ => false
                              end) l)
  | _ => None
  end.

(** The payer object both projectors derive from the stored insurance. *)
Definition payerOf (pat : Js.value) : Js.value :=
  let insurance := Js.get "insurance" pat in
  if Js.truthy insurance then
    Js.Obj [ ("payerTypeName",
              Js.or (Js.get "payer" pat) (Js.Str "Private Insurance/Self Pay"));
             ("planName", Js.or (Js.get "providerName" insurance) (Js.Str "Unknown"));
             ("planId", Js.or (Js.get "policyNumber" insurance) Js.Undefined);
             ("groupNumber", Js.or (Js.get "groupNumber" insurance) Js.Undefined) ]
  else Js.Undefined.

(** The [lastOrderV2] of [rowToPatientLegacy]: a copy of the stored
    order whose [date], when it contains a dash, is split on dashes and
    rearranged. [None] stands for a TypeError. *)
Definition lastOrderV2 (lastOrder : Js.value) : option Js.value :=
  if Js.truthy lastOrder then
    let copy := spread lastOrder in
    let date := Js.lookup "date" copy in
    if Js.truthy date then
      match includes_dash date with
      | None => None
      | Some false => Some (Js.Obj copy)
      | Some true =>
          match date with
          | Js.Str s =>
              let parts := Js.split "-" s in
              let y := nth_error parts 0 in
              let m := nth_error parts 1 in
              let d := nth_error parts 2 in
              Some (Js.Obj (set "date"
                              (Js.Str (Js.interpolate m ++ "/" ++ Js.interpolate d
                                       ++ "/" ++ Js.interpolate y)) copy))
          | _ => None
          end
      end
    else Some (Js.Obj copy)
  else Some Js.Undefined.

(** The [formattedDob] of [rowToPatientLegacy]. *)
Definition formattedDob (dateOfBirth : Js.value) : option Js.value :=
  if Js.truthy dateOfBirth then
    match dateOfBirth with
    | Js.Str s =>
        if Js.includes_char "-" s then
          let parts := Js.split "-" s in
          match parts with
          | [p0; p1; p2] =>
              if Nat.eqb (Js.length p0) 4
              then Some (Js.Str (p1 ++ "/" ++ p2 ++ "/" ++ p0))
              else Some dateOfBirth
          | _ => Some dateOfBirth
          end
        else Some dateOfBirth
    | _ => None
    end
  else Some dateOfBirth.

(** [rowToPatientLegacy]. *)
Definition rowToPatientLegacy (r : row) : option Js.value :=
  let pat := rowToPatient r in
  let payerObj := payerOf pat in
  match lastOrderV2 (Js.get "lastOrder" pat) with
  | None => None
  | Some order =>
      match formattedDob (Js.get "dateOfBirth" pat) with
      | None => None
      | Some dob =>
          let team := Js.get "team" pat in
          Some (Js.Obj
                  [ ("patientId", Js.get "id" pat);
                    ("firstName", Js.get "firstName" pat);
                    ("lastName", Js.get "lastName" pat);
                    ("dob", dob);
                    ("team", if Js.truthy team && Js.is_object team
                             then Js.get "name" team else team);
                    ("isPinned", Js.get "isPinned" pat);
                    ("lastOrder", order);
                    ("payer", payerObj) ])
      end
  end.

(** [rowToPatientListItem]: the list-item shape. *)
Definition rowToPatientListItem (r : row) : Js.value :=
  let pat := rowToPatient r in
  let priority := if Js.truthy (Js.get "isPinned" pat) then "Pinned" else "Normal" in
  let pteam := Js.get "team" pat in
  let team :=
    if Js.truthy pteam then
      Js.Obj [ ("teamId", Js.or (Js.or (Js.get "teamId" pteam) (Js.get "id" pteam))
                                (Js.Str "team-1"));
               ("name", Js.get "name" pteam) ]
    else Js.Null in
  let insurance := Js.get "insurance" pat in
  let primaryPayer :=
    if Js.truthy insurance && Js.is_object insurance then
      Js.Obj [ ("payerId", Js.or (Js.get "payerId" insurance) (Js.Str "payer-unknown"));
               ("payerType", Js.or (Js.get "payerType" insurance) (Js.Str "Insurance"));
               ("displayName",
                Js.or (Js.or (Js.get "displayName" insurance)
                             (Js.get "providerName" insurance))
                      (Js.Str "Unknown")) ]
    else if Js.truthy (Js.get "payer" pat) then
      Js.Obj [ ("payerId", Js.Str "payer-legacy");
               ("payerType", Js.Str "Insurance");
               ("displayName", Js.get "payer" pat) ]
    else Js.Null in
  let order := Js.get "lastOrder" pat in
  let lastOrder :=
    if Js.truthy order && Js.is_object order then
      let number := Js.or (Js.get "orderNumber" order) (Js.get "id" order) in
      Js.Obj [ ("orderNumber", number);
               ("status", Js.get "status" order);
               ("orderDate", Js.or (Js.get "orderDate" order) (Js.get "date" order));
               ("displayText",
                Js.or (Js.get "displayText" order)
                      (Js.Str (Conv.toString number ++ " - "
                               ++ Conv.toString (Js.get "status" order)))) ]
    else Js.Null in
  Js.Obj [ ("patientKey", Js.get "id" pat);
           ("patientId", Js.or (Js.get "guid" pat) (Js.get "id" pat));
           ("firstName", Js.get "firstName" pat);
           ("lastName", Js.get "lastName" pat);
           ("dateOfBirth", Js.get "dateOfBirth" pat);
           ("priority", Js.Str priority);
           ("team", team);
           ("primaryPayer", primaryPayer);
           ("lastOrder", lastOrder) ].

(** The handler of GET /api/v1/patients/:id. The search on
    [/api/v1/patients/:shipToId] is registered before it, so a request
    reaches it only when the search hands it on ([SpecSearch.getRoute]). *)
Definition getPatient (db : table) (key : string) : Http.response Js.value :=
  if (key =? "")%string then Http.Failed AdminV1.invalid_id
  else match select_by_id key db with
       | None => Http.Failed AdminV1.not_found
       | Some r => Http.Sent 200 (rowToPatientListItem r)
       end.

(** *** POST /api/v1/patients *)

Definition createErrors (body : Js.value) : list string :=
  let b (k : string) := Js.get k body in
  let errors := [] in
  let errors :=
    if negb (Js.truthy (b "patientId")) && negb (Js.truthy (b "id"))
    then (errors ++ ["patientId is required"])%list else errors in
  let errors :=
    if negb (Js.truthy (b "firstName"))
    then (errors ++ ["firstName is required"])%list else errors in
  let errors :=
    if negb (Js.truthy (b "lastName"))
    then (errors ++ ["lastName is required"])%list else errors in
  let errors :=
    if negb (Js.truthy (b "payer")) && negb (Js.truthy (b "insurance"))
    then (errors ++ ["payer is required"])%list else errors in
  let errors :=
    if Js.truthy (b "email") && negb (AdminV1.email_ok (b "email"))
    then (errors ++ ["Invalid email format"])%list else errors in
  let errors :=
    if Js.truthy (b "gender") && negb (Js.includes AdminV1.genders (b "gender"))
    then (errors ++ ["Invalid gender"])%list else errors in
  errors.

(** The stored [insurance] document: the one sent, or the payer object
    converted to the insurance shape. *)
Definition insuranceObj (body : Js.value) : Js.value :=
  let payer := Js.get "payer" body in
  let insurance := Js.get "insurance" body in
  if Js.truthy payer && Js.is_object payer && negb (Js.truthy insurance) then
    Js.Obj [ ("providerName", Js.get "planName" payer);
             ("policyNumber", Js.get "planId" payer);
             ("groupNumber", Js.get "groupNumber" payer) ]
  else insurance.

(** The stored [payer] label. *)
Definition payerType (body : Js.value) : Js.value :=
  let payer := Js.get "payer" body in
  let insurance := Js.get "insurance" body in
  if Js.truthy payer && Js.is_object payer && negb (Js.truthy insurance) then
    Js.get "payerTypeName" payer
  else if Js.truthy (Js.and payer (Js.get "payerTypeName" payer))
  then Js.get "payerTypeName" payer
  else Js.or payer Js.Null.

(** The primary key: [body.patientId || body.id || randomUUID()]. *)
Definition newId (e : AdminV1.env) (body : Js.value) : Js.value :=
  Js.or (Js.or (Js.get "patientId" body) (Js.get "id" body)) (Js.Str (AdminV1.uuid e)).

Definition newPatient (e : AdminV1.env) (body : Js.value) : Js.value :=
  let b (k : string) := Js.get k body in
  let createdAt := Js.Str (AdminV1.now e) in
  let createdBy := Js.Str (AdminV1.param_or (AdminV1.x_user e) "system") in
  Js.Obj [ ("id", newId e body);
           ("guid", Js.or (b "guid") Js.Null);
           ("firstName", b "firstName");
           ("lastName", b "lastName");
           ("dateOfBirth", Js.or (Js.or (b "dob") (b "dateOfBirth")) Js.Null);
           ("gender", Js.or (b "gender") Js.Null);
           ("phone", Js.or (b "phone") Js.Null);
           ("email", Js.or (b "email") Js.Null);
           ("address", if Js.truthy (b "address") then b "address" else Js.Null);
           ("roomNumber", Js.or (b "roomNumber") Js.Null);
           ("bedNumber", Js.or (b "bedNumber") Js.Null);
           ("admissionDate", b "admissionDate");
           ("dischargeDate", Js.or (b "dischargeDate") Js.Null);
           ("primaryPhysician", Js.or (b "primaryPhysician") Js.Null);
           ("payer", payerType body);
           ("insurance", insuranceObj body);
           ("diagnosisCodes", if Js.isArray (b "diagnosisCodes")
                              then b "diagnosisCodes" else Js.Null);
           ("status", Js.or (b "status") (Js.Str "ACTIVE"));
           ("isPinned", Js.Num (if Js.truthy (b "isPinned") then 1 else 0));
           ("metadata", Js.Obj [ ("createdAt", createdAt);
                                 ("createdBy", createdBy);
                                 ("updatedAt", createdAt);
                                 ("updatedBy", createdBy) ]);
           ("team", if Js.truthy (b "team")
                    then (if Js.is_string (b "team")
                          then Js.Obj [("name", b "team")] else b "team")
                    else Js.Null);
           ("agency", Js.or (b "agency") Js.Null);
           ("lastOrder", Js.or (b "lastOrder") Js.Null) ].

(** SELECT id FROM patients WHERE id = ?. *)
Definition same_id (patient : Js.value) (r : row) : bool :=
  Sql.text_eq (scalar r id) (Sql.bind (Js.get "id" patient)).

Definition duplicate_id (patient : Js.value) : Http.error :=
  Http.handleError 409 "Patient already exists" (Some "DUP_PATIENT")
    (Js.Arr [Js.Str ("Patient with ID " ++ Conv.toString (Js.get "id" patient)
                     ++ " already exists")]).

(** How the create handler ends: with an error envelope, or, after a
    successful INSERT, with no reply at all. The callback of the INSERT
    builds the 201 body with [rowToPatientSearch], a function this
    generation does not define, so it throws a ReferenceError once the
    row is written; [NoReply] carries the patient that was written. *)
Inductive create_outcome : Type :=
| Rejected (e : Http.error)
| NoReply (patient : Js.value).

Definition createPatient (db : table) (e : AdminV1.env) (body : Js.value)
  : create_outcome * table :=
  let body := AdminV1.body_or_empty body in
  let errors := createErrors body in
  if (0 <? Z.of_nat (List.length errors)) then
    (Rejected (AdminV1.validation_failed errors), db)
  else
    let patient := newPatient e body in
    match find (same_id patient) db with
    | Some _ => (Rejected (duplicate_id patient), db)
    | None =>
        match insert (AdminV1.insertParams patient) db with
        | inl message => (Rejected (AdminV1.db_error message), db)
        | inr db' => (NoReply patient, db')
        end
    end.

End SpecV1.

(* ====================================================================== *)
(** ** Middleware in front of the routes *)
(* ====================================================================== *)

Module Middleware.

(** The method-override middleware: [X-HTTP-Method-Override], or else
    [?_method=], replaces the method when it is not empty. *)
Definition methodOverride (header query_method : option string)
    (req : Http.request) : Http.request :=
  let override :=
    if AdminV1.present header then header else query_method in
  if AdminV1.present override then
    {| Http.path := Http.path req;
       Http.method := Js.toUpperCase (AdminV1.param_or override "");
       Http.is_json := Http.is_json req |}
  else req.

(** [requireJson] of the [/api/v1] generations: no path is exempt. *)
Definition requireJson (req : Http.request) : Http.middleware_result :=
  let method := Js.toUpperCase (Http.method req) in
  if existsb (String.eqb method) Http.modifying_methods then
    if negb (Http.type_is_truthy (Http.is_json req)) then
      Http.Respond (Http.handleError 415 "Content-Type must be application/json"
                      (Some "INVALID_CONTENT_TYPE") Js.Null)
    else Http.Next
  else Http.Next.

End Middleware.

(* ====================================================================== *)
(** ** PUT /api/v1/patients/:id/pin *)
(* ====================================================================== *)

Module Pinning.

Import Patients.

Fixpoint characters (i : Z) (s : string) : list (string * Js.value) :=
  match s with
  | EmptyString => []
  | String c rest =>
      (Conv.decimal i, Js.Str (String c EmptyString)) :: characters (i + 1) rest
  end.

(** [{ ...v }]: the own enumerable properties of [v]. *)
Definition spread (v : Js.value) : list (string * Js.value) :=
  match v with
  | Js.Obj fields => fields
  | Js.Arr l => SpecV1.indexed 0 l
  | Js.Str s => characters 0 s
  | _ => []
  end.

(** [{ ...existingMeta, updatedAt }]. *)
Definition mergedMeta (updatedAt : string) (existingMeta : Js.value) : Js.value :=
  Js.Obj (SpecV1.set "updatedAt" (Js.Str updatedAt) (spread existingMeta)).

Definition missing_isPinned : Http.error :=
  Http.handleError 400 "Bad Request" None
    (Js.Str "Required parameter 'isPinned' is missing").

Definition pinPatient (db : table) (e : AdminV1.env) (key : string) (body : Js.value)
  : Http.response unit * table :=
  if (key =? "")%string then (Http.Failed AdminV1.invalid_id, db)
  else
    let body := AdminV1.body_or_empty body in
    if negb (Js.defined (Js.get "isPinned" body)) then
      (Http.Failed missing_isPinned, db)
    else
      let isPinned := if Js.truthy (Js.get "isPinned" body) then 1 else 0 in
      let updatedAt := AdminV1.now e in
      match select_by_id key db with
      | None => (Http.Failed AdminV1.not_found, db)
      | Some mRow =>
          let existingMeta :=
            match doc mRow metadata with
            | Some j => Js.reparse j
            | None => Js.Obj []
            end in
          match update_where_id key
                  [ SetScalar Patients.isPinned (Sql.Int isPinned);
                    SetDoc metadata (Some (mergedMeta updatedAt existingMeta)) ] db with
          | inl message => (Http.Failed (AdminV1.db_error message), db)
          | inr (db', _) => (Http.Sent 200 tt, db')
          end
      end.

End Pinning.

(* ====================================================================== *)
(** ** The [/api/patients] generation: create, replace, list, clear *)
(* ====================================================================== *)

Module LegacyCrud.

Import Legacy.

(** INSERT INTO patients: fails on a duplicate [patientKey]. *)
Definition insert (r : row) (db : table) : string + table :=
  if existsb (fun old => Sql.text_eq (patientKey old) (patientKey r)) db
  then inl "SQLITE_CONSTRAINT: UNIQUE constraint failed: patients.patientKey"
  else inr (db ++ [r])%list.

Definition required : list string :=
  ["firstName"; "lastName"; "patientId"; "teamName"; "dateOfBirth"].

Definition missing_fields : Http.error :=
  Http.handleError 400
    "Missing required fields: firstName, lastName, patientId, teamName, dateOfBirth"
    None Js.Null.

(** [!body.firstName || !body.lastName || ...]. *)
Definition incomplete (body : Js.value) : bool :=
  existsb (fun k => negb (Js.truthy (Js.get k body))) required.

(** The row the create handler inserts. *)
Definition newRow (now uuid : string) (body : Js.value) : row :=
  {| patientKey := Sql.as_text (Sql.bind (Js.Str uuid));
     patientId := Sql.as_text (Sql.bind (Js.get "patientId" body));
     shipToId := Sql.as_text (Sql.bind (Js.or (Js.get "shipToId" body) (Js.Str "DEFAULT")));
     firstName := Sql.as_text (Sql.bind (Js.get "firstName" body));
     lastName := Sql.as_text (Sql.bind (Js.get "lastName" body));
     dateOfBirth := Sql.as_text (Sql.bind (Js.get "dateOfBirth" body));
     teamName := Sql.as_text (Sql.bind (Js.get "teamName" body));
     primaryPayer := if Js.truthy (Js.get "primaryPayer" body)
                     then Some (Js.get "primaryPayer" body) else None;
     metadata := Some (Js.Obj [("createdAt", Js.Str now); ("createdBy", Js.Str "api")]) |}.

(** [rowToPatient(row)] on the result of [db.get]. *)
Definition fetched (found : option row) : Js.value :=
  match found with
  | Some r => rowToPatient r
  | None => Js.Null
  end.

(** POST /api/patients. *)
Definition createPatient (db : table) (now uuid : string) (body : Js.value)
  : Http.response Js.value * table :=
  let body := AdminV1.body_or_empty body in
  if incomplete body then (Http.Failed missing_fields, db)
  else
    match insert (newRow now uuid body) db with
    | inl message => (Http.Failed (AdminV1.db_error message), db)
    | inr db' => (Http.Sent 201 (fetched (find (key_is uuid) db')), db')
    end.

(** The row after [UPDATE patients SET firstName=?, lastName=?,
    dateOfBirth=?, teamName=?, primaryPayer=?, patientId=?]. *)
Definition replaced (body : Js.value) (r : row) : row :=
  {| patientKey := patientKey r;
     patientId := Sql.as_text (Sql.bind (Js.get "patientId" body));
     shipToId := shipToId r;
     firstName := Sql.as_text (Sql.bind (Js.get "firstName" body));
     lastName := Sql.as_text (Sql.bind (Js.get "lastName" body));
     dateOfBirth := Sql.as_text (Sql.bind (Js.get "dateOfBirth" body));
     teamName := Sql.as_text (Sql.bind (Js.get "teamName" body));
     primaryPayer := if Js.truthy (Js.get "primaryPayer" body)
                     then Some (Js.get "primaryPayer" body) else None;
     metadata := metadata r |}.

Definition not_found : Http.error :=
  Http.handleError 404 "Patient not found" None Js.Null.

(** PUT /api/patients/:id. *)
Definition replacePatient (db : table) (id : string) (body : Js.value)
  : Http.response Js.value * table :=
  let body := AdminV1.body_or_empty body in
  if incomplete body then (Http.Failed missing_fields, db)
  else
    let db' := map (fun r => if key_is id r then replaced body r else r) db in
    let changes := Z.of_nat (List.length (filter (key_is id) db)) in
    if changes =? 0 then (Http.Failed not_found, db')
    else (Http.Sent 200 (fetched (find (key_is id) db')), db').

(** GET /api/patients: the pages follow the table order. *)
Definition listPatients (db : table) (query : query) : Http.response page :=
  let q := Js.trim (param_or (q query) "") in
  let pageNo := Z.max 1 (Conv.number_or (Conv.Number (pageNo query)) 1) in
  let pageSize :=
    Z.max 1 (Z.min 25 (Conv.number_or (Conv.Number (pageSize query)) 25)) in
  let offset := (pageNo - 1) * pageSize in
  let matching := filter (where_clause q) db in
  let totalRecords := Z.of_nat (List.length matching) in
  let totalPages := Conv.ceil_div totalRecords pageSize in
  Http.Sent 200
    {| page_soldTo := param_or (soldTo query) "ALL";
       page_pageNo := pageNo;
       page_pageSize := pageSize;
       totalRecords := totalRecords;
       totalPages := totalPages;
       patients := map rowToPatient (Sql.limit_offset pageSize offset matching) |}.

Record cleared : Type := mkCleared {
  success : bool;
  deletedCount : Z;
  cleared_message : string
}.

(** DELETE /api/admin/clear. *)
Definition clear (db : table) : Http.response cleared * table :=
  let changes := Z.of_nat (List.length db) in
  (Http.Sent 200
     {| success := true;
        deletedCount := changes;
        cleared_message := "Deleted " ++ Conv.decimal changes ++ " patient(s)" |},
   []).

End LegacyCrud.

(* ====================================================================== *)
(** ** GET /api/v1/patients/:shipToId of the later generation *)
(* ====================================================================== *)

Module SpecSearch.

Import Patients.

Definition is_hex (c : ascii) : bool :=
  let n := nat_of_ascii c in
  (Nat.leb 48 n && Nat.leb n 57) || (Nat.leb 97 n && Nat.leb n 102).

(** [s] starts with [n] characters [0-9a-f]; the rest is returned. *)
Fixpoint hex_run (n : nat) (s : string) : option string :=
  match n with
  | O => Some s
  | S n' =>
      match s with
      | String c rest => if is_hex c then hex_run n' rest else None
      | EmptyString => None
      end
  end.

(** [/^[0-9a-f]{8}-[0-9a-f]{4}/.test(id)]. *)
Definition uuid_prefix (id : string) : bool :=
  match hex_run 8 id with
  | Some (String c rest) =>
      Ascii.eqb c "-"
      && match hex_run 4 rest with Some _ => true | None => false end
  | _ => false
  end.

(** The test that sends a request on to the single-patient route. *)
Definition possibleUUID (id : string) : bool :=
  uuid_prefix id || Js.startsWith "pt-" id.

Definition ALLOWED_SORT_FIELDS_V2 : list string :=
  ["PatientName"; "PatientId"; "LastOrderDate"; "LastOrderStatus";
   "PrimaryPayer"; "Team"; "Priority"].

(** The validation messages, in order ([soldTo] is not required any
    more). *)
Definition searchErrors (query : AdminV1.search_query) : list string :=
  let errors := [] in
  let pageNo := Conv.Number (AdminV1.sq_pageNo query) in
  let errors :=
    match AdminV1.sq_pageNo query with
    | Some _ =>
        if Conv.isNaN pageNo || Conv.number_lt pageNo 1
        then (errors ++ ["Invalid query parameter: pageNo must be greater than or equal to 1"])%list
        else errors
    | None => errors
    end in
  let pageSize := Conv.Number (AdminV1.sq_pageSize query) in
  let errors :=
    match AdminV1.sq_pageSize query with
    | Some _ =>
        if Conv.isNaN pageSize || Conv.number_lt pageSize 1 || Conv.number_gt pageSize 100
        then (errors ++ ["Invalid query parameter: pageSize must be between 1 and 100"])%list
        else errors
    | None => errors
    end in
  let errors :=
    if AdminV1.present (AdminV1.sq_sortBy query)
       && negb (AdminV1.has ALLOWED_SORT_FIELDS_V2
                  (AdminV1.param_or (AdminV1.sq_sortBy query) ""))
    then (errors ++ ["Invalid sortBy value. Must be one of: LAST_NAME, FIRST_NAME, TEAM, ADDRESS, PATIENT_ID"])%list
    else errors in
  let errors :=
    if AdminV1.present (AdminV1.sq_sortMethod query)
       && negb (AdminV1.has ["ASC"; "DESC"]
                  (AdminV1.param_or (AdminV1.sq_sortMethod query) ""))
    then (errors ++ ["Invalid sortMethod value. Must be one of: ASC, DESC"])%list
    else errors in
  errors.

Record found : Type := mkFound {
  found_shipToId : string;
  found_patients : list Js.value;
  totalCount : Z;
  found_pageNo : Z;
  found_pageSize : Z
}.

(** What the handler does with a request: hand it to the next route, or
    answer it. *)
Inductive outcome : Type :=
| PassedOn
| Answered (r : Http.response found).

Definition searchPatients (db : table) (shipToId : string)
    (query : AdminV1.search_query) : outcome :=
  if possibleUUID shipToId then PassedOn
  else
    let errors := searchErrors query in
    if (0 <? Z.of_nat (List.length errors)) then
      Answered (Http.Failed (Http.handleError 400 "Bad Request" None
                               (Js.Str (AdminV1.join "; " errors))))
    else
      let pNo := Z.max 1 (Conv.number_or (Conv.Number (AdminV1.sq_pageNo query)) 1) in
      let pSize :=
        Z.max 1 (Z.min 100 (Conv.number_or (Conv.Number (AdminV1.sq_pageSize query)) 25)) in
      let offset := (pNo - 1) * pSize in
      let dbSort := AdminV1.searchSort query in
      let where_ := AdminV1.searchWhere query in
      let totalRecords := AdminV1.count_where where_ db in
      match AdminV1.select_page where_ dbSort pSize offset db with
      | inl e => Answered (Http.Failed e)
      | inr rows =>
          Answered (Http.Sent 200
                      {| found_shipToId := shipToId;
                         found_patients := map SpecV1.rowToPatientListItem rows;
                         totalCount := totalRecords;
                         found_pageNo := pNo;
                         found_pageSize := pSize |})
      end.



End SpecSearch.

(* ====================================================================== *)
(** ** The [/users] resource *)
(* ====================================================================== *)

Module Users.

(** A row of [users (id INTEGER PRIMARY KEY AUTOINCREMENT, name TEXT NOT
    NULL, email TEXT NOT NULL)]. *)
Record user : Type := mkUser {
  id : Z;
  name : Sql.value;
  email : Sql.value
}.

(** The table in rowid order, and the largest rowid ever handed out
    (AUTOINCREMENT never reuses one). *)
Record table : Type := mkTable {
  rows : list user;
  sequence : Z
}.

Definition toJson (u : user) : Js.value :=
  Js.Obj [ ("id", Js.Num (id u)); ("name", Sql.to_js (name u));
           ("email", Sql.to_js (email u)) ].

(** [parseId]: [id && id.trim()]. *)
Definition parseId (id : string) : string :=
  if (id =? "")%string then id else Js.trim id.

Definition invalid_id : Http.error := Http.handleError 400 "Invalid id" None Js.Null.
Definition not_found : Http.error := Http.handleError 404 "User not found" None Js.Null.

(** The rowid of the next INSERT. *)
Definition nextId (db : table) : Z :=
  Z.max (sequence db) (fold_right Z.max 0 (map id (rows db))) + 1.

(** POST /users. *)
Definition createUser (db : table) (body : Js.value) : Http.response Js.value * table :=
  let name := Js.get "name" body in
  let email := Js.get "email" body in
  if negb (Js.truthy name) || negb (Js.truthy email) then
    (Http.Failed (Http.handleError 400 "Name and email required" None Js.Null), db)
  else
    let lastID := nextId db in
    let created := Js.Obj [("id", Js.Num lastID); ("name", name); ("email", email)] in
    (Http.Sent 201 created,
     {| rows := (rows db ++ [ {| id := lastID;
                                 name := Sql.as_text (Sql.bind name);
                                 email := Sql.as_text (Sql.bind email) |} ])%list;
        sequence := lastID |}).

Record query : Type := mkQuery {
  limit : option Conv.number;
  offset : option Conv.number
}.

Record listing : Type := mkListing {
  count : Z;
  listing_limit : Z;
  listing_offset : Z;
  data : list Js.value
}.

(** GET /users. *)
Definition listUsers (db : table) (query : query) : Http.response listing :=
  let limit := Z.max 1 (Z.min 100 (Conv.number_or (Conv.Number (limit query)) 25)) in
  let offset := Z.max 0 (Conv.number_or (Conv.Number (offset query)) 0) in
  let found := Sql.limit_offset limit offset (rows db) in
  Http.Sent 200
    {| count := Z.of_nat (List.length found);
       listing_limit := limit;
       listing_offset := offset;
       data := map toJson found |}.

Section Engine.

(** [id = ?] for an INTEGER [id] and the text of the route parameter,
    as SQLite decides it. *)
Variable matches : Z -> string -> bool.

Definition is_user (key : string) (u : user) : bool := matches (id u) key.

(** GET /users/:id. *)
Definition getUser (db : table) (raw : string) : Http.response Js.value :=
  let key := parseId raw in
  if (key =? "")%string then Http.Failed invalid_id
  else match find (is_user key) (rows db) with
       | None => Http.Failed not_found
       | Some u => Http.Sent 200 (toJson u)
       end.

(** [db.get(...)] after an UPDATE; [res.json(undefined)] sends nothing. *)
Definition fetched (db : table) (key : string) : Js.value :=
  match find (is_user key) (rows db) with
  | Some u => toJson u
  | None => Js.Undefined
  end.

(** UPDATE users SET ... WHERE id = ?, each setter applied to the rows
    that match. *)
Definition update_where (key : string) (change : user -> user) (db : table)
  : table * Z :=
  ({| rows := map (fun u => if is_user key u then change u else u) (rows db);
      sequence := sequence db |},
   Z.of_nat (List.length (filter (is_user key) (rows db)))).

(** PUT /users/:id. *)
Definition replaceUser (db : table) (raw : string) (body : Js.value)
  : Http.response Js.value * table :=
  let key := parseId raw in
  if (key =? "")%string then (Http.Failed invalid_id, db)
  else
    let name := Js.get "name" body in
    let email := Js.get "email" body in
    if negb (Js.truthy name) || negb (Js.truthy email) then
      (Http.Failed (Http.handleError 400 "Name and email required for full update"
                      None Js.Null), db)
    else
      let '(db', changes) :=
        update_where key
          (fun u => {| id := id u;
                       name := Sql.as_text (Sql.bind name);
                       email := Sql.as_text (Sql.bind email) |}) db in
      if changes =? 0 then (Http.Failed not_found, db')
      else (Http.Sent 200 (fetched db' key), db').

(** The [updates] object of the PATCH handler: the truthy members. *)
Definition updates (body : Js.value) : list (string * Js.value) :=
  let updates := [] in
  let updates :=
    if Js.truthy (Js.get "name" body)
    then (updates ++ [("name", Js.get "name" body)])%list else updates in
  let updates :=
    if Js.truthy (Js.get "email" body)
    then (updates ++ [("email", Js.get "email" body)])%list else updates in
  updates.

(** One [field = ?] of the PATCH on a row. *)
Definition set_field (u : user) (kv : string * Js.value) : user :=
  let '(field, v) := kv in
  if (field =? "name")%string
  then {| id := id u; name := Sql.as_text (Sql.bind v); email := email u |}
  else if (field =? "email")%string
  then {| id := id u; name := name u; email := Sql.as_text (Sql.bind v) |}
  else u.

(** PATCH /users/:id. *)
Definition patchUser (db : table) (raw : string) (body : Js.value)
  : Http.response Js.value * table :=
  let key := parseId raw in
  if (key =? "")%string then (Http.Failed invalid_id, db)
  else
    let updates := updates body in
    if Z.of_nat (List.length updates) =? 0 then
      (Http.Failed (Http.handleError 400 "No updatable fields provided" None Js.Null), db)
    else
      let '(db', changes) :=
        update_where key (fun u => fold_left set_field updates u) db in
      if changes =? 0 then (Http.Failed not_found, db')
      else (Http.Sent 200 (fetched db' key), db').

(** DELETE /users/:id. *)
Definition deleteUser (db : table) (raw : string) : Http.response unit * table :=
  let key := parseId raw in
  if (key =? "")%string then (Http.Failed invalid_id, db)
  else
    let changes := Z.of_nat (List.length (filter (is_user key) (rows db))) in
    let db' := {| rows := filter (fun u => negb (is_user key u)) (rows db);
                  sequence := sequence db |} in
    if changes =? 0 then (Http.Failed not_found, db') else (Http.Sent 204 tt, db').

End Engine.

End Users.

(* ====================================================================== *)
(** * Vocabulary of the properties *)
(* ====================================================================== *)

(** The keys the PATCH handler reads from the body. *)
Definition patch_keys : list string :=
  [ "firstName"; "lastName"; "dateOfBirth"; "gender"; "phone"; "email";
    "address"; "roomNumber"; "bedNumber"; "admissionDate"; "dischargeDate";
    "primaryPhysician"; "payer"; "insurance"; "diagnosisCodes"; "status";
    "isPinned"; "team"; "agency"; "lastOrder" ].

(** A body that names none of them. *)
Definition no_updatable_field (body : Js.value) : Prop :=
  forall k, In k patch_keys -> Js.get k body = Js.Undefined.

(** A body whose [k] is given and is not one of [allowed]. *)
Definition outside (k : string) (allowed : list string) (body : Js.value) : Prop :=
  Js.get k body <> Js.Undefined /\ Js.includes allowed (Js.get k body) = false.

(** An environment for the worked examples. *)
Definition sample_env : AdminV1.env :=
  AdminV1.mkEnv None "2024-05-01T10:00:00.000Z" "6f1c2a9e-0000-4000-8000-000000000001".

(** A row of the legacy table, for the worked examples. *)
Definition legacy_row (key : string) : Legacy.row :=
  Legacy.mkRow (Sql.Text key) (Sql.Text "DEL001") (Sql.Text "1483051")
    (Sql.Text "Delete") (Sql.Text "Test1") (Sql.Text "1990-01-01")
    (Sql.Text "Test") None
    (Some (Js.Obj [("createdAt", Js.Str "2024-05-01T10:00:00.000Z");
                   ("createdBy", Js.Str "api")])).

(** [pages] is the ceiling of [total / size]: the least number of pages
    of [size] rows that hold [total] rows. *)
Definition is_ceiling (pages total size : Z) : Prop :=
  (pages - 1) * size < total <= pages * size.

(** The page size the list and search endpoints of the admin generation
    compute from the query. *)
Definition page_size_of (p : option Conv.number) : Z :=
  Z.max 1 (Z.min 100 (Conv.number_or (Conv.Number p) 25)).

(** Rows of the [/api/v1] table for the worked examples. *)
Definition stored_patient (key first last dob : string) : Patients.row :=
  Patients.assign_all
    [ Patients.SetScalar Patients.id (Sql.Text key);
      Patients.SetScalar Patients.firstName (Sql.Text first);
      Patients.SetScalar Patients.lastName (Sql.Text last);
      Patients.SetScalar Patients.dateOfBirth (Sql.Text dob);
      Patients.SetScalar Patients.gender (Sql.Text "FEMALE");
      Patients.SetScalar Patients.status (Sql.Text "ACTIVE");
      Patients.SetScalar Patients.isPinned (Sql.Int 1);
      Patients.SetDoc Patients.insurance
        (Some (Js.Obj [("providerName", Js.Str "MockIns");
                       ("policyNumber", Js.Str "P123")]));
      Patients.SetDoc Patients.metadata
        (Some (Js.Obj [("createdAt", Js.Str "2024-01-01T00:00:00.000Z");
                       ("createdBy", Js.Str "system");
                       ("updatedAt", Js.Str "2024-01-01T00:00:00.000Z");
                       ("updatedBy", Js.Str "system")])) ]
    Patients.blank.

Definition three_patients : Patients.table :=
  [ stored_patient "p1" "Ann" "Lee" "1990-01-02";
    stored_patient "p2" "Bob" "Ray" "1985-07-30";
    stored_patient "p3" "Cy" "Orr" "1971-11-05" ].

Definition page_of_two : AdminV1.list_query :=
  AdminV1.mkListQuery None (Some (Conv.Finite 1)) (Some (Conv.Finite 2)) None None None.

Definition sample_headers : AdminV1.search_headers :=
  AdminV1.mkHeaders (Some "Bearer test") (Some "ping").

Definition sample_search : AdminV1.search_query :=
  AdminV1.mkSearchQuery (Some "1563073") (Some (Conv.Finite 1))
    (Some (Conv.Finite 25)) None None None.

(** The column names the three endpoints can put in an ORDER BY. *)
Definition legacy_sort_columns : list string :=
  ["firstName"; "lastName"; "patientId"; "teamName"].

Definition search_sort_columns : list string :=
  ["lastName"; "firstName"; "id"; "team"; "address"].

Definition empty_sortBy : Legacy.query :=
  Legacy.mkQuery None None None (Some "") None None.

(** A GET without query parameters. *)
Definition no_parameters : Legacy.query :=
  Legacy.mkQuery None None None None None None.

(** A request as it is without its [sortBy] parameter, for each of the
    three endpoints that read one. *)
Definition legacy_no_sortBy (query : Legacy.query) : Legacy.query :=
  Legacy.mkQuery (Legacy.q query) (Legacy.pageNo query) (Legacy.pageSize query)
    None (Legacy.sortDir query) (Legacy.soldTo query).

Definition search_no_sortBy (query : AdminV1.search_query) : AdminV1.search_query :=
  AdminV1.mkSearchQuery (AdminV1.sq_soldTo query) (AdminV1.sq_pageNo query)
    (AdminV1.sq_pageSize query) None (AdminV1.sq_sortMethod query)
    (AdminV1.sq_q query).

Definition list_no_sortBy (query : AdminV1.list_query) : AdminV1.list_query :=
  AdminV1.mkListQuery (AdminV1.lq_q query) (AdminV1.lq_pageNo query)
    (AdminV1.lq_pageSize query) None (AdminV1.lq_sortMethod query)
    (AdminV1.lq_isPinned query).

(** The NOT NULL constraints hold of every row of a table. *)
Definition table_ok (db : Patients.table) : Prop :=
  forall r, In r db -> Patients.not_null_ok r = true.

(** The scalar and JSON columns a PATCH sets from the body key of the
    same name, written as bound ([isPinned] and [diagnosisCodes], which
    are encoded on the way, apart). *)
Definition patch_scalars : list (string * Patients.scol) :=
  [ ("firstName", Patients.firstName); ("lastName", Patients.lastName);
    ("dateOfBirth", Patients.dateOfBirth); ("gender", Patients.gender);
    ("phone", Patients.phone); ("email", Patients.email);
    ("roomNumber", Patients.roomNumber); ("bedNumber", Patients.bedNumber);
    ("admissionDate", Patients.admissionDate);
    ("dischargeDate", Patients.dischargeDate);
    ("payer", Patients.payer); ("status", Patients.status) ].

Definition patch_docs : list (string * Patients.dcol) :=
  [ ("address", Patients.address);
    ("primaryPhysician", Patients.primaryPhysician);
    ("insurance", Patients.insurance); ("team", Patients.team);
    ("agency", Patients.agency); ("lastOrder", Patients.lastOrder) ].

(** A PATCH body the handler accepts: it names an updatable field, and
    gender and status, when given, are in their enumerations. *)
Definition patch_accepted (body : Js.value) : Prop :=
  (exists k, In k patch_keys /\ Js.get k body <> Js.Undefined)
  /\ ~ outside "gender" AdminV1.genders body
  /\ ~ outside "status" AdminV1.statuses body.

(** A PATCH body that does not null a NOT NULL column. *)
Definition keeps_names (body : Js.value) : Prop :=
  Js.get "firstName" body <> Js.Null /\ Js.get "lastName" body <> Js.Null.

(** What the stored [metadata] says under [k]. *)
Definition stamp (k : string) (r : Patients.row) : Js.value :=
  Js.get k (Patients.parsed r Patients.metadata).

(** The metadata the PATCH handler reads back from the row it found. *)
Definition existing_meta (r : Patients.row) : Js.value :=
  match Patients.doc r Patients.metadata with
  | Some j => Js.reparse j
  | None => Js.Obj []
  end.

(** The assignments of an accepted PATCH: the fields of the body, then
    the merged metadata. *)
Definition patch_sets (e : AdminV1.env) (fields : list Patients.assignment)
    (r : Patients.row) : list Patients.assignment :=
  (fields ++ [Patients.SetDoc Patients.metadata
                (Some (AdminV1.mergedMeta e (existing_meta r)))])%list.

(** UPDATE ... WHERE id = key, on the table. *)
Definition updated (key : string) (sets : list Patients.assignment)
    (db : Patients.table) : Patients.table :=
  map (fun x => if Patients.id_is key x then Patients.assign_all sets x else x) db.

Definition unpin_and_clear : Js.value :=
  Js.Obj [("isPinned", Js.Bool false); ("insurance", Js.Null)].

Definition null_gender : Js.value := Js.Obj [("gender", Js.Null)].

(** The audit scenario: a patient created at T0 by the default user,
    then replaced at T1 by a PUT whose body carries no [metadata]. *)
Definition created_env : AdminV1.env :=
  AdminV1.mkEnv None "2024-05-01T10:00:00.000Z" "6f1c2a9e-0000-4000-8000-000000000001".

Definition later_env : AdminV1.env :=
  AdminV1.mkEnv (Some "nurse.joy") "2024-06-15T08:30:00.000Z"
    "6f1c2a9e-0000-4000-8000-000000000002".

Definition create_body : Js.value :=
  Js.Obj [ ("firstName", Js.Str "Test"); ("lastName", Js.Str "Patient");
           ("insurance", Js.Obj [ ("providerName", Js.Str "MockIns");
                                  ("policyNumber", Js.Str "P123") ]) ].

Definition put_body : Js.value :=
  Js.Obj [ ("firstName", Js.Str "Test"); ("lastName", Js.Str "Updated");
           ("insurance", Js.Obj [ ("providerName", Js.Str "MockIns");
                                  ("policyNumber", Js.Str "P123") ]) ].

Definition after_create : Patients.table :=
  snd (AdminV1.createPatient [] created_env create_body).

Definition created_row : Patients.row :=
  Patients.assign_all
    (AdminV1.insertParams (AdminV1.newPatient created_env create_body))
    Patients.blank.

(** A second create for a stored name and date of birth. *)
Definition ann_again : Js.value :=
  Js.Obj [ ("firstName", Js.Str "Ann"); ("lastName", Js.Str "Lee");
           ("dateOfBirth", Js.Str "1990-01-02");
           ("insurance", Js.Obj [("providerName", Js.Str "Aetna")]) ].

(** The patient of the audit scenario after [PATCH {dateOfBirth: ""}],
    and a create that sends the same names and the same empty date. *)
Definition after_blank_dob : Patients.table :=
  snd (AdminV1.patchPatient after_create later_env
         "6f1c2a9e-0000-4000-8000-000000000001"
         (Js.Obj [("dateOfBirth", Js.Str "")])).

Definition create_blank_dob : Js.value :=
  Js.Obj [ ("firstName", Js.Str "Test"); ("lastName", Js.Str "Patient");
           ("dateOfBirth", Js.Str "");
           ("insurance", Js.Obj [ ("providerName", Js.Str "MockIns");
                                  ("policyNumber", Js.Str "P123") ]) ].

(** The name and date of birth of the stored rows. *)
Definition triple_of (r : Patients.row) : Sql.value * Sql.value * Sql.value :=
  (Patients.scalar r Patients.firstName, Patients.scalar r Patients.lastName,
   Patients.scalar r Patients.dateOfBirth).

(** [y-m-d] and [m/d/y]. *)
Definition dashed (y m d : string) : string := y ++ "-" ++ m ++ "-" ++ d.
Definition slashed (y m d : string) : string := m ++ "/" ++ d ++ "/" ++ y.

Definition no_dash (s : string) : Prop := Js.includes_char "-" s = false.

(** A stored patient whose last order carries a US-style dashed date. *)
Definition us_dated_order : Js.value :=
  Js.Obj [ ("id", Js.Str "ORD-2023-001"); ("date", Js.Str "01-15-2024");
           ("status", Js.Str "PENDING") ].

Definition patient_with_order : Patients.row :=
  Patients.assign (stored_patient "p1" "Ann" "Lee" "1990-01-02")
    (Patients.SetDoc Patients.lastOrder (Some us_dated_order)).

(** The properties [JSON.parse(JSON.stringify(...))] gives back for an
    object with the properties [fields]. *)
Definition reparse_fields (fields : list (string * Js.value))
  : list (string * Js.value) :=
  match Js.reparse (Js.Obj fields) with
  | Js.Obj kept => kept
  | _ => []
  end.




(** No stored row has the key. *)
Definition fresh_key (key : string) (db : Patients.table) : Prop :=
  forall r, In r db -> Patients.id_is key r = false.




(* ---------------------------------------------------------------------- *)
(** ** Vocabulary of the further properties *)
(* ---------------------------------------------------------------------- *)

(** The same list request for page [n]. *)
Definition at_page (query : AdminV1.list_query) (n : Z) : AdminV1.list_query :=
  AdminV1.mkListQuery (AdminV1.lq_q query) (Some (Conv.Finite n))
    (AdminV1.lq_pageSize query) (AdminV1.lq_sortBy query)
    (AdminV1.lq_sortMethod query) (AdminV1.lq_isPinned query).

(** The items of a list answer. *)
Definition page_items (r : Http.response AdminV1.listing) : list Js.value :=
  match r with
  | Http.Sent _ l => AdminV1.data l
  | Http.Failed _ => []
  end.

(** The page numbers 1 .. [pages]. *)
Definition page_numbers (pages : Z) : list Z :=
  map Z.of_nat (seq 1 (Z.to_nat pages)).

(** The rows a list request matches, in the order it asks for. *)
Definition matching_rows (db : Patients.table) (query : AdminV1.list_query)
    (column : Patients.row -> Sql.value) : list Patients.row :=
  Sql.order_by column
    (AdminV1.order_direction (AdminV1.listSort query) =? "DESC")%string
    (filter (AdminV1.whereClause (AdminV1.listWhere query)) db).

(** The number of pages a list request announces. *)
Definition pages_of (db : Patients.table) (query : AdminV1.list_query) : Z :=
  Conv.ceil_div (AdminV1.count_where (AdminV1.listWhere query) db)
    (page_size_of (AdminV1.lq_pageSize query)).

(** A page-size parameter that is given and is not an integer of 1..100. *)
Definition out_of_range (p : option Conv.number) : Prop :=
  p = Some Conv.NaN \/ exists n, p = Some (Conv.Finite n) /\ (n < 1 \/ 100 < n).

(** The size the lenient endpoint settles on for such a parameter. *)
Definition clamped (p : option Conv.number) : Z :=
  match p with
  | Some (Conv.Finite n) => if n =? 0 then 25 else if n <? 0 then 1 else 100
  | _ => 25
  end.


(** No stored patient has the name and date of birth of [patient]. *)
Definition no_namesake (patient : Js.value) (db : Patients.table) : Prop :=
  forall r, In r db -> AdminV1.same_name_and_dob patient r = false.

(** The table a handler leaves behind. *)
Definition table_after {A : Type} (answer : Http.response A * Patients.table)
  : Patients.table := snd answer.

(** The status code a handler answers with. *)
Definition status_of {A : Type} (answer : Http.response A) : Z :=
  match answer with
  | Http.Sent code _ => code
  | Http.Failed e => Http.code e
  end.



(** The parameters of the UPDATE the pin handler runs. *)
Definition pin_sets (e : AdminV1.env) (body : Js.value) (r : Patients.row)
  : list Patients.assignment :=
  [ Patients.SetScalar Patients.isPinned
      (Sql.Int (if Js.truthy (Js.get "isPinned" body) then 1 else 0));
    Patients.SetDoc Patients.metadata
      (Some (Pinning.mergedMeta (AdminV1.now e) (existing_meta r))) ].


Definition pin_false_text : Js.value := Js.Obj [("isPinned", Js.Str "false")].

(** The stored metadata is absent or a JSON object, as every handler
    writes it. *)
Definition metadata_is_object (r : Patients.row) : Prop :=
  match Patients.doc r Patients.metadata with
  | None | Some (Js.Obj _) => True
  | Some _ => False
  end.

(** Members of an object as JSON text keeps them: none is [undefined],
    and parsing the text back gives the member itself. *)
Definition json_members (fields : list (string * Js.value)) : Prop :=
  Forall (fun kv => snd kv <> Js.Undefined /\ Js.reparse (snd kv) = snd kv) fields.

(** The texts the pattern [\S+@\S+\.\S+] describes, white space apart:
    a local part, an [@], and a domain with a dot inside. *)
Definition address_shape (s : string) : Prop :=
  exists a b c, a <> "" /\ b <> "" /\ c <> "" /\ s = a ++ "@" ++ b ++ "." ++ c.

(** A legacy row filed under another [shipToId]. *)
Definition with_shipTo (s : Sql.value) (r : Legacy.row) : Legacy.row :=
  {| Legacy.patientKey := Legacy.patientKey r;
     Legacy.patientId := Legacy.patientId r;
     Legacy.shipToId := s;
     Legacy.firstName := Legacy.firstName r;
     Legacy.lastName := Legacy.lastName r;
     Legacy.dateOfBirth := Legacy.dateOfBirth r;
     Legacy.teamName := Legacy.teamName r;
     Legacy.primaryPayer := Legacy.primaryPayer r;
     Legacy.metadata := Legacy.metadata r |}.

(** The table with every row filed as [relabel] says. *)
Definition refiled (relabel : Legacy.row -> Sql.value) (db : Legacy.table)
  : Legacy.table :=
  map (fun r => with_shipTo (relabel r) r) db.

(** No stored legacy row has the key. *)
Definition fresh_legacy_key (key : string) (db : Legacy.table) : Prop :=
  forall r, In r db -> Legacy.key_is key r = false.

Definition legacy_body : Js.value :=
  Js.Obj [ ("firstName", Js.Str "Delete"); ("lastName", Js.Str "Test1");
           ("patientId", Js.Str "DEL001"); ("teamName", Js.Str "Test");
           ("dateOfBirth", Js.Str "1990-01-01") ].




(** [id = ?] on the sample users: the parameter is the decimal text of
    the id. *)
Definition decimal_match (n : Z) (key : string) : bool :=
  (Conv.decimal n =? key)%string.

Definition two_users : Users.table :=
  Users.mkTable
    [ Users.mkUser 1 (Sql.Text "Ann") (Sql.Text "ann@example.org");
      Users.mkUser 2 (Sql.Text "Bob") (Sql.Text "bob@example.org") ] 5.

Definition new_user : Js.value :=
  Js.Obj [("name", Js.Str "Cy"); ("email", Js.Str "cy@example.org")].

Definition rename_only : Js.value :=
  Js.Obj [("name", Js.Str "Anne"); ("email", Js.Str "")].

(** The method the JSON guard sees after the override middleware. *)
Definition effective_method (header query_method : option string)
    (req : Http.request) : string :=
  Js.toUpperCase
    (AdminV1.param_or header (AdminV1.param_or query_method (Http.method req))).

Definition unsupported_media_type : Http.error :=
  Http.handleError 415 "Content-Type must be application/json"
    (Some "INVALID_CONTENT_TYPE") Js.Null.


Definition no_headers : AdminV1.search_headers := AdminV1.mkHeaders None None.

Definition bad_search : AdminV1.search_query :=
  AdminV1.mkSearchQuery None (Some Conv.NaN) None None None None.

(** The integers a JavaScript number holds exactly
    ([Number.isSafeInteger]); SQLite binds each of them to LIMIT and
    OFFSET as it is. *)
Definition safe_integer (z : Z) : bool := (- 2 ^ 53 <? z) && (z <? 2 ^ 53).

(** The OFFSET of a page request, [(pageNo - 1) * pageSize] on the page
    number and size the handler settles on; [cap] is the endpoint's
    largest page size. *)
Definition offset_of (cap : Z) (pageNo pageSize : option Conv.number) : Z :=
  (Z.max 1 (Conv.number_or (Conv.Number pageNo) 1) - 1)
  * Z.max 1 (Z.min cap (Conv.number_or (Conv.Number pageSize) 25)).

(** The page window of a request can be bound. *)
Definition list_window (query : AdminV1.list_query) : Prop :=
  safe_integer (offset_of 100 (AdminV1.lq_pageNo query) (AdminV1.lq_pageSize query))
  = true.

Definition search_window (query : AdminV1.search_query) : Prop :=
  safe_integer (offset_of 100 (AdminV1.sq_pageNo query) (AdminV1.sq_pageSize query))
  = true.


(* ====================================================================== *)
(** * Properties *)
(* ====================================================================== *)

(** ** The JSON content-type guard *)

Lemma has_true_iff (set : list string) (s : string) :
  existsb (String.eqb s) set = true <-> In s set.
Proof.
  rewrite existsb_exists. split.
  - intros [x [Hin Heq]]. apply String.eqb_eq in Heq. now subst.
  - intros Hin. exists s. split; [assumption | apply String.eqb_refl].
Qed.

(** C10. A POST, PUT or PATCH request for which [req.is("application/json")]
    is not a match (another content type, or no body) is answered with
    the 415 envelope, unless its path starts with [/api/apic/]; such a
    path is passed on whatever the method and content type. *)
Theorem requireJson_guard (req : Http.request) :
  (Js.startsWith "/api/apic/" (Http.path req) = false ->
   In (Js.toUpperCase (Http.method req)) ["POST"; "PUT"; "PATCH"] ->
   Http.is_json req <> Http.Matched ->
   exists e, Http.requireJson req = Http.Respond e
             /\ Http.code e = 415
             /\ Http.message e = "Content-Type must be application/json"
             /\ Http.errorCode e = Some "INVALID_CONTENT_TYPE")
  /\ (Js.startsWith "/api/apic/" (Http.path req) = true ->
      Http.requireJson req = Http.Next).
Proof.
  unfold Http.requireJson. split.
  - intros Hpath Hmethod Hjson. rewrite Hpath.
    apply has_true_iff in Hmethod.
    unfold Http.modifying_methods. rewrite Hmethod.
    destruct (Http.is_json req); [contradiction | |];
      (eexists; split; [reflexivity | repeat split]).
  - intros Hpath. now rewrite Hpath.
Qed.

Lemma requireJson_guard_witness :
  (exists e, Http.requireJson (Http.mkRequest "/api/v1/patients" "patch" Http.NoBody)
             = Http.Respond e
             /\ Http.code e = 415
             /\ Http.message e = "Content-Type must be application/json"
             /\ Http.errorCode e = Some "INVALID_CONTENT_TYPE")
  /\ Http.requireJson (Http.mkRequest "/api/apic/token" "POST" Http.NoMatch) = Http.Next.
Proof.
  split.
  - apply (requireJson_guard (Http.mkRequest "/api/v1/patients" "patch" Http.NoBody)).
    + reflexivity.
    + simpl. right. right. left. reflexivity.
    + discriminate.
  - apply (requireJson_guard (Http.mkRequest "/api/apic/token" "POST" Http.NoMatch)).
    reflexivity.
Defined.

(** ** PATCH: validation before any write *)

Lemma defined_true (v : Js.value) : v <> Js.Undefined -> Js.defined v = true.
Proof. destruct v; intros H; try reflexivity. contradiction. Qed.

Lemma patchFields_empty (body : Js.value) :
  no_updatable_field body -> AdminV1.patchFields body = inr [].
Proof.
  intros H. unfold AdminV1.patchFields.
  repeat match goal with
         | |- context [Js.get ?k body] =>
             rewrite (H k) by (unfold patch_keys; simpl; tauto)
         end.
  reflexivity.
Qed.

Lemma patchFields_bad_gender (body : Js.value) :
  outside "gender" AdminV1.genders body ->
  AdminV1.patchFields body = inl (AdminV1.bad_request "Invalid gender").
Proof.
  intros [Hdef Hout]. unfold AdminV1.patchFields.
  rewrite (defined_true _ Hdef), Hout. reflexivity.
Qed.

Lemma patchFields_bad_status (body : Js.value) :
  outside "status" AdminV1.statuses body ->
  exists msg, AdminV1.patchFields body = inl (AdminV1.bad_request msg).
Proof.
  intros [Hdef Hout]. unfold AdminV1.patchFields.
  destruct (Js.defined (Js.get "gender" body)
            && negb (Js.includes AdminV1.genders (Js.get "gender" body))).
  - eexists. reflexivity.
  - rewrite (defined_true _ Hdef), Hout. eexists. reflexivity.
Qed.

(** C5. A PATCH whose body names no updatable field, or gives a gender
    outside MALE/FEMALE/OTHER, or a status outside
    ACTIVE/DISCHARGED/PENDING, is answered with a 400 envelope and the
    table is left as it was. *)
Theorem patchPatient_rejects_before_write
    (db : Patients.table) (e : AdminV1.env) (key : string) (body : Js.value) :
  let sent := AdminV1.body_or_empty body in
  no_updatable_field sent
  \/ outside "gender" AdminV1.genders sent
  \/ outside "status" AdminV1.statuses sent ->
  exists err, AdminV1.patchPatient db e key body = (Http.Failed err, db)
              /\ Http.code err = 400.
Proof.
  intros sent H. unfold AdminV1.patchPatient. fold sent.
  destruct (key =? "")%string.
  - eexists. split; reflexivity.
  - destruct H as [H | [H | H]].
    + rewrite (patchFields_empty _ H). simpl. eexists. split; reflexivity.
    + rewrite (patchFields_bad_gender _ H). eexists. split; reflexivity.
    + destruct (patchFields_bad_status _ H) as [msg Hmsg]. rewrite Hmsg.
      eexists. split; reflexivity.
Qed.

Lemma patchPatient_rejects_before_write_witness :
  exists err,
    AdminV1.patchPatient [] sample_env "p1" (Js.Obj [("status", Js.Str "GONE")])
    = (Http.Failed err, []) /\ Http.code err = 400.
Proof.
  apply (patchPatient_rejects_before_write [] sample_env "p1"
           (Js.Obj [("status", Js.Str "GONE")])).
  right. right. split; [discriminate | reflexivity].
Defined.

(** ** Lists and filters *)

Lemma key_is_inj (k k' : string) (r : Legacy.row) :
  Legacy.key_is k r = true -> Legacy.key_is k' r = true -> k = k'.
Proof.
  unfold Legacy.key_is, Sql.text_eq. simpl.
  destruct (Sql.as_text (Legacy.patientKey r)); try discriminate.
  intros H1 H2. apply String.eqb_eq in H1, H2. congruence.
Qed.

Lemma find_filter_none {A : Type} (p q : A -> bool) (l : list A) :
  (forall x, q x = true -> p x = false) -> find p (filter q l) = None.
Proof.
  intros H. induction l as [| x l IH]; simpl; [reflexivity |].
  destruct (q x) eqn:Hq; [| assumption].
  simpl. now rewrite (H x Hq).
Qed.

Lemma filter_filter {A : Type} (p q : A -> bool) (l : list A) :
  filter p (filter q l) = filter (fun x => q x && p x) l.
Proof.
  induction l as [| x l IH]; simpl; [reflexivity |].
  destruct (q x); simpl; [destruct (p x) |]; now rewrite ?IH.
Qed.

Lemma length_filter_zero {A : Type} (p : A -> bool) (l : list A) :
  (Z.of_nat (List.length (filter p l)) =? 0) = negb (existsb p l).
Proof.
  induction l as [| x l IH]; simpl; [reflexivity |].
  destruct (p x); simpl; [| assumption].
  first [reflexivity | apply Z.eqb_neq; lia].
Qed.

Lemma find_all_false {A : Type} (p : A -> bool) (l : list A) :
  (forall x, In x l -> p x = false) -> find p l = None.
Proof.
  intros H. induction l as [| x l IH]; simpl; [reflexivity |].
  rewrite (H x) by (simpl; tauto). apply IH. intros y Hy. apply H. simpl. tauto.
Qed.

Lemma existsb_all_false {A : Type} (p : A -> bool) (l : list A) :
  (forall x, In x l -> p x = false) -> existsb p l = false.
Proof.
  intros H. induction l as [| x l IH]; simpl; [reflexivity |].
  rewrite (H x) by (simpl; tauto). apply IH. intros y Hy. apply H. simpl. tauto.
Qed.

Lemma find_app_last {A : Type} (p : A -> bool) (l : list A) (x : A) :
  find p l = None -> p x = true -> find p (l ++ [x]) = Some x.
Proof.
  intros Hnone Hx. induction l as [| y l IH]; simpl in *.
  - now rewrite Hx.
  - destruct (p y); [discriminate | now apply IH].
Qed.

Lemma find_in_filter {A : Type} (p : A -> bool) (l : list A) (x : A) :
  find p l = Some x -> In x (filter p l).
Proof.
  intros H. apply find_some in H. apply filter_In. exact H.
Qed.

Lemma find_exists {A : Type} (p : A -> bool) (l : list A) (x : A) :
  In x l -> p x = true -> exists y, find p l = Some y.
Proof.
  intros Hin Hp. destruct (find p l) eqn:E; [eauto |].
  now rewrite (find_none p l E x Hin) in Hp.
Qed.

Lemma existsb_filter_other (key k : string) (db : Legacy.table) :
  key <> k ->
  existsb (Legacy.key_is k) (filter (fun r => negb (Legacy.key_is key r)) db)
  = existsb (Legacy.key_is k) db.
Proof.
  intros Hne. induction db as [| r db IH]; simpl; [reflexivity |].
  destruct (Legacy.key_is key r) eqn:Hkey; simpl.
  - destruct (Legacy.key_is k r) eqn:Hk; [| assumption].
    exfalso. apply Hne. eapply key_is_inj; eassumption.
  - now rewrite IH.
Qed.

(** ** Pagination *)

Lemma ceil_div_is_ceiling (total size : Z) :
  0 <= total -> 0 < size -> is_ceiling (Conv.ceil_div total size) total size.
Proof.
  intros Htotal Hsize. unfold is_ceiling, Conv.ceil_div.
  pose proof (Z.div_mod (total + size - 1) size) as Hdiv.
  pose proof (Z.mod_pos_bound (total + size - 1) size Hsize) as Hmod.
  nia.
Qed.

Lemma ceil_div_zero (size : Z) : 0 < size -> Conv.ceil_div 0 size = 0.
Proof.
  intros Hsize. unfold Conv.ceil_div. apply Z.div_small. lia.
Qed.

Lemma listSort_allowed (query : AdminV1.list_query) :
  In (AdminV1.order_column (AdminV1.listSort query)) AdminV1.allowedSort.
Proof.
  unfold AdminV1.listSort. cbn [AdminV1.order_column].
  match goal with
  | |- context [if ?c then _ else _] => destruct c eqn:Hhas
  end.
  - unfold AdminV1.has in Hhas. now apply has_true_iff in Hhas.
  - simpl. tauto.
Qed.

Lemma searchSort_fixed (query : AdminV1.search_query) :
  In (AdminV1.order_column (AdminV1.searchSort query))
     ["lastName"; "firstName"; "id"; "team"; "address"].
Proof.
  unfold AdminV1.searchSort.
  destruct (AdminV1.sq_sortBy query) as [sortBy |]; [| simpl; tauto].
  repeat match goal with
         | |- context [if ?c then _ else _] => destruct c
         end; simpl; tauto.
Qed.

Lemma listSort_column (query : AdminV1.list_query) :
  exists column,
    Patients.column_by_name (AdminV1.order_column (AdminV1.listSort query))
    = Some column.
Proof.
  pose proof (listSort_allowed query) as H.
  destruct H as [H | [H | [H | [H | []]]]]; rewrite <- H; eexists; reflexivity.
Qed.

Lemma searchSort_column (query : AdminV1.search_query) :
  exists column,
    Patients.column_by_name (AdminV1.order_column (AdminV1.searchSort query))
    = Some column.
Proof.
  pose proof (searchSort_fixed query) as H.
  destruct H as [H | [H | [H | [H | [H | []]]]]]; rewrite <- H; eexists; reflexivity.
Qed.

Lemma page_size_positive (p : option Conv.number) : 1 <= page_size_of p.
Proof. unfold page_size_of. lia. Qed.

(** C3. The list and the search endpoint count [totalRecords] over the
    very WHERE clause the page query scans, and [pagesCount] is the
    ceiling of [totalRecords / pageSize]; on an empty table both answer
    [totalRecords = 0], [pagesCount = 0] and no items. The requests are
    those the endpoints answer with a page: the page window can be
    bound and, for the search, the two headers are there and the query
    passes validation. *)
Theorem pagesCount_is_ceiling (db : Patients.table) :
  (forall query,
      list_window query ->
      exists l column desc,
      let matching := filter (AdminV1.whereClause (AdminV1.listWhere query)) db in
      AdminV1.listPatients db query = Http.Sent 200 l
      /\ AdminV1.curentPageSize l = page_size_of (AdminV1.lq_pageSize query)
      /\ AdminV1.totalRecords l = Z.of_nat (List.length matching)
      /\ is_ceiling (AdminV1.pagesCount l) (AdminV1.totalRecords l)
                    (AdminV1.curentPageSize l)
      /\ AdminV1.data l
         = map Patients.rowToPatient
             (Sql.limit_offset (AdminV1.curentPageSize l)
                ((AdminV1.pageNo l - 1) * AdminV1.curentPageSize l)
                (Sql.order_by column desc matching)))
  /\ (forall headers query,
      AdminV1.present (AdminV1.authorization headers) = true ->
      AdminV1.present (AdminV1.ping_authorization headers) = true ->
      AdminV1.searchErrors query = [] ->
      search_window query ->
      exists r column desc,
      let matching := filter (AdminV1.whereClause (AdminV1.searchWhere query)) db in
      let size := page_size_of (AdminV1.sq_pageSize query) in
      AdminV1.searchPatients db headers query = Http.Sent 200 r
      /\ AdminV1.sr_totalRecords r = Z.of_nat (List.length matching)
      /\ is_ceiling (AdminV1.sr_pagesCount r) (AdminV1.sr_totalRecords r) size
      /\ AdminV1.sr_patients r
         = map AdminV1.rowToPatientSearch
             (Sql.limit_offset size ((AdminV1.sr_pageNo r - 1) * size)
                (Sql.order_by column desc matching)))
  /\ (forall query,
      list_window query ->
      exists l,
      AdminV1.listPatients [] query = Http.Sent 200 l
      /\ AdminV1.totalRecords l = 0 /\ AdminV1.pagesCount l = 0
      /\ AdminV1.data l = [])
  /\ (forall headers query,
      AdminV1.present (AdminV1.authorization headers) = true ->
      AdminV1.present (AdminV1.ping_authorization headers) = true ->
      AdminV1.searchErrors query = [] ->
      search_window query ->
      exists r,
      AdminV1.searchPatients [] headers query = Http.Sent 200 r
      /\ AdminV1.sr_totalRecords r = 0 /\ AdminV1.sr_pagesCount r = 0
      /\ AdminV1.sr_patients r = []).
Proof.
  split; [| split; [| split]].
  - intros query _. unfold AdminV1.listPatients, AdminV1.select_page.
    destruct (listSort_column query) as [column Hcolumn]. rewrite Hcolumn.
    eexists. exists column. eexists.
    split; [reflexivity |].
    cbn [AdminV1.totalRecords AdminV1.pagesCount AdminV1.curentPageSize
         AdminV1.data AdminV1.pageNo].
    split; [reflexivity |]. split; [reflexivity |].
    split; [| reflexivity].
    apply ceil_div_is_ceiling; [apply Nat2Z.is_nonneg |].
    pose proof (page_size_positive (AdminV1.lq_pageSize query)). lia.
  - intros headers query Hauth Hping Hvalid _.
    unfold AdminV1.searchPatients, AdminV1.select_page.
    rewrite Hauth, Hping, Hvalid. cbn [negb List.length Z.of_nat Z.ltb Z.compare].
    destruct (searchSort_column query) as [column Hcolumn]. rewrite Hcolumn.
    eexists. exists column. eexists.
    split; [reflexivity |].
    cbn [AdminV1.sr_totalRecords AdminV1.sr_pagesCount AdminV1.sr_patients
         AdminV1.sr_pageNo].
    split; [reflexivity |].
    split; [| reflexivity].
    apply ceil_div_is_ceiling; [apply Nat2Z.is_nonneg |].
    pose proof (page_size_positive (AdminV1.sq_pageSize query)). lia.
  - intros query _. unfold AdminV1.listPatients, AdminV1.select_page.
    destruct (listSort_column query) as [column Hcolumn]. rewrite Hcolumn.
    eexists. split; [reflexivity |].
    cbn [AdminV1.totalRecords AdminV1.pagesCount AdminV1.data].
    split; [reflexivity |]. split.
    + unfold AdminV1.count_where. simpl. apply ceil_div_zero. lia.
    + unfold Sql.limit_offset. simpl. now rewrite skipn_nil, firstn_nil.
  - intros headers query Hauth Hping Hvalid _.
    unfold AdminV1.searchPatients, AdminV1.select_page.
    rewrite Hauth, Hping, Hvalid. cbn [negb List.length Z.of_nat Z.ltb Z.compare].
    destruct (searchSort_column query) as [column Hcolumn]. rewrite Hcolumn.
    eexists. split; [reflexivity |].
    cbn [AdminV1.sr_totalRecords AdminV1.sr_pagesCount AdminV1.sr_patients].
    split; [reflexivity |]. split.
    + unfold AdminV1.count_where. simpl. apply ceil_div_zero. lia.
    + unfold Sql.limit_offset. simpl. now rewrite skipn_nil, firstn_nil.
Qed.

Lemma pagesCount_is_ceiling_witness :
  (exists l, AdminV1.listPatients three_patients page_of_two = Http.Sent 200 l
             /\ AdminV1.totalRecords l = 3 /\ AdminV1.pagesCount l = 2
             /\ List.length (AdminV1.data l) = 2%nat)
  /\ (exists r, AdminV1.searchPatients three_patients sample_headers sample_search
                = Http.Sent 200 r
                /\ AdminV1.sr_totalRecords r = 3 /\ AdminV1.sr_pagesCount r = 1)
  /\ (exists r, AdminV1.searchPatients [] sample_headers sample_search = Http.Sent 200 r
                /\ AdminV1.sr_totalRecords r = 0 /\ AdminV1.sr_pagesCount r = 0
                /\ AdminV1.sr_patients r = []).
Proof.
  destruct (pagesCount_is_ceiling three_patients) as (Hlist & Hsearch & _ & _).
  destruct (pagesCount_is_ceiling []) as (_ & _ & _ & Hempty).
  split; [| split].
  - destruct (Hlist page_of_two eq_refl)
      as (l & column & desc & Heq & Hsize & Htotal & Hceil & Hdata).
    exists l. split; [exact Heq |].
    change (AdminV1.totalRecords l = 3) in Htotal.
    change (AdminV1.curentPageSize l = 2) in Hsize.
    rewrite Htotal, Hsize in Hceil. unfold is_ceiling in Hceil.
    split; [exact Htotal |]. split; [lia |].
    assert (List.length (page_items (AdminV1.listPatients three_patients page_of_two))
            = 2%nat) as Hitems by (vm_compute; reflexivity).
    rewrite Heq in Hitems. exact Hitems.
  - destruct (Hsearch sample_headers sample_search eq_refl eq_refl eq_refl eq_refl)
      as (r & column & desc & Heq & Htotal & Hceil & _).
    exists r. split; [exact Heq |].
    change (AdminV1.sr_totalRecords r = 3) in Htotal.
    rewrite Htotal in Hceil.
    change (page_size_of (AdminV1.sq_pageSize sample_search)) with 25 in Hceil.
    unfold is_ceiling in Hceil.
    split; [exact Htotal | lia].
  - apply (Hempty sample_headers sample_search); reflexivity.
Defined.

(** ** The sort allow-lists *)

Lemma has_false (set : list string) (s : string) :
  ~ In s set -> existsb (String.eqb s) set = false.
Proof.
  intros H. destruct (existsb (String.eqb s) set) eqn:E; [| reflexivity].
  apply has_true_iff in E. contradiction.
Qed.

Lemma eqb_empty_false (s : string) : s <> "" -> (s =? "")%string = false.
Proof. intros H. now apply String.eqb_neq. Qed.

Lemma legacy_param_or_some (s d : string) :
  s <> "" -> Legacy.param_or (Some s) d = s.
Proof. intros H. unfold Legacy.param_or. now rewrite (eqb_empty_false s H). Qed.

Lemma legacy_dbSort_fixed (shipToId : string) (query : Legacy.query) (p : Legacy.plan) :
  Legacy.searchPlan shipToId query = inr p ->
  In (Legacy.dbSort p) legacy_sort_columns.
Proof.
  unfold Legacy.searchPlan.
  destruct (shipToId =? "")%string; [discriminate |].
  destruct (negb _); [discriminate |].
  intros H. inversion H; subst; clear H. cbn [Legacy.dbSort].
  repeat match goal with
         | |- context [if ?c then _ else _] => destruct c
         end; simpl; tauto.
Qed.

Lemma search_rejects_sortBy (query : AdminV1.search_query) (s : string) :
  AdminV1.sq_sortBy query = Some s -> s <> "" ->
  ~ In s AdminV1.ALLOWED_SORT_FIELDS_V2 ->
  (0 <? Z.of_nat (List.length (AdminV1.searchErrors query))) = true.
Proof.
  intros Hs Hne Hnot. unfold AdminV1.searchErrors. cbv zeta.
  rewrite Hs. unfold AdminV1.present, AdminV1.param_or, AdminV1.has.
  rewrite (eqb_empty_false s Hne), (has_false _ _ Hnot).
  cbn [negb andb].
  apply Z.ltb_lt.
  match goal with
  | |- context [if ?c then _ else _] => destruct c
  end; rewrite ?length_app; simpl; lia.
Qed.

(** C4 (amended). A non-empty [sortBy] outside the allow-list is
    rejected with a 400 by the two strict endpoints (the search of the
    admin generation once its two headers are there) and replaced by
    [firstName] by the lenient one; and whatever the request, the column
    of the ORDER BY clause is one of a fixed list of column names. An
    empty [sortBy] counts as absent on each of the three endpoints: the
    answer is that of the request without the parameter, and the column
    is the default one, [firstName] for the legacy search and the list,
    [lastName] for the search of the admin generation. *)
Theorem sortBy_allow_list :
  (forall db shipToId query s,
      shipToId <> "" ->
      Legacy.sortBy query = Some s -> s <> "" ->
      ~ In s Legacy.ALLOWED_SORT_FIELDS ->
      Legacy.searchPatients db shipToId query = Http.Failed Legacy.sort_error
      /\ Http.code Legacy.sort_error = 400)
  /\ (forall db headers query s,
      AdminV1.present (AdminV1.authorization headers) = true ->
      AdminV1.present (AdminV1.ping_authorization headers) = true ->
      AdminV1.sq_sortBy query = Some s -> s <> "" ->
      ~ In s AdminV1.ALLOWED_SORT_FIELDS_V2 ->
      exists e, AdminV1.searchPatients db headers query = Http.Failed e
                /\ Http.code e = 400)
  /\ (forall query s,
      AdminV1.lq_sortBy query = Some s ->
      ~ In s AdminV1.allowedSort ->
      AdminV1.order_column (AdminV1.listSort query) = "firstName")
  /\ (forall shipToId query p,
      Legacy.searchPlan shipToId query = inr p ->
      In (Legacy.dbSort p) legacy_sort_columns)
  /\ (forall query,
      In (AdminV1.order_column (AdminV1.listSort query)) AdminV1.allowedSort)
  /\ (forall query,
      In (AdminV1.order_column (AdminV1.searchSort query)) search_sort_columns)
  /\ (forall db shipToId query,
      shipToId <> "" ->
      Legacy.sortBy query = Some "" ->
      Legacy.searchPatients db shipToId query
      = Legacy.searchPatients db shipToId (legacy_no_sortBy query)
      /\ exists p, Legacy.searchPlan shipToId query = inr p
                   /\ Legacy.dbSort p = "firstName")
  /\ (forall db headers query,
      AdminV1.sq_sortBy query = Some "" ->
      AdminV1.searchPatients db headers query
      = AdminV1.searchPatients db headers (search_no_sortBy query)
      /\ AdminV1.order_column (AdminV1.searchSort query) = "lastName")
  /\ (forall db query,
      AdminV1.lq_sortBy query = Some "" ->
      AdminV1.listPatients db query = AdminV1.listPatients db (list_no_sortBy query)
      /\ AdminV1.order_column (AdminV1.listSort query) = "firstName").
Proof.
  split; [| split; [| split; [| split; [| split; [| split; [| split; [| split]]]]]]].
  - intros db shipToId query s Hship Hs Hne Hnot.
    split; [| reflexivity].
    unfold Legacy.searchPatients, Legacy.searchPlan.
    rewrite (eqb_empty_false _ Hship), Hs.
    rewrite (legacy_param_or_some s _ Hne).
    unfold Legacy.has. rewrite (has_false _ _ Hnot). reflexivity.
  - intros db headers query s Hauth Hping Hs Hne Hnot.
    unfold AdminV1.searchPatients. rewrite Hauth, Hping.
    cbn [negb]. rewrite (search_rejects_sortBy query s Hs Hne Hnot).
    eexists. split; reflexivity.
  - intros query s Hs Hnot. unfold AdminV1.listSort. cbn [AdminV1.order_column].
    rewrite Hs. unfold AdminV1.param_or.
    destruct (s =? "")%string; [reflexivity |].
    unfold AdminV1.has. now rewrite (has_false _ _ Hnot).
  - apply legacy_dbSort_fixed.
  - apply listSort_allowed.
  - apply searchSort_fixed.
  - intros db shipToId query Hship Hs. split.
    + unfold Legacy.searchPatients, Legacy.searchPlan, legacy_no_sortBy.
      cbn [Legacy.q Legacy.pageNo Legacy.pageSize Legacy.sortBy Legacy.sortDir
           Legacy.soldTo].
      rewrite Hs. reflexivity.
    + unfold Legacy.searchPlan. rewrite (eqb_empty_false _ Hship), Hs.
      eexists. split; reflexivity.
  - intros db headers query Hs. split.
    + unfold AdminV1.searchPatients, AdminV1.searchErrors, AdminV1.searchSort,
        AdminV1.searchWhere, search_no_sortBy.
      cbn [AdminV1.sq_soldTo AdminV1.sq_pageNo AdminV1.sq_pageSize AdminV1.sq_sortBy
           AdminV1.sq_sortMethod AdminV1.sq_q].
      rewrite Hs. reflexivity.
    + unfold AdminV1.searchSort. rewrite Hs. reflexivity.
  - intros db query Hs. split.
    + unfold AdminV1.listPatients, AdminV1.listSort, AdminV1.listWhere, list_no_sortBy.
      cbn [AdminV1.lq_q AdminV1.lq_pageNo AdminV1.lq_pageSize AdminV1.lq_sortBy
           AdminV1.lq_sortMethod AdminV1.lq_isPinned].
      rewrite Hs. reflexivity.
    + unfold AdminV1.listSort. rewrite Hs. reflexivity.
Qed.

Lemma sortBy_allow_list_witness :
  Legacy.searchPatients [] "1563073"
    (Legacy.mkQuery None None None (Some "shipToId; DROP TABLE patients") None None)
  = Http.Failed Legacy.sort_error
  /\ (exists e, AdminV1.searchPatients [] sample_headers
                  (AdminV1.mkSearchQuery (Some "1563073") None None
                     (Some "lastName") None None)
                = Http.Failed e /\ Http.code e = 400)
  /\ AdminV1.order_column
       (AdminV1.listSort (AdminV1.mkListQuery None None None (Some "id; --") None None))
     = "firstName"
  /\ In "firstName" legacy_sort_columns
  /\ (exists p, Legacy.searchPlan "1563073" empty_sortBy = inr p
                /\ Legacy.dbSort p = "firstName").
Proof.
  destruct sortBy_allow_list
    as (Hlegacy & Hsearch & Hlist & Hplan & _ & _ & Hempty & _ & _).
  split; [| split; [| split; [| split]]].
  - apply (Hlegacy [] "1563073" _ "shipToId; DROP TABLE patients");
      [discriminate | reflexivity | discriminate |].
    simpl. intuition discriminate.
  - apply (Hsearch [] sample_headers _ "lastName");
      [reflexivity | reflexivity | reflexivity | discriminate |].
    simpl. intuition discriminate.
  - apply (Hlist _ "id; --"); [reflexivity |].
    simpl. intuition discriminate.
  - apply (Hplan "1563073" (Legacy.mkQuery None None None None None None)
             (Legacy.mkPlan "" 1 25 "firstName" "ASC")).
    reflexivity.
  - apply (Hempty [] "1563073" empty_sortBy); [discriminate | reflexivity].
Defined.

(** C4, as stated, fails on the empty [sortBy]: it is not in the
    allow-list, and the strict endpoint answers 200 with the default
    sort instead of a validation error. *)
Lemma strict_sortBy_empty_is_accepted :
  ~ In "" Legacy.ALLOWED_SORT_FIELDS
  /\ Legacy.sortBy empty_sortBy = Some ""
  /\ exists page, Legacy.searchPatients [] "1563073" empty_sortBy = Http.Sent 200 page.
Proof.
  split; [simpl; intuition discriminate |].
  split; [reflexivity |].
  eexists. reflexivity.
Qed.

(** ** Reading a row after an UPDATE *)

Lemma assign_all_snoc (fields : list Patients.assignment) (a : Patients.assignment)
    (r : Patients.row) :
  Patients.assign_all (fields ++ [a]) r = Patients.assign (Patients.assign_all fields r) a.
Proof. unfold Patients.assign_all. now rewrite fold_left_app. Qed.

Lemma scalar_add_if_scalar (p : bool) (c' : Patients.scol) (v : Sql.value)
    (fields : list Patients.assignment) (r : Patients.row) (c : Patients.scol) :
  Patients.scalar (Patients.assign_all (AdminV1.add_if p (Patients.SetScalar c' v) fields) r) c
  = if p && Patients.scol_beq c' c then Patients.affinity c' v
    else Patients.scalar (Patients.assign_all fields r) c.
Proof.
  unfold AdminV1.add_if. destruct p; [| reflexivity].
  rewrite assign_all_snoc. reflexivity.
Qed.

Lemma scalar_add_if_doc (p : bool) (c' : Patients.dcol) (v : option Js.value)
    (fields : list Patients.assignment) (r : Patients.row) (c : Patients.scol) :
  Patients.scalar (Patients.assign_all (AdminV1.add_if p (Patients.SetDoc c' v) fields) r) c
  = Patients.scalar (Patients.assign_all fields r) c.
Proof.
  unfold AdminV1.add_if. destruct p; [| reflexivity].
  rewrite assign_all_snoc. reflexivity.
Qed.

Lemma doc_add_if_doc (p : bool) (c' : Patients.dcol) (v : option Js.value)
    (fields : list Patients.assignment) (r : Patients.row) (c : Patients.dcol) :
  Patients.doc (Patients.assign_all (AdminV1.add_if p (Patients.SetDoc c' v) fields) r) c
  = if p && Patients.dcol_beq c' c then v
    else Patients.doc (Patients.assign_all fields r) c.
Proof.
  unfold AdminV1.add_if. destruct p; [| reflexivity].
  rewrite assign_all_snoc. reflexivity.
Qed.

Lemma doc_add_if_scalar (p : bool) (c' : Patients.scol) (v : Sql.value)
    (fields : list Patients.assignment) (r : Patients.row) (c : Patients.dcol) :
  Patients.doc (Patients.assign_all (AdminV1.add_if p (Patients.SetScalar c' v) fields) r) c
  = Patients.doc (Patients.assign_all fields r) c.
Proof.
  unfold AdminV1.add_if. destruct p; [| reflexivity].
  rewrite assign_all_snoc. reflexivity.
Qed.

Lemma length_add_if_ge (p : bool) (a : Patients.assignment)
    (fields : list Patients.assignment) :
  (List.length fields <= List.length (AdminV1.add_if p a fields))%nat.
Proof.
  unfold AdminV1.add_if. destruct p; [rewrite length_app; simpl |]; lia.
Qed.

Lemma length_add_if_true (a : Patients.assignment)
    (fields : list Patients.assignment) :
  (0 < List.length (AdminV1.add_if true a fields))%nat.
Proof. unfold AdminV1.add_if. rewrite length_app. simpl. lia. Qed.

(** The first row with the key, after every row with the key went
    through [g], when [g] keeps the key. *)
Lemma find_after_update (key : string) (g : Patients.row -> Patients.row)
    (db : Patients.table) :
  (forall r, Patients.scalar (g r) Patients.id = Patients.scalar r Patients.id) ->
  find (Patients.id_is key)
       (map (fun r => if Patients.id_is key r then g r else r) db)
  = option_map g (find (Patients.id_is key) db).
Proof.
  intros Hid. induction db as [| x db IH]; simpl; [reflexivity |].
  destruct (Patients.id_is key x) eqn:Hx.
  - unfold Patients.id_is in *. rewrite Hid, Hx. reflexivity.
  - rewrite Hx. exact IH.
Qed.

Lemma bind_not_null (v : Js.value) :
  v <> Js.Undefined -> v <> Js.Null ->
  Sql.is_null (Sql.as_text (Sql.bind v)) = false.
Proof.
  destruct v as [| | b | z | s | l | fs]; intros H1 H2; try reflexivity;
    try contradiction.
  cbn [Sql.bind]. destruct (Sql.int32 z); reflexivity.
Qed.

(** ** The NOT NULL constraints are an invariant of the table *)

Lemma table_ok_nil : table_ok [].
Proof. intros r []. Qed.

Lemma insert_table_ok (sets : list Patients.assignment) (db db' : Patients.table) :
  table_ok db -> Patients.insert sets db = inr db' -> table_ok db'.
Proof.
  unfold Patients.insert. intros Hok.
  destruct (negb (Patients.not_null_ok _)) eqn:Hnew; [discriminate |].
  destruct (existsb _ db); [discriminate |].
  intros H. injection H as <-. intros r Hin.
  apply in_app_or in Hin. destruct Hin as [Hin | [<- | []]].
  - now apply Hok.
  - now apply negb_false_iff in Hnew.
Qed.

(** An UPDATE that breaks no NOT NULL constraint goes through. *)
Lemma update_where_id_ok (key : string) (sets : list Patients.assignment)
    (db : Patients.table) :
  (forall x, In x db -> Patients.id_is key x = true ->
             Patients.not_null_ok (Patients.assign_all sets x) = true) ->
  Patients.update_where_id key sets db
  = inr (updated key sets db,
         Z.of_nat (List.length (filter (Patients.id_is key) db))).
Proof.
  intros Hok. unfold Patients.update_where_id. cbv zeta.
  rewrite find_all_false; [reflexivity |].
  intros x Hx. apply filter_In in Hx as [Hin Hid].
  now rewrite (Hok x Hin Hid).
Qed.

Lemma update_where_id_done (key : string) (sets : list Patients.assignment)
    (db db' : Patients.table) (changes : Z) :
  Patients.update_where_id key sets db = inr (db', changes) ->
  db' = updated key sets db
  /\ changes = Z.of_nat (List.length (filter (Patients.id_is key) db))
  /\ forall x, In x db -> Patients.id_is key x = true ->
               Patients.not_null_ok (Patients.assign_all sets x) = true.
Proof.
  unfold Patients.update_where_id. cbv zeta.
  destruct (find _ _) eqn:Hfind; [discriminate |].
  intros [= <- <-]. split; [reflexivity |]. split; [reflexivity |].
  intros x Hin Hid.
  pose proof (find_none _ _ Hfind x) as Hnone. cbv beta in Hnone.
  apply negb_false_iff. apply Hnone. apply filter_In. now split.
Qed.

Lemma update_table_ok (key : string) (sets : list Patients.assignment)
    (db db' : Patients.table) (changes : Z) :
  table_ok db -> Patients.update_where_id key sets db = inr (db', changes) ->
  table_ok db'.
Proof.
  intros Hok H. apply update_where_id_done in H as (-> & _ & Hall).
  intros r Hin. unfold updated in Hin.
  apply in_map_iff in Hin. destruct Hin as (x & <- & Hx).
  destruct (Patients.id_is key x) eqn:Hid.
  - now apply Hall.
  - now apply Hok.
Qed.

Lemma found_changes (key : string) (db : Patients.table) (r : Patients.row) :
  Patients.select_by_id key db = Some r ->
  (Z.of_nat (List.length (filter (Patients.id_is key) db)) =? 0) = false.
Proof.
  intros Hfound. apply Z.eqb_neq.
  pose proof (find_in_filter _ _ _ Hfound) as Hin.
  destruct (filter (Patients.id_is key) db); [contradiction | simpl; lia].
Qed.

Lemma delete_table_ok (key : string) (db : Patients.table) :
  table_ok db -> table_ok (fst (Patients.delete_where_id key db)).
Proof.
  intros Hok r Hin. simpl in Hin. apply filter_In in Hin. now apply Hok.
Qed.

(** ** PATCH: what is written *)

Ltac inl_or_fields H :=
  unfold AdminV1.patchFields in H; cbv beta zeta in H;
  repeat match type of H with
         | (if ?c then inl _ else _) = inr _ =>
             destruct c; [discriminate H |]
         end;
  injection H as H; subst.

Ltac read_columns :=
  repeat first [ rewrite scalar_add_if_scalar | rewrite scalar_add_if_doc
               | rewrite doc_add_if_doc | rewrite doc_add_if_scalar ];
  cbn [Patients.scol_beq Patients.dcol_beq Patients.affinity];
  rewrite ?andb_false_r, ?andb_true_r;
  cbn [Patients.assign_all fold_left].

(** The columns of a row after the assignments a PATCH body yields. *)
Lemma patchFields_columns (body : Js.value) (fields : list Patients.assignment)
    (r : Patients.row) :
  AdminV1.patchFields body = inr fields ->
  let r' := Patients.assign_all fields r in
  (forall k c, In (k, c) patch_scalars ->
     Patients.scalar r' c
     = if Js.defined (Js.get k body) then Sql.as_text (Sql.bind (Js.get k body))
       else Patients.scalar r c)
  /\ Patients.scalar r' Patients.isPinned
     = (if Js.defined (Js.get "isPinned" body)
        then Sql.Int (if Js.truthy (Js.get "isPinned" body) then 1 else 0)
        else Patients.scalar r Patients.isPinned)
  /\ (forall k c, In (k, c) patch_docs ->
     Patients.doc r' c
     = if Js.defined (Js.get k body) then Patients.document (Js.get k body)
       else Patients.doc r c)
  /\ Patients.doc r' Patients.diagnosisCodes
     = (if Js.defined (Js.get "diagnosisCodes" body)
        then (if Js.isArray (Js.get "diagnosisCodes" body)
              then Some (Js.get "diagnosisCodes" body) else None)
        else Patients.doc r Patients.diagnosisCodes)
  /\ Patients.scalar r' Patients.id = Patients.scalar r Patients.id
  /\ Patients.scalar r' Patients.guid = Patients.scalar r Patients.guid
  /\ Patients.doc r' Patients.metadata = Patients.doc r Patients.metadata.
Proof.
  intros H. inl_or_fields H. cbv zeta.
  split; [| split; [| split; [| split; [| split; [| split]]]]].
  - intros k c Hin. unfold patch_scalars in Hin. simpl in Hin.
    repeat (destruct Hin as [Hin | Hin];
            [injection Hin as <- <-; read_columns; reflexivity |]).
    contradiction.
  - read_columns. reflexivity.
  - intros k c Hin. unfold patch_docs in Hin. simpl in Hin.
    repeat (destruct Hin as [Hin | Hin];
            [injection Hin as <- <-; read_columns; reflexivity |]).
    contradiction.
  - read_columns. reflexivity.
  - read_columns. reflexivity.
  - read_columns. reflexivity.
  - read_columns. reflexivity.
Qed.

Lemma not_outside (k : string) (allowed : list string) (body : Js.value) :
  ~ outside k allowed body ->
  Js.defined (Js.get k body) && negb (Js.includes allowed (Js.get k body)) = false.
Proof.
  intros H. unfold outside in H.
  destruct (Js.get k body) eqn:Hget; try reflexivity;
    destruct (Js.includes allowed _) eqn:Hinc; try reflexivity;
    exfalso; apply H; split; congruence.
Qed.

Ltac some_field :=
  first [ apply length_add_if_true
        | eapply Nat.lt_le_trans; [| apply length_add_if_ge]; some_field ].

Lemma patchFields_accepted (body : Js.value) :
  patch_accepted body ->
  exists fields, AdminV1.patchFields body = inr fields
                 /\ (0 < List.length fields)%nat.
Proof.
  intros ((k & Hin & Hdef) & Hgender & Hstatus).
  unfold AdminV1.patchFields. cbv beta zeta.
  rewrite (not_outside _ _ _ Hgender), (not_outside _ _ _ Hstatus).
  eexists. split; [reflexivity |].
  apply defined_true in Hdef.
  unfold patch_keys in Hin. simpl in Hin.
  repeat (destruct Hin as [Hin | Hin];
          [subst k; rewrite Hdef; some_field |]).
  contradiction.
Qed.

Lemma patch_sets_keep_id (e : AdminV1.env) (body : Js.value)
    (fields : list Patients.assignment) (r x : Patients.row) :
  AdminV1.patchFields body = inr fields ->
  Patients.scalar (Patients.assign_all (patch_sets e fields r) x) Patients.id
  = Patients.scalar x Patients.id.
Proof.
  intros H. unfold patch_sets. rewrite assign_all_snoc.
  cbn [Patients.assign Patients.scalar].
  apply (patchFields_columns body fields x H).
Qed.

Lemma patch_sets_not_null (e : AdminV1.env) (body : Js.value)
    (fields : list Patients.assignment) (r x : Patients.row) :
  AdminV1.patchFields body = inr fields ->
  keeps_names body ->
  Patients.not_null_ok x = true ->
  Patients.not_null_ok (Patients.assign_all (patch_sets e fields r) x) = true.
Proof.
  intros H [Hfirst Hlast] Hx. unfold patch_sets. rewrite assign_all_snoc.
  unfold Patients.not_null_ok in *. cbn [Patients.assign Patients.scalar].
  destruct (patchFields_columns body fields x H) as (Hscalars & _).
  rewrite (Hscalars "firstName" Patients.firstName) by (simpl; tauto).
  rewrite (Hscalars "lastName" Patients.lastName) by (simpl; tauto).
  apply andb_true_iff in Hx. destruct Hx as [Hx1 Hx2].
  apply andb_true_iff. split.
  - destruct (Js.defined (Js.get "firstName" body)) eqn:Hd; [| assumption].
    rewrite bind_not_null; [reflexivity | | assumption].
    intros Hu. rewrite Hu in Hd. discriminate.
  - destruct (Js.defined (Js.get "lastName" body)) eqn:Hd; [| assumption].
    rewrite bind_not_null; [reflexivity | | assumption].
    intros Hu. rewrite Hu in Hd. discriminate.
Qed.

(** An accepted PATCH on an existing patient answers 200 with the row
    read back, which is the row found with the assignments applied. *)
Lemma patchPatient_accepted (db : Patients.table) (e : AdminV1.env)
    (key : string) (body : Js.value) (r : Patients.row) :
  key <> "" ->
  table_ok db ->
  Patients.select_by_id key db = Some r ->
  patch_accepted (AdminV1.body_or_empty body) ->
  keeps_names (AdminV1.body_or_empty body) ->
  exists fields,
    AdminV1.patchFields (AdminV1.body_or_empty body) = inr fields
    /\ AdminV1.patchPatient db e key body
       = (Http.Sent 200
            (Patients.rowToPatient (Patients.assign_all (patch_sets e fields r) r)),
          updated key (patch_sets e fields r) db)
    /\ Patients.select_by_id key (updated key (patch_sets e fields r) db)
       = Some (Patients.assign_all (patch_sets e fields r) r).
Proof.
  intros Hkey Hok Hfound Haccepted Hnames.
  destruct (patchFields_accepted _ Haccepted) as (fields & Hfields & Hlen).
  exists fields. split; [exact Hfields |].
  assert (Patients.select_by_id key (updated key (patch_sets e fields r) db)
          = Some (Patients.assign_all (patch_sets e fields r) r)) as Hread.
  { unfold Patients.select_by_id, updated.
    rewrite find_after_update.
    - unfold Patients.select_by_id in Hfound. now rewrite Hfound.
    - intros x. eapply patch_sets_keep_id. exact Hfields. }
  split; [| exact Hread].
  unfold AdminV1.patchPatient.
  rewrite (eqb_empty_false _ Hkey), Hfields.
  replace (Z.of_nat (List.length fields) =? 0) with false
    by (symmetry; apply Z.eqb_neq; lia).
  rewrite Hfound. fold (existing_meta r). fold (patch_sets e fields r).
  rewrite update_where_id_ok.
  2:{ intros x Hx _. eapply patch_sets_not_null; eauto. }
  rewrite (found_changes _ _ _ Hfound), Hread. reflexivity.
Qed.

(** C6 (amended). For a PATCH the handler accepts (it names an
    updatable field; gender and status, when given, are in their
    enumerations) on an existing patient, and that does not null
    [firstName] or [lastName], the answer is 200 and every updatable
    column whose key is present in the body is written from the body
    value, null and false included ([isPinned: false] stores 0,
    [insurance: null] stores NULL), while a column whose key is absent
    keeps its stored value. *)
Theorem patch_applies_present_keys (db : Patients.table) (e : AdminV1.env)
    (key : string) (body : Js.value) (r : Patients.row) :
  let sent := AdminV1.body_or_empty body in
  key <> "" ->
  table_ok db ->
  Patients.select_by_id key db = Some r ->
  patch_accepted sent ->
  keeps_names sent ->
  exists db' r',
    AdminV1.patchPatient db e key body
    = (Http.Sent 200 (Patients.rowToPatient r'), db')
    /\ Patients.select_by_id key db' = Some r'
    /\ (forall k c, In (k, c) patch_scalars ->
        Patients.scalar r' c
        = if Js.defined (Js.get k sent) then Sql.as_text (Sql.bind (Js.get k sent))
          else Patients.scalar r c)
    /\ Patients.scalar r' Patients.isPinned
       = (if Js.defined (Js.get "isPinned" sent)
          then Sql.Int (if Js.truthy (Js.get "isPinned" sent) then 1 else 0)
          else Patients.scalar r Patients.isPinned)
    /\ (forall k c, In (k, c) patch_docs ->
        Patients.doc r' c
        = if Js.defined (Js.get k sent) then Patients.document (Js.get k sent)
          else Patients.doc r c)
    /\ Patients.doc r' Patients.diagnosisCodes
       = (if Js.defined (Js.get "diagnosisCodes" sent)
          then (if Js.isArray (Js.get "diagnosisCodes" sent)
                then Some (Js.get "diagnosisCodes" sent) else None)
          else Patients.doc r Patients.diagnosisCodes)
    /\ (Js.get "isPinned" sent = Js.Bool false ->
        Patients.scalar r' Patients.isPinned = Sql.Int 0)
    /\ (Js.get "insurance" sent = Js.Null ->
        Patients.doc r' Patients.insurance = None).
Proof.
  intros sent Hkey Hok Hfound Haccepted Hnames.
  destruct (patchPatient_accepted db e key body r Hkey Hok Hfound Haccepted Hnames)
    as (fields & Hfields & Hanswer & Hread).
  fold sent in Hfields.
  destruct (patchFields_columns sent fields r Hfields)
    as (Hscalars & Hpinned & Hdocs & Hcodes & _).
  exists (updated key (patch_sets e fields r) db),
         (Patients.assign_all (patch_sets e fields r) r).
  unfold patch_sets in *. rewrite assign_all_snoc in *.
  cbn [Patients.assign Patients.scalar Patients.doc].
  split; [exact Hanswer |]. split; [exact Hread |].
  split; [exact Hscalars |]. split; [exact Hpinned |].
  split; [| split; [| split]].
  - intros k c Hin. rewrite <- (Hdocs k c Hin).
    unfold patch_docs in Hin. simpl in Hin.
    repeat (destruct Hin as [Hin | Hin]; [injection Hin as <- <-; reflexivity |]).
    contradiction.
  - exact Hcodes.
  - intros Hfalse. rewrite Hpinned, Hfalse. reflexivity.
  - intros Hnull. rewrite (Hdocs "insurance" Patients.insurance) by (simpl; tauto).
    rewrite Hnull. reflexivity.
Qed.

Lemma three_patients_ok : table_ok three_patients.
Proof.
  intros r Hin. unfold three_patients in Hin. simpl in Hin.
  destruct Hin as [<- | [<- | [<- | []]]]; reflexivity.
Qed.

Lemma patch_applies_present_keys_witness :
  exists db' r',
    AdminV1.patchPatient three_patients sample_env "p1" unpin_and_clear
    = (Http.Sent 200 (Patients.rowToPatient r'), db')
    /\ Patients.select_by_id "p1" db' = Some r'
    /\ Patients.scalar r' Patients.isPinned = Sql.Int 0
    /\ Patients.doc r' Patients.insurance = None
    /\ Patients.scalar r' Patients.firstName = Sql.Text "Ann".
Proof.
  destruct (patch_applies_present_keys three_patients sample_env "p1"
              unpin_and_clear (stored_patient "p1" "Ann" "Lee" "1990-01-02"))
    as (db' & r' & Hanswer & Hread & Hscalars & _ & _ & _ & Hpinned & Hinsurance).
  - discriminate.
  - exact three_patients_ok.
  - reflexivity.
  - split; [exists "isPinned"; split; [simpl; tauto | discriminate] |].
    split; intros [Hgiven _]; apply Hgiven; reflexivity.
  - split; discriminate.
  - exists db', r'.
    split; [exact Hanswer |]. split; [exact Hread |].
    split; [apply Hpinned; reflexivity |].
    split; [apply Hinsurance; reflexivity |].
    rewrite (Hscalars "firstName" Patients.firstName) by (simpl; tauto).
    reflexivity.
Defined.

(** C6, as stated, fails on an explicit null for an enumerated field:
    the key is present, and nothing is written; the request is answered
    with 400 and the stored gender stays. *)
Lemma patch_null_gender_is_not_written :
  Js.get "gender" null_gender = Js.Null
  /\ AdminV1.patchPatient three_patients sample_env "p1" null_gender
     = (Http.Failed (AdminV1.bad_request "Invalid gender"), three_patients)
  /\ option_map (fun r => Patients.scalar r Patients.gender)
       (Patients.select_by_id "p1" three_patients)
     = Some (Sql.Text "FEMALE").
Proof. repeat split. Qed.

(** ** Audit stamps *)

Lemma truthy_bind_not_null (v : Js.value) :
  Js.truthy v = true -> Sql.is_null (Sql.as_text (Sql.bind v)) = false.
Proof.
  destruct v as [| | b | z | s | l | fs]; intros H; try reflexivity;
    try discriminate.
  cbn [Sql.bind]. destruct (Sql.int32 z); reflexivity.
Qed.

Lemma replaceErrors_names (body : Js.value) :
  AdminV1.replaceErrors body = [] ->
  Js.truthy (Js.get "firstName" body) = true
  /\ Js.truthy (Js.get "lastName" body) = true.
Proof.
  unfold AdminV1.replaceErrors. cbv zeta. simpl flat_map.
  destruct (Js.truthy (Js.get "firstName" body));
    destruct (Js.truthy (Js.get "lastName" body)); intros H;
    try (split; reflexivity); exfalso; revert H; simpl;
    repeat match goal with
           | |- context [if ?c then _ else _] => destruct c
           end; simpl; discriminate.
Qed.

Lemma replaceParams_keep_id (e : AdminV1.env) (body : Js.value) (x : Patients.row) :
  Patients.scalar (Patients.assign_all (AdminV1.replaceParams e body) x) Patients.id
  = Patients.scalar x Patients.id.
Proof. reflexivity. Qed.

(** C1. A PUT does not read the stored metadata: for every existing
    patient and every valid PUT body that carries no [metadata], the
    stored [createdAt] becomes the time of the PUT and [createdBy] its
    caller, whatever they were at creation. *)
Theorem put_resets_creation_stamps (db : Patients.table) (e : AdminV1.env)
    (key : string) (body : Js.value) (r : Patients.row) :
  let sent := AdminV1.body_or_empty body in
  key <> "" ->
  Patients.select_by_id key db = Some r ->
  AdminV1.replaceErrors sent = [] ->
  Js.truthy (Js.get "metadata" sent) = false ->
  exists db' r',
    AdminV1.replacePatient db e key body
    = (Http.Sent 200 (Patients.rowToPatient r'), db')
    /\ Patients.select_by_id key db' = Some r'
    /\ stamp "createdAt" r' = Js.Str (AdminV1.now e)
    /\ stamp "createdBy" r' = Js.Str (AdminV1.param_or (AdminV1.x_user e) "system")
    /\ stamp "updatedAt" r' = Js.Str (AdminV1.now e).
Proof.
  intros sent Hkey Hfound Hvalid Hmeta.
  destruct (replaceErrors_names sent Hvalid) as [Hfirst Hlast].
  set (sets := AdminV1.replaceParams e sent).
  assert (Patients.select_by_id key (updated key sets db)
          = Some (Patients.assign_all sets r)) as Hread.
  { unfold Patients.select_by_id, updated. rewrite find_after_update.
    - unfold Patients.select_by_id in Hfound. now rewrite Hfound.
    - intros x. apply replaceParams_keep_id. }
  exists (updated key sets db), (Patients.assign_all sets r).
  split; [| split; [exact Hread |]].
  - unfold AdminV1.replacePatient. fold sent.
    rewrite (eqb_empty_false _ Hkey), Hvalid. cbn [List.length Z.of_nat Z.ltb Z.compare].
    fold sets. rewrite update_where_id_ok.
    2:{ intros x _ _. unfold Patients.not_null_ok.
        change (Patients.scalar (Patients.assign_all sets x) Patients.firstName)
          with (Sql.as_text (Sql.bind (Js.get "firstName" sent))).
        change (Patients.scalar (Patients.assign_all sets x) Patients.lastName)
          with (Sql.as_text (Sql.bind (Js.get "lastName" sent))).
        now rewrite !truthy_bind_not_null. }
    rewrite (found_changes _ _ _ Hfound), Hread. reflexivity.
  - unfold stamp, Patients.parsed.
    change (Patients.doc (Patients.assign_all sets r) Patients.metadata)
      with (Some (AdminV1.replaceMetadata e sent)).
    unfold AdminV1.replaceMetadata, Js.or, Js.and. rewrite Hmeta.
    cbn [Js.truthy]. rewrite Hmeta. repeat split.
Qed.

Lemma put_resets_creation_stamps_witness :
  stamp "createdAt" created_row = Js.Str "2024-05-01T10:00:00.000Z"
  /\ stamp "createdBy" created_row = Js.Str "system"
  /\ exists db' r',
       AdminV1.replacePatient after_create later_env
         "6f1c2a9e-0000-4000-8000-000000000001" put_body
       = (Http.Sent 200 (Patients.rowToPatient r'), db')
       /\ Patients.select_by_id "6f1c2a9e-0000-4000-8000-000000000001" db' = Some r'
       /\ stamp "createdAt" r' = Js.Str "2024-06-15T08:30:00.000Z"
       /\ stamp "createdBy" r' = Js.Str "nurse.joy".
Proof.
  split; [reflexivity |]. split; [reflexivity |].
  destruct (put_resets_creation_stamps after_create later_env
              "6f1c2a9e-0000-4000-8000-000000000001" put_body created_row)
    as (db' & r' & Hanswer & Hread & Hat & Hby & _).
  - discriminate.
  - vm_compute. reflexivity.
  - vm_compute. reflexivity.
  - vm_compute. reflexivity.
  - exists db', r'. repeat split; assumption.
Defined.

(** PATCH, the sibling of PUT, reads the stored metadata first: the
    creation stamps of an existing patient survive it and the update
    stamps are refreshed. *)
Lemma patch_keeps_creation_stamps (db : Patients.table) (e : AdminV1.env)
    (key : string) (body : Js.value) (r : Patients.row) (at0 by0 : string) :
  key <> "" ->
  table_ok db ->
  Patients.select_by_id key db = Some r ->
  patch_accepted (AdminV1.body_or_empty body) ->
  keeps_names (AdminV1.body_or_empty body) ->
  stamp "createdAt" r = Js.Str at0 -> at0 <> "" ->
  stamp "createdBy" r = Js.Str by0 -> by0 <> "" ->
  exists db' r',
    AdminV1.patchPatient db e key body
    = (Http.Sent 200 (Patients.rowToPatient r'), db')
    /\ Patients.select_by_id key db' = Some r'
    /\ stamp "createdAt" r' = Js.Str at0
    /\ stamp "createdBy" r' = Js.Str by0
    /\ stamp "updatedAt" r' = Js.Str (AdminV1.now e)
    /\ stamp "updatedBy" r' = Js.Str (AdminV1.param_or (AdminV1.x_user e) "system").
Proof.
  intros Hkey Hok Hfound Haccepted Hnames Hat Hat0 Hby Hby0.
  destruct (patchPatient_accepted db e key body r Hkey Hok Hfound Haccepted Hnames)
    as (fields & _ & Hanswer & Hread).
  exists (updated key (patch_sets e fields r) db),
         (Patients.assign_all (patch_sets e fields r) r).
  split; [exact Hanswer |]. split; [exact Hread |].
  assert (Js.get "createdAt" (existing_meta r) = Js.Str at0
          /\ Js.get "createdBy" (existing_meta r) = Js.Str by0) as [Hat' Hby'].
  { unfold stamp, Patients.parsed in Hat, Hby. unfold existing_meta.
    destruct (Patients.doc r Patients.metadata); [now split | discriminate]. }
  unfold stamp, Patients.parsed, patch_sets. rewrite assign_all_snoc.
  cbn [Patients.assign Patients.doc Patients.dcol_beq].
  unfold AdminV1.mergedMeta. rewrite Hat', Hby'.
  unfold Js.or. cbn [Js.truthy].
  rewrite (eqb_empty_false _ Hat0), (eqb_empty_false _ Hby0).
  repeat split.
Qed.

(** ** Duplicate detection on create *)

Lemma admin_createErrors_names (body : Js.value) :
  AdminV1.createErrors body = [] ->
  Js.truthy (Js.get "firstName" body) = true
  /\ Js.truthy (Js.get "lastName" body) = true.
Proof.
  unfold AdminV1.createErrors. cbv zeta. simpl flat_map.
  destruct (Js.truthy (Js.get "firstName" body));
    destruct (Js.truthy (Js.get "lastName" body)); intros H;
    try (split; reflexivity); exfalso; revert H; simpl;
    repeat match goal with
           | |- context [if ?c then _ else _] => destruct c
           end; simpl; discriminate.
Qed.

(** Freshness of a key, decided by a scan of the table. *)
Lemma fresh_key_scan (key : string) (db : Patients.table) :
  forallb (fun r => negb (Patients.id_is key r)) db = true -> fresh_key key db.
Proof.
  intros H r Hr. rewrite forallb_forall in H.
  apply negb_true_iff. now apply H.
Qed.

Lemma insert_fresh (sets : list Patients.assignment) (db : Patients.table) :
  let r := Patients.assign_all sets Patients.blank in
  Patients.not_null_ok r = true ->
  (forall x, In x db -> Sql.text_eq (Patients.scalar x Patients.id)
                          (Patients.scalar r Patients.id) = false) ->
  Patients.insert sets db = inr (db ++ [r])%list.
Proof.
  intros r Hok Hfresh. unfold Patients.insert. cbv zeta. fold r.
  rewrite Hok. cbn [negb]. now rewrite (existsb_all_false _ _ Hfresh).
Qed.

(** What the create handler inserts for a valid body under a fresh,
    non-empty id. *)
Lemma admin_insert_new (db : Patients.table) (e : AdminV1.env) (sent : Js.value) :
  AdminV1.createErrors sent = [] ->
  fresh_key (AdminV1.uuid e) db ->
  Patients.insert (AdminV1.insertParams (AdminV1.newPatient e sent)) db
  = inr (db ++ [Patients.assign_all
                  (AdminV1.insertParams (AdminV1.newPatient e sent))
                  Patients.blank])%list.
Proof.
  intros Hvalid Hfresh.
  destruct (admin_createErrors_names sent Hvalid) as [Hfirst Hlast].
  apply insert_fresh.
  - unfold Patients.not_null_ok.
    change (Patients.scalar
              (Patients.assign_all (AdminV1.insertParams (AdminV1.newPatient e sent))
                 Patients.blank) Patients.firstName)
      with (Sql.as_text (Sql.bind (Js.get "firstName" sent))).
    change (Patients.scalar
              (Patients.assign_all (AdminV1.insertParams (AdminV1.newPatient e sent))
                 Patients.blank) Patients.lastName)
      with (Sql.as_text (Sql.bind (Js.get "lastName" sent))).
    now rewrite !truthy_bind_not_null.
  - intros x Hx. exact (Hfresh x Hx).
Qed.

(** C7. The duplicate check of the create handler answers the 409
    DUP_PATIENT envelope, and inserts nothing, when a stored row has the
    first name, last name and non-empty date of birth of the request;
    that envelope differs from the duplicate-key envelope of the later
    generation and from every 500 of this one. It misses the patients
    without a date of birth: the request's date is then bound as NULL,
    [dateOfBirth = NULL] holds of no row, and the create is answered 201
    and stored whatever the table holds, a row with the very same names
    and no date of birth included. *)
Theorem create_duplicate_check_needs_dob (db : Patients.table) (e : AdminV1.env)
    (body : Js.value) :
  let sent := AdminV1.body_or_empty body in
  let patient := AdminV1.newPatient e sent in
  AdminV1.createErrors sent = [] ->
  (forall first last dob existing,
      Js.get "firstName" sent = Js.Str first ->
      Js.get "lastName" sent = Js.Str last ->
      Js.get "dateOfBirth" sent = Js.Str dob ->
      dob <> "" ->
      In existing db ->
      triple_of existing = (Sql.Text first, Sql.Text last, Sql.Text dob) ->
      exists err,
        AdminV1.createPatient db e body = (Http.Failed err, db)
        /\ Http.code err = 409
        /\ Http.message err = "Patient already exists"
        /\ Http.errorCode err = Some "DUP_PATIENT"
        /\ (forall other, err <> SpecV1.duplicate_id other)
        /\ (forall message, err <> AdminV1.db_error message))
  /\ (Js.truthy (Js.get "dateOfBirth" sent) = false ->
      (forall r, In r db -> AdminV1.same_name_and_dob patient r = false)
      /\ (fresh_key (AdminV1.uuid e) db ->
          exists r,
            AdminV1.createPatient db e body
            = (Http.Sent 201 patient, (db ++ [r])%list)
            /\ triple_of r
               = (Sql.as_text (Sql.bind (Js.get "firstName" sent)),
                  Sql.as_text (Sql.bind (Js.get "lastName" sent)),
                  Sql.Null))).
Proof.
  intros sent patient Hvalid. split.
  - intros first last dob existing Hfirst Hlast Hdob Hne Hin Htriple.
    unfold AdminV1.createPatient. fold sent. rewrite Hvalid.
    cbn [List.length Z.of_nat Z.ltb Z.compare].
    assert (AdminV1.same_name_and_dob (AdminV1.newPatient e sent) existing = true)
      as Hsame.
    { unfold AdminV1.same_name_and_dob, AdminV1.newPatient.
      cbn [Js.get Js.lookup String.eqb Ascii.eqb Bool.eqb].
      unfold triple_of in Htriple. injection Htriple as -> -> ->.
      rewrite Hfirst, Hlast, Hdob. unfold Js.or. cbn [Js.truthy].
      rewrite (eqb_empty_false _ Hne). cbn [negb Sql.bind Sql.text_eq Sql.as_text].
      now rewrite !String.eqb_refl. }
    destruct (find_exists _ db existing Hin Hsame) as [y Hy]. rewrite Hy.
    eexists. split; [reflexivity |].
    repeat split.
    + intros other H. unfold AdminV1.duplicate_patient, SpecV1.duplicate_id in H.
      unfold Http.handleError in H. cbn [Js.truthy] in H.
      injection H as H. simpl in H. discriminate H.
    + intros message. discriminate.
  - intros Hdob.
    assert (forall r, In r db -> AdminV1.same_name_and_dob patient r = false) as Hnone.
    { intros r _. unfold AdminV1.same_name_and_dob.
      change (Js.get "dateOfBirth" patient)
        with (Js.or (Js.get "dateOfBirth" sent) Js.Null).
      unfold Js.or. rewrite Hdob. cbn [Sql.bind].
      unfold Sql.text_eq at 3. cbn [Sql.as_text].
      destruct (Sql.as_text (Patients.scalar r Patients.dateOfBirth));
        now rewrite andb_false_r. }
    split; [exact Hnone |].
    intros Hfresh. eexists. split.
    + unfold AdminV1.createPatient. fold sent. rewrite Hvalid.
      cbn [List.length Z.of_nat Z.ltb Z.compare]. fold patient.
      rewrite (find_all_false _ _ Hnone).
      unfold patient. now rewrite (admin_insert_new db e sent Hvalid Hfresh).
    + unfold triple_of. f_equal.
      change (Sql.as_text (Sql.bind (Js.or (Js.get "dateOfBirth" sent) Js.Null))
              = Sql.Null).
      unfold Js.or. now rewrite Hdob.
Qed.

Lemma create_duplicate_check_needs_dob_witness :
  (exists err,
     AdminV1.createPatient three_patients later_env ann_again
     = (Http.Failed err, three_patients)
     /\ Http.code err = 409
     /\ Http.errorCode err = Some "DUP_PATIENT")
  /\ map triple_of after_create = [(Sql.Text "Test", Sql.Text "Patient", Sql.Null)]
  /\ (exists r,
        AdminV1.createPatient after_create later_env create_body
        = (Http.Sent 201 (AdminV1.newPatient later_env create_body),
           (after_create ++ [r])%list)
        /\ triple_of r = (Sql.Text "Test", Sql.Text "Patient", Sql.Null))
  /\ map triple_of after_blank_dob = [(Sql.Text "Test", Sql.Text "Patient", Sql.Text "")]
  /\ (exists r,
        AdminV1.createPatient after_blank_dob later_env create_blank_dob
        = (Http.Sent 201 (AdminV1.newPatient later_env create_blank_dob),
           (after_blank_dob ++ [r])%list)
        /\ triple_of r = (Sql.Text "Test", Sql.Text "Patient", Sql.Null)).
Proof.
  split; [| split; [vm_compute; reflexivity | split; [| split; [vm_compute; reflexivity |]]]].
  - destruct (create_duplicate_check_needs_dob three_patients later_env ann_again)
      as [Hdup _]; [reflexivity |].
    destruct (Hdup "Ann" "Lee" "1990-01-02" (stored_patient "p1" "Ann" "Lee" "1990-01-02"))
      as (err & Hanswer & Hcode & _ & Herr & _);
      [reflexivity | reflexivity | reflexivity | discriminate
      | simpl; left; reflexivity | reflexivity |].
    exists err. repeat split; assumption.
  - destruct (create_duplicate_check_needs_dob after_create later_env create_body)
      as [_ Hmiss]; [reflexivity |].
    destruct (Hmiss eq_refl) as [_ Hstored].
    apply Hstored. apply fresh_key_scan. vm_compute. reflexivity.
  - destruct (create_duplicate_check_needs_dob after_blank_dob later_env create_blank_dob)
      as [_ Hmiss]; [reflexivity |].
    destruct (Hmiss eq_refl) as [_ Hstored].
    apply Hstored. apply fresh_key_scan. vm_compute. reflexivity.
Defined.

(** ** Date reformatting in the projectors *)

Lemma split_no_dash (s : string) : no_dash s -> Js.split "-" s = [s].
Proof.
  unfold no_dash. induction s as [| c s IH];
    cbn [Js.includes_char Js.split]; [reflexivity |].
  destruct (Ascii.eqb "-" c); [discriminate |].
  intros H. now rewrite (IH H).
Qed.

Lemma split_dash (y rest : string) :
  no_dash y -> Js.split "-" (y ++ "-" ++ rest) = y :: Js.split "-" rest.
Proof.
  unfold no_dash. change ("-" ++ rest) with (String "-"%char rest).
  induction y as [| c y IH];
    cbn [Js.includes_char Js.split String.append]; [reflexivity |].
  destruct (Ascii.eqb "-" c); [discriminate |].
  intros H. now rewrite (IH H).
Qed.

Lemma split_dashed (y m d : string) :
  no_dash y -> no_dash m -> no_dash d ->
  Js.split "-" (dashed y m d) = [y; m; d].
Proof.
  intros Hy Hm Hd. unfold dashed.
  now rewrite (split_dash y _ Hy), (split_dash m _ Hm), (split_no_dash d Hd).
Qed.

Lemma includes_dash_app (y rest : string) :
  Js.includes_char "-" (y ++ "-" ++ rest) = true.
Proof.
  change ("-" ++ rest) with (String "-"%char rest).
  induction y as [| c y IH]; cbn [Js.includes_char String.append];
    [reflexivity |].
  now destruct (Ascii.eqb "-" c).
Qed.

Lemma dashed_not_empty (y m d : string) : (dashed y m d =? "")%string = false.
Proof.
  unfold dashed. destruct y; reflexivity.
Qed.

Lemma lookup_set (k : string) (v : Js.value) (fields : list (string * Js.value)) :
  Js.lookup k (SpecV1.set k v fields) = v.
Proof.
  induction fields as [| [k' old] rest IH]; simpl.
  - now rewrite String.eqb_refl.
  - destruct (k =? k')%string eqn:E; simpl; rewrite ?String.eqb_refl, ?E; auto.
Qed.

Lemma pat_dateOfBirth (r : Patients.row) :
  Js.get "dateOfBirth" (Patients.rowToPatient r)
  = Sql.to_js (Patients.scalar r Patients.dateOfBirth).
Proof. reflexivity. Qed.

Lemma pat_lastOrder (r : Patients.row) :
  Js.get "lastOrder" (Patients.rowToPatient r) = Patients.parsed r Patients.lastOrder.
Proof. reflexivity. Qed.

Lemma split_not_nil (c : ascii) (s : string) : Js.split c s <> [].
Proof.
  destruct s as [| d s]; cbn [Js.split]; [discriminate |].
  destruct (Ascii.eqb c d); [discriminate |].
  destruct (Js.split c s); discriminate.
Qed.

(** A text with a dash has at least two dash-separated parts. *)
Lemma split_two_parts (s : string) :
  Js.includes_char "-" s = true ->
  exists y m rest, Js.split "-" s = y :: m :: rest.
Proof.
  induction s as [| c s IH]; cbn [Js.includes_char Js.split]; [discriminate |].
  destruct (Ascii.eqb "-" c).
  - intros _. pose proof (split_not_nil "-" s) as Hnil.
    destruct (Js.split "-" s) as [| m rest]; [contradiction |].
    now exists "", m, rest.
  - intros H. destruct (IH H) as (y & m & rest & ->).
    now exists (String c y), m, rest.
Qed.

Lemma two_parts_dash (s y m : string) (rest : list string) :
  Js.split "-" s = y :: m :: rest -> Js.includes_char "-" s = true.
Proof.
  intros Hsplit. destruct (Js.includes_char "-" s) eqn:E; [reflexivity |].
  rewrite (split_no_dash s E) in Hsplit. discriminate.
Qed.

(** C8 (amended). In the later generation's [rowToPatientLegacy], a
    date of birth [YYYY-MM-DD] (three dash-free parts, the first of four
    UTF-16 units) becomes [MM/DD/YYYY], and any other date-of-birth
    string is passed through. A last-order date that contains a dash
    has at least two dash-separated parts [y], [m] and is rewritten to
    [m/d/y], where [d] is its third part, or the text "undefined" when
    there is none; further parts are dropped. One without a dash is
    passed through. The earlier [rowToPatientSearch] passes both
    through as stored. *)
Theorem projector_date_formats :
  (forall y m d, no_dash y -> no_dash m -> no_dash d -> Js.length y = 4%nat ->
     SpecV1.formattedDob (Js.Str (dashed y m d)) = Some (Js.Str (slashed y m d)))
  /\ (forall s, no_dash s -> SpecV1.formattedDob (Js.Str s) = Some (Js.Str s))
  /\ (forall s,
       (forall p0 p1 p2, Js.split "-" s = [p0; p1; p2] -> Js.length p0 <> 4%nat) ->
       SpecV1.formattedDob (Js.Str s) = Some (Js.Str s))
  /\ (forall s, Js.includes_char "-" s = true ->
       exists y m rest, Js.split "-" s = y :: m :: rest)
  /\ (forall fields s y m rest,
       Js.lookup "date" fields = Js.Str s ->
       Js.split "-" s = y :: m :: rest ->
       SpecV1.lastOrderV2 (Js.Obj fields)
       = Some (Js.Obj (SpecV1.set "date"
                         (Js.Str (m ++ "/" ++ Js.interpolate (nth_error rest 0)
                                  ++ "/" ++ y)) fields)))
  /\ (forall fields s,
       Js.lookup "date" fields = Js.Str s -> no_dash s ->
       SpecV1.lastOrderV2 (Js.Obj fields) = Some (Js.Obj fields))
  /\ (forall r o,
       SpecV1.rowToPatientLegacy r = Some o ->
       SpecV1.formattedDob (Sql.to_js (Patients.scalar r Patients.dateOfBirth))
       = Some (Js.get "dob" o)
       /\ SpecV1.lastOrderV2 (Patients.parsed r Patients.lastOrder)
          = Some (Js.get "lastOrder" o))
  /\ (forall r dob order,
       SpecV1.formattedDob (Sql.to_js (Patients.scalar r Patients.dateOfBirth))
       = Some dob ->
       SpecV1.lastOrderV2 (Patients.parsed r Patients.lastOrder) = Some order ->
       exists o, SpecV1.rowToPatientLegacy r = Some o)
  /\ (forall r,
       Js.get "dob" (AdminV1.rowToPatientSearch r)
       = Sql.to_js (Patients.scalar r Patients.dateOfBirth)
       /\ Js.get "lastOrder" (AdminV1.rowToPatientSearch r)
          = Patients.parsed r Patients.lastOrder).
Proof.
  split; [| split; [| split; [| split; [| split; [| split; [| split; [| split]]]]]]].
  - intros y m d Hy Hm Hd Hlen. unfold SpecV1.formattedDob.
    cbn [Js.truthy]. rewrite dashed_not_empty. cbn [negb].
    unfold dashed at 1. rewrite includes_dash_app.
    rewrite (split_dashed y m d Hy Hm Hd), Hlen. reflexivity.
  - intros s Hs. unfold SpecV1.formattedDob. cbn [Js.truthy].
    destruct (negb (s =? "")%string); [| reflexivity].
    unfold no_dash in Hs. now rewrite Hs.
  - intros s Hparts. unfold SpecV1.formattedDob. cbn [Js.truthy].
    destruct (negb (s =? "")%string); [| reflexivity].
    destruct (Js.includes_char "-" s); [| reflexivity].
    destruct (Js.split "-" s) as [| p0 [| p1 [| p2 [| p3 rest]]]] eqn:E;
      try reflexivity.
    specialize (Hparts p0 p1 p2 eq_refl).
    apply Nat.eqb_neq in Hparts. now rewrite Hparts.
  - exact split_two_parts.
  - intros fields s y m rest Hdate Hsplit.
    pose proof (two_parts_dash _ _ _ _ Hsplit) as Hdash.
    unfold SpecV1.lastOrderV2.
    cbn [Js.truthy SpecV1.spread]. rewrite Hdate.
    cbn [Js.truthy SpecV1.includes_dash].
    assert ((s =? "")%string = false) as ->
      by (destruct s; [discriminate Hdash | reflexivity]).
    cbn [negb]. rewrite Hdash, Hsplit. reflexivity.
  - intros fields s Hdate Hs. unfold SpecV1.lastOrderV2.
    cbn [Js.truthy SpecV1.spread]. rewrite Hdate.
    cbn [Js.truthy SpecV1.includes_dash].
    destruct (negb (s =? "")%string); [| reflexivity].
    unfold no_dash in Hs. now rewrite Hs.
  - intros r o. unfold SpecV1.rowToPatientLegacy.
    rewrite pat_dateOfBirth, pat_lastOrder.
    destruct (SpecV1.lastOrderV2 _) as [order |]; [| discriminate].
    destruct (SpecV1.formattedDob _) as [dob |]; [| discriminate].
    intros H. injection H as <-. split; reflexivity.
  - intros r dob order Hdob Horder. unfold SpecV1.rowToPatientLegacy.
    rewrite pat_dateOfBirth, pat_lastOrder, Hdob, Horder. eexists. reflexivity.
  - intros r. split; reflexivity.
Qed.

Lemma projector_date_formats_witness :
  SpecV1.formattedDob (Js.Str "1990-01-02") = Some (Js.Str "01/02/1990")
  /\ SpecV1.formattedDob (Js.Str "01/12/1980") = Some (Js.Str "01/12/1980")
  /\ SpecV1.formattedDob (Js.Str "01-12-1980") = Some (Js.Str "01-12-1980")
  /\ SpecV1.lastOrderV2 (Js.Obj [("date", Js.Str "2023-10-10")])
     = Some (Js.Obj [("date", Js.Str "10/10/2023")])
  /\ SpecV1.lastOrderV2 (Js.Obj [("date", Js.Str "2023-10")])
     = Some (Js.Obj [("date", Js.Str "10/undefined/2023")])
  /\ SpecV1.lastOrderV2 (Js.Obj [("date", Js.Str "2023-10-10-T")])
     = Some (Js.Obj [("date", Js.Str "10/10/2023")])
  /\ SpecV1.lastOrderV2 (Js.Obj [("date", Js.Str "10/10/2023")])
     = Some (Js.Obj [("date", Js.Str "10/10/2023")])
  /\ (exists o, SpecV1.rowToPatientLegacy patient_with_order = Some o).
Proof.
  destruct projector_date_formats
    as (Hdob & Hplain & Hother & _ & Horder & Hkeep & _ & Htotal & _).
  split; [| split; [| split; [| split; [| split; [| split; [| split]]]]]].
  - apply (Hdob "1990" "01" "02"); reflexivity.
  - apply (Hplain "01/12/1980"). reflexivity.
  - apply (Hother "01-12-1980"). intros p0 p1 p2 H.
    vm_compute in H. injection H as <- _ _. discriminate.
  - apply (Horder [("date", Js.Str "2023-10-10")] "2023-10-10" "2023" "10" ["10"]);
      reflexivity.
  - apply (Horder [("date", Js.Str "2023-10")] "2023-10" "2023" "10" []);
      reflexivity.
  - apply (Horder [("date", Js.Str "2023-10-10-T")] "2023-10-10-T" "2023" "10" ["10"; "T"]);
      reflexivity.
  - apply (Hkeep [("date", Js.Str "10/10/2023")] "10/10/2023"); reflexivity.
  - apply (Htotal patient_with_order (Js.Str "01/02/1990")
             (Js.Obj [ ("id", Js.Str "ORD-2023-001"); ("date", Js.Str "15/2024/01");
                       ("status", Js.Str "PENDING") ]));
      vm_compute; reflexivity.
Defined.

(** C8, as stated, fails twice: the search projector leaves a stored
    [YYYY-MM-DD] date of birth as it is, and the legacy projector
    rearranges a last-order date that has dashes without being
    [YYYY-MM-DD]. *)
Lemma dates_not_as_claimed :
  Js.get "dob" (AdminV1.rowToPatientSearch (stored_patient "p1" "Ann" "Lee" "1990-01-02"))
  = Js.Str "1990-01-02"
  /\ option_map (fun o => Js.get "date" (Js.get "lastOrder" o))
       (SpecV1.rowToPatientLegacy patient_with_order)
     = Some (Js.Str "15/2024/01").
Proof. split; vm_compute; reflexivity. Qed.

(** ** Payer round trip *)

Lemma id_is_refl (key : string) (r : Patients.row) :
  Patients.scalar r Patients.id = Sql.Text key -> Patients.id_is key r = true.
Proof.
  intros H. unfold Patients.id_is, Sql.text_eq. rewrite H. simpl.
  apply String.eqb_refl.
Qed.





Lemma reparse_fields_cons (k : string) (x : Js.value)
    (rest : list (string * Js.value)) :
  reparse_fields ((k, x) :: rest)
  = match x with
    | Js.Undefined => reparse_fields rest
    | _ => (k, Js.reparse x) :: reparse_fields rest
    end.
Proof. destruct x; reflexivity. Qed.










(* ====================================================================== *)
(** * Further properties of the handlers *)
(* ====================================================================== *)

(** ** Paging through the list endpoint *)

Lemma firstn_plus {A : Type} (a b : nat) (l : list A) :
  firstn (a + b) l = (firstn a l ++ firstn b (skipn a l))%list.
Proof.
  revert l. induction a as [| a IH]; intros l; [reflexivity |].
  destruct l as [| x l]; simpl.
  - now rewrite firstn_nil.
  - now rewrite IH.
Qed.

(** Pages of [s] rows taken one after the other give back the first
    [k * s] rows. *)
Lemma chunks_prefix {A : Type} (s k : nat) (l : list A) :
  flat_map (fun i => firstn s (skipn (i * s) l)) (seq 0 k) = firstn (k * s) l.
Proof.
  induction k as [| k IH]; [reflexivity |].
  rewrite seq_S, flat_map_app, IH. cbn [flat_map]. rewrite app_nil_r.
  replace (S k * s)%nat with (k * s + s)%nat by lia.
  now rewrite firstn_plus.
Qed.

Lemma at_page_same (query : AdminV1.list_query) (n : Z) :
  AdminV1.listSort (at_page query n) = AdminV1.listSort query
  /\ AdminV1.listWhere (at_page query n) = AdminV1.listWhere query
  /\ AdminV1.lq_pageSize (at_page query n) = AdminV1.lq_pageSize query.
Proof. repeat split. Qed.

Lemma page_no_in_range (n : Z) :
  1 <= n -> Z.max 1 (Conv.number_or (Conv.Number (Some (Conv.Finite n))) 1) = n.
Proof.
  intros H. cbn [Conv.Number Conv.number_or].
  destruct (n =? 0) eqn:E; [apply Z.eqb_eq in E; lia | lia].
Qed.

(** The items of page [n >= 1] of a list request. *)
Lemma list_page_items (db : Patients.table) (query : AdminV1.list_query)
    (column : Patients.row -> Sql.value) (n : Z) :
  Patients.column_by_name (AdminV1.order_column (AdminV1.listSort query)) = Some column ->
  1 <= n ->
  page_items (AdminV1.listPatients db (at_page query n))
  = map Patients.rowToPatient
      (Sql.limit_offset (page_size_of (AdminV1.lq_pageSize query))
         ((n - 1) * page_size_of (AdminV1.lq_pageSize query))
         (matching_rows db query column)).
Proof.
  intros Hcolumn Hn. unfold AdminV1.listPatients, AdminV1.select_page.
  destruct (at_page_same query n) as (Hsort & Hwhere & Hsize).
  rewrite Hsort, Hwhere, Hsize, Hcolumn.
  change (AdminV1.lq_pageNo (at_page query n)) with (Some (Conv.Finite n)).
  rewrite (page_no_in_range n Hn). reflexivity.
Qed.

(** X1. Walking the pages 1 .. [pagesCount] of a list request, with the
    other parameters fixed, returns every matching row exactly once, in
    the requested order. *)
Theorem list_pages_cover_all (db : Patients.table) (query : AdminV1.list_query) :
  exists column,
    Patients.column_by_name (AdminV1.order_column (AdminV1.listSort query)) = Some column
    /\ flat_map (fun n => page_items (AdminV1.listPatients db (at_page query n)))
                (page_numbers (pages_of db query))
       = map Patients.rowToPatient (matching_rows db query column).
Proof.
  destruct (listSort_column query) as [column Hcolumn].
  exists column. split; [exact Hcolumn |].
  set (size := page_size_of (AdminV1.lq_pageSize query)).
  set (rows := matching_rows db query column).
  assert (1 <= size) as Hsize by apply page_size_positive.
  assert (List.length rows = List.length
            (filter (AdminV1.whereClause (AdminV1.listWhere query)) db)) as Hlen.
  { unfold rows, matching_rows, Sql.order_by.
    generalize (filter (AdminV1.whereClause (AdminV1.listWhere query)) db).
    intros l. induction l as [| x l IH]; [reflexivity |].
    cbn [fold_right List.length]. rewrite <- IH.
    generalize (fold_right (Sql.insert_sorted column
      (AdminV1.order_direction (AdminV1.listSort query) =? "DESC")%string) [] l).
    intros sorted. induction sorted as [| y sorted IHs]; [reflexivity |].
    cbn [Sql.insert_sorted]. destruct (Sql.before _ _ x y); cbn [List.length]; lia. }
  unfold page_numbers. rewrite flat_map_concat_map, map_map, <- flat_map_concat_map.
  rewrite <- seq_shift, flat_map_concat_map, map_map, <- flat_map_concat_map.
  transitivity (map Patients.rowToPatient
                  (flat_map (fun i => firstn (Z.to_nat size)
                                        (skipn (i * Z.to_nat size) rows))
                            (seq 0 (Z.to_nat (pages_of db query))))).
  - rewrite !flat_map_concat_map, concat_map, map_map.
    f_equal. apply map_ext. intros i.
    rewrite (list_page_items db query column (Z.of_nat (S i)) Hcolumn) by lia.
    fold size. fold rows. unfold Sql.limit_offset. do 3 f_equal. lia.
  - rewrite chunks_prefix. f_equal. apply firstn_all2.
    assert (0 <= AdminV1.count_where (AdminV1.listWhere query) db) as Hcount
      by (unfold AdminV1.count_where; lia).
    assert (Z.of_nat (List.length rows) <= pages_of db query * size) as Hup.
    { rewrite Hlen.
      change (Z.of_nat (List.length
                (filter (AdminV1.whereClause (AdminV1.listWhere query)) db)))
        with (AdminV1.count_where (AdminV1.listWhere query) db).
      apply (ceil_div_is_ceiling _ size Hcount). lia. }
    assert (0 <= pages_of db query) as Hpages.
    { unfold pages_of, Conv.ceil_div. fold size. apply Z.div_pos; lia. }
    apply Nat2Z.inj_le. rewrite Nat2Z.inj_mul, !Z2Nat.id by lia. exact Hup.
Qed.










(** X3. A page-size parameter that reads as NaN or as an integer
    outside 1..100 is rejected with a 400 by the search endpoint, once
    its headers are there, and replaced by the list endpoint: 25 for NaN
    or 0, 1 for a negative size, 100 for a size over 100. *)
Theorem page_size_strict_and_lenient (db : Patients.table) (p : option Conv.number) :
  out_of_range p ->
  (forall query, AdminV1.lq_pageSize query = p -> list_window query ->
     exists l, AdminV1.listPatients db query = Http.Sent 200 l
               /\ AdminV1.curentPageSize l = clamped p)
  /\ (forall headers query,
       AdminV1.present (AdminV1.authorization headers) = true ->
       AdminV1.present (AdminV1.ping_authorization headers) = true ->
       AdminV1.sq_pageSize query = p ->
       exists e, AdminV1.searchPatients db headers query = Http.Failed e
                 /\ Http.code e = 400).
Proof.
  intros Hout. split.
  - intros query Hp _. unfold AdminV1.listPatients, AdminV1.select_page.
    destruct (listSort_column query) as [column Hcolumn]. rewrite Hcolumn.
    eexists. split; [reflexivity |]. cbn [AdminV1.curentPageSize]. rewrite Hp.
    destruct Hout as [-> | (n & -> & Hn)]; [reflexivity |].
    cbn [Conv.Number Conv.number_or clamped].
    destruct (n =? 0) eqn:E0; [reflexivity |].
    apply Z.eqb_neq in E0.
    destruct (n <? 0) eqn:E1; [apply Z.ltb_lt in E1 | apply Z.ltb_ge in E1]; lia.
  - intros headers query Hauth Hping Hp. unfold AdminV1.searchPatients.
    rewrite Hauth, Hping. cbn [negb].
    replace (0 <? Z.of_nat (List.length (AdminV1.searchErrors query))) with true.
    + eexists. split; reflexivity.
    + symmetry. apply Z.ltb_lt. unfold AdminV1.searchErrors. cbv zeta. rewrite Hp.
      assert (Conv.isNaN (Conv.Number p) || Conv.number_lt (Conv.Number p) 1
              || Conv.number_gt (Conv.Number p) 100 = true) as Hbad.
      { destruct Hout as [-> | (n & -> & [Hn | Hn])]; [reflexivity | |];
          cbn [Conv.Number Conv.isNaN Conv.number_lt Conv.number_gt orb].
        - replace (n <? 1) with true by (symmetry; apply Z.ltb_lt; lia). reflexivity.
        - replace (n >? 100) with true by (symmetry; apply Z.gtb_lt; lia).
          now rewrite orb_true_r. }
      destruct p as [num |]; [| destruct Hout as [H | (n & H & _)]; discriminate].
      rewrite Hbad.
      repeat match goal with
             | |- context [if ?c then _ else _] => destruct c
             end; rewrite ?length_app; simpl; lia.
Qed.

Lemma page_size_strict_and_lenient_witness :
  (exists l, AdminV1.listPatients three_patients
               (AdminV1.mkListQuery None None (Some (Conv.Finite 0)) None None None)
             = Http.Sent 200 l
             /\ AdminV1.curentPageSize l = 25)
  /\ (exists e, AdminV1.searchPatients three_patients sample_headers
                  (AdminV1.mkSearchQuery (Some "1563073") None (Some (Conv.Finite 0))
                     None None None)
                = Http.Failed e /\ Http.code e = 400).
Proof.
  destruct (page_size_strict_and_lenient three_patients (Some (Conv.Finite 0)))
    as [Hlist Hsearch].
  - right. exists 0. split; [reflexivity | lia].
  - split.
    + apply (Hlist (AdminV1.mkListQuery None None (Some (Conv.Finite 0)) None None None));
        reflexivity.
    + apply (Hsearch sample_headers
               (AdminV1.mkSearchQuery (Some "1563073") None (Some (Conv.Finite 0))
                  None None None)); reflexivity.
Defined.

Lemma pat_isPinned (r : Patients.row) :
  Js.get "isPinned" (Patients.rowToPatient r)
  = Js.Bool (Js.truthy (Sql.to_js (Patients.scalar r Patients.isPinned))).
Proof. reflexivity. Qed.





(** ** Life cycle of a patient under [/api/v1] *)

Lemma id_is_unique (a b : string) (r : Patients.row) :
  Patients.id_is a r = true -> Patients.id_is b r = true -> a = b.
Proof.
  unfold Patients.id_is, Sql.text_eq. cbn [Sql.as_text].
  destruct (Sql.as_text (Patients.scalar r Patients.id)); try discriminate.
  intros Ha Hb. apply String.eqb_eq in Ha, Hb. congruence.
Qed.

Lemma id_is_other (key other : string) (r : Patients.row) :
  other <> key -> Patients.id_is key r = true -> Patients.id_is other r = false.
Proof.
  intros Hne Hkey. destruct (Patients.id_is other r) eqn:E; [| reflexivity].
  exfalso. apply Hne. exact (id_is_unique _ _ _ E Hkey).
Qed.

Lemma find_filter_other {A : Type} (p q : A -> bool) (l : list A) :
  (forall x, p x = true -> q x = true) -> find p (filter q l) = find p l.
Proof.
  intros H. induction l as [| x l IH]; [reflexivity |].
  cbn [filter find]. destruct (q x) eqn:Eq.
  - cbn [find]. now rewrite IH.
  - destruct (p x) eqn:Ep; [| exact IH].
    apply H in Ep. congruence.
Qed.

Lemma find_update_other (key other : string) (g : Patients.row -> Patients.row)
    (db : Patients.table) :
  other <> key ->
  (forall r, Patients.scalar (g r) Patients.id = Patients.scalar r Patients.id) ->
  find (Patients.id_is other)
       (map (fun r => if Patients.id_is key r then g r else r) db)
  = find (Patients.id_is other) db.
Proof.
  intros Hne Hid. induction db as [| x db IH]; [reflexivity |].
  cbn [map find]. destruct (Patients.id_is key x) eqn:Ekey.
  - replace (Patients.id_is other (g x)) with (Patients.id_is other x)
      by (unfold Patients.id_is; now rewrite Hid).
    now rewrite (id_is_other _ _ _ Hne Ekey).
  - now rewrite IH.
Qed.

Lemma select_updated_other (key other : string) (sets : list Patients.assignment)
    (db : Patients.table) :
  other <> key ->
  (forall r, Patients.scalar (Patients.assign_all sets r) Patients.id
             = Patients.scalar r Patients.id) ->
  Patients.select_by_id other (updated key sets db) = Patients.select_by_id other db.
Proof. intros. now apply find_update_other. Qed.

Lemma select_deleted_other (key other : string) (db : Patients.table) :
  other <> key ->
  Patients.select_by_id other (fst (Patients.delete_where_id key db))
  = Patients.select_by_id other db.
Proof.
  intros Hne. unfold Patients.select_by_id, Patients.delete_where_id. cbn [fst].
  apply find_filter_other. intros x Hx.
  destruct (Patients.id_is key x) eqn:E; [| reflexivity].
  now rewrite (id_is_other _ _ _ Hne E) in Hx.
Qed.

Lemma filter_missing (key : string) (db : Patients.table) :
  fresh_key key db -> filter (Patients.id_is key) db = [].
Proof.
  intros H. induction db as [| x db IH]; [reflexivity |].
  cbn [filter]. rewrite (H x (or_introl eq_refl)).
  apply IH. intros r Hr. apply H. now right.
Qed.

Lemma updated_missing (key : string) (sets : list Patients.assignment)
    (db : Patients.table) :
  fresh_key key db -> updated key sets db = db.
Proof.
  intros H. unfold updated. induction db as [| x db IH]; [reflexivity |].
  cbn [map]. rewrite (H x (or_introl eq_refl)). f_equal.
  apply IH. intros r Hr. apply H. now right.
Qed.

Lemma update_missing (key : string) (sets : list Patients.assignment)
    (db : Patients.table) :
  fresh_key key db -> Patients.update_where_id key sets db = inr (db, 0).
Proof.
  intros H. rewrite update_where_id_ok.
  - now rewrite (filter_missing _ _ H), (updated_missing _ _ _ H).
  - intros x Hx Hid. rewrite (H x Hx) in Hid. discriminate.
Qed.

Lemma delete_missing (key : string) (db : Patients.table) :
  fresh_key key db -> Patients.delete_where_id key db = (db, 0).
Proof.
  intros H. unfold Patients.delete_where_id.
  rewrite (filter_missing _ _ H). cbn [List.length Z.of_nat].
  assert (filter (fun r => negb (Patients.id_is key r)) db = db) as ->; [| reflexivity].
  induction db as [| x db IH]; [reflexivity |].
  cbn [filter]. rewrite (H x (or_introl eq_refl)). cbn [negb]. f_equal.
  apply IH. intros r Hr. apply H. now right.
Qed.

Lemma select_missing (key : string) (db : Patients.table) :
  fresh_key key db -> Patients.select_by_id key db = None.
Proof. intros H. apply find_all_false. exact H. Qed.

Lemma fresh_after_delete (key : string) (db : Patients.table) :
  fresh_key key (fst (Patients.delete_where_id key db)).
Proof.
  intros r Hr. unfold Patients.delete_where_id in Hr. cbn [fst] in Hr.
  apply filter_In in Hr as [_ Hr]. now apply negb_true_iff in Hr.
Qed.


Lemma length_positive {A : Type} (l : list A) :
  l <> [] -> (0 <? Z.of_nat (List.length l)) = true.
Proof. destruct l; [congruence |]. intros _. apply Z.ltb_lt. simpl. lia. Qed.

(** X5. A patient created with a valid body is stored under the
    generated id and can be fetched with it. The 201 response carries
    [isPinned] as the number 0 or 1, the GET response as a boolean; a
    body without [status] is stored as ACTIVE, and the four metadata
    stamps are those of the creation. *)
Theorem admin_create_then_get (db : Patients.table) (e : AdminV1.env)
    (body : Js.value) :
  let sent := AdminV1.body_or_empty body in
  let patient := AdminV1.newPatient e sent in
  AdminV1.createErrors sent = [] ->
  AdminV1.uuid e <> "" ->
  fresh_key (AdminV1.uuid e) db ->
  no_namesake patient db ->
  exists r,
    AdminV1.createPatient db e body = (Http.Sent 201 patient, (db ++ [r])%list)
    /\ AdminV1.getPatient (db ++ [r])%list (AdminV1.uuid e)
       = Http.Sent 200 (Patients.rowToPatient r)
    /\ Js.get "id" (Patients.rowToPatient r) = Js.Str (AdminV1.uuid e)
    /\ Js.get "isPinned" patient
       = Js.Num (if Js.truthy (Js.get "isPinned" sent) then 1 else 0)
    /\ Js.get "isPinned" (Patients.rowToPatient r)
       = Js.Bool (Js.truthy (Js.get "isPinned" sent))
    /\ (Js.truthy (Js.get "status" sent) = false ->
        Js.get "status" (Patients.rowToPatient r) = Js.Str "ACTIVE")
    /\ stamp "createdAt" r = Js.Str (AdminV1.now e)
    /\ stamp "updatedAt" r = Js.Str (AdminV1.now e)
    /\ stamp "createdBy" r = Js.Str (AdminV1.param_or (AdminV1.x_user e) "system")
    /\ stamp "updatedBy" r = Js.Str (AdminV1.param_or (AdminV1.x_user e) "system").
Proof.
  intros sent patient Hvalid Hkey Hfresh Hnew.
  destruct (admin_createErrors_names sent Hvalid) as [Hfirst Hlast].
  set (r := Patients.assign_all (AdminV1.insertParams patient) Patients.blank).
  assert (Patients.scalar r Patients.id = Sql.Text (AdminV1.uuid e)) as Hrid
    by reflexivity.
  assert (find (Patients.id_is (AdminV1.uuid e)) db = None) as Hnone
    by (apply find_all_false; exact Hfresh).
  exists r. split; [| split; [| split; [| split; [| split; [| split]]]]].
  - unfold AdminV1.createPatient. fold sent. rewrite Hvalid.
    cbn [List.length Z.of_nat Z.ltb Z.compare]. fold patient.
    rewrite (find_all_false _ _ Hnew).
    unfold Patients.insert. cbv zeta. fold r.
    unfold Patients.not_null_ok.
    change (Patients.scalar r Patients.firstName)
      with (Sql.as_text (Sql.bind (Js.get "firstName" sent))).
    change (Patients.scalar r Patients.lastName)
      with (Sql.as_text (Sql.bind (Js.get "lastName" sent))).
    rewrite !truthy_bind_not_null by assumption. cbn [negb andb].
    rewrite Hrid. rewrite existsb_all_false; [reflexivity |].
    intros x Hx. exact (Hfresh x Hx).
  - unfold AdminV1.getPatient. rewrite (eqb_empty_false _ Hkey).
    unfold Patients.select_by_id.
    now rewrite (find_app_last _ db r Hnone (id_is_refl _ r Hrid)).
  - reflexivity.
  - reflexivity.
  - rewrite pat_isPinned.
    change (Patients.scalar r Patients.isPinned)
      with (Sql.Int (if Js.truthy
                          (Js.Num (if Js.truthy (Js.get "isPinned" sent) then 1 else 0))
                     then 1 else 0)).
    now destruct (Js.truthy (Js.get "isPinned" sent)).
  - intros Hstatus.
    change (Js.get "status" (Patients.rowToPatient r))
      with (Sql.to_js (Sql.as_text (Sql.bind
              (Js.or (Js.get "status" sent) (Js.Str "ACTIVE"))))).
    unfold Js.or. now rewrite Hstatus.
  - repeat split.
Qed.

Lemma admin_create_then_get_witness :
  exists r,
    AdminV1.createPatient three_patients created_env create_body
    = (Http.Sent 201 (AdminV1.newPatient created_env create_body),
       (three_patients ++ [r])%list)
    /\ AdminV1.getPatient (three_patients ++ [r])%list (AdminV1.uuid created_env)
       = Http.Sent 200 (Patients.rowToPatient r)
    /\ Js.get "isPinned" (AdminV1.newPatient created_env create_body) = Js.Num 0
    /\ Js.get "isPinned" (Patients.rowToPatient r) = Js.Bool false
    /\ Js.get "status" (Patients.rowToPatient r) = Js.Str "ACTIVE".
Proof.
  destruct (admin_create_then_get three_patients created_env create_body)
    as (r & Hcreate & Hget & _ & Hnum & Hbool & Hstatus & _).
  - vm_compute. reflexivity.
  - discriminate.
  - intros r Hr. vm_compute in Hr.
    repeat (destruct Hr as [<- | Hr]; [vm_compute; reflexivity |]). contradiction.
  - intros r Hr. vm_compute in Hr.
    repeat (destruct Hr as [<- | Hr]; [vm_compute; reflexivity |]). contradiction.
  - exists r. split; [exact Hcreate |]. split; [exact Hget |].
    split; [exact Hnum |]. split; [exact Hbool |]. apply Hstatus. reflexivity.
Defined.

Lemma createErrors_required (body : Js.value) (field : string) :
  In field ["firstName"; "lastName"; "insurance"] ->
  Js.truthy (Js.get field body) = false ->
  In (field ++ " is required") (AdminV1.createErrors body).
Proof.
  intros Hin Hfalsy. unfold AdminV1.createErrors. cbv zeta.
  assert (In (field ++ " is required")
            (flat_map (fun f => if negb (Js.truthy (Js.get f body))
                                then [f ++ " is required"] else [])
                      ["firstName"; "lastName"; "insurance"])) as Hreq.
  { apply in_flat_map. exists field. split; [exact Hin |].
    rewrite Hfalsy. now left. }
  revert Hreq. generalize (field ++ " is required").
  generalize (flat_map (fun f => if negb (Js.truthy (Js.get f body))
                                 then [f ++ " is required"] else [])
                       ["firstName"; "lastName"; "insurance"]).
  intros required msg Hreq.
  repeat match goal with
         | |- context [if ?c then _ else _] =>
             lazymatch c with
             | andb _ _ => destruct c
             end
         end; repeat (apply in_or_app; left); exact Hreq.
Qed.

(** X6. A create request whose body lacks [firstName], [lastName] or
    [insurance] (absent, null or empty) is answered 400 "Validation
    Failed" with code VAL_ERR, the details name the field, and nothing
    is stored. *)
Theorem admin_create_reports_missing (db : Patients.table) (e : AdminV1.env)
    (body : Js.value) (field : string) :
  In field ["firstName"; "lastName"; "insurance"] ->
  Js.truthy (Js.get field (AdminV1.body_or_empty body)) = false ->
  exists errors,
    AdminV1.createPatient db e body
    = (Http.Failed (AdminV1.validation_failed errors), db)
    /\ In (field ++ " is required") errors
    /\ Http.code (AdminV1.validation_failed errors) = 400
    /\ Http.errorCode (AdminV1.validation_failed errors) = Some "VAL_ERR"
    /\ Http.details (AdminV1.validation_failed errors)
       = Some (Js.Arr (map Js.Str errors)).
Proof.
  intros Hin Hfalsy.
  pose proof (createErrors_required _ _ Hin Hfalsy) as Hreq.
  exists (AdminV1.createErrors (AdminV1.body_or_empty body)).
  split; [| split; [exact Hreq | repeat split]].
  unfold AdminV1.createPatient. rewrite length_positive; [reflexivity |].
  intros Hnil. rewrite Hnil in Hreq. contradiction.
Qed.

Lemma admin_create_reports_missing_witness :
  exists errors,
    AdminV1.createPatient three_patients created_env
      (Js.Obj [("firstName", Js.Str "Ann"); ("lastName", Js.Str "")])
    = (Http.Failed (AdminV1.validation_failed errors), three_patients)
    /\ In "lastName is required" errors.
Proof.
  destruct (admin_create_reports_missing three_patients created_env
              (Js.Obj [("firstName", Js.Str "Ann"); ("lastName", Js.Str "")])
              "lastName")
    as (errors & Hanswer & Hin & _).
  - right. left. reflexivity.
  - reflexivity.
  - exists errors. split; [exact Hanswer | exact Hin].
Defined.

(** X7. Deleting a stored patient answers 204; afterwards a GET and a
    second DELETE of that id answer 404, and every other id reads as
    before. *)
Theorem delete_then_get (db : Patients.table) (key : string) (r : Patients.row) :
  key <> "" ->
  Patients.select_by_id key db = Some r ->
  exists db',
    AdminV1.deletePatient db key = (Http.Sent 204 tt, db')
    /\ AdminV1.getPatient db' key = Http.Failed AdminV1.not_found
    /\ AdminV1.deletePatient db' key = (Http.Failed AdminV1.not_found, db')
    /\ forall other, other <> key ->
         AdminV1.getPatient db' other = AdminV1.getPatient db other.
Proof.
  intros Hkey Hfound.
  exists (fst (Patients.delete_where_id key db)).
  pose proof (fresh_after_delete key db) as Hfresh.
  split; [| split; [| split]].
  - unfold AdminV1.deletePatient. rewrite (eqb_empty_false _ Hkey).
    unfold Patients.delete_where_id. cbn [fst].
    replace (Z.of_nat (List.length (filter (Patients.id_is key) db)) =? 0) with false;
      [reflexivity |].
    symmetry. apply Z.eqb_neq.
    pose proof (find_in_filter _ _ _ Hfound) as Hin.
    destruct (filter (Patients.id_is key) db); [contradiction | simpl; lia].
  - unfold AdminV1.getPatient. rewrite (eqb_empty_false _ Hkey).
    now rewrite (select_missing _ _ Hfresh).
  - unfold AdminV1.deletePatient. rewrite (eqb_empty_false _ Hkey).
    now rewrite (delete_missing _ _ Hfresh).
  - intros other Hother. unfold AdminV1.getPatient.
    now rewrite (select_deleted_other _ _ _ Hother).
Qed.

Lemma delete_then_get_witness :
  exists db',
    AdminV1.deletePatient three_patients "p2" = (Http.Sent 204 tt, db')
    /\ AdminV1.getPatient db' "p2" = Http.Failed AdminV1.not_found
    /\ AdminV1.getPatient db' "p3" = AdminV1.getPatient three_patients "p3".
Proof.
  destruct (delete_then_get three_patients "p2" (stored_patient "p2" "Bob" "Ray" "1985-07-30"))
    as (db' & Hdel & Hget & _ & Hother).
  - discriminate.
  - vm_compute. reflexivity.
  - exists db'. split; [exact Hdel |]. split; [exact Hget |].
    apply Hother. discriminate.
Defined.

(** X8. A request addressed to an id that no stored patient has is
    answered 404 by GET, DELETE, PUT, PATCH and the pin endpoint, once
    its body passes their checks, and the table is left as it was. *)
Theorem unknown_id_changes_nothing (db : Patients.table) (e : AdminV1.env)
    (key : string) (body : Js.value) :
  let sent := AdminV1.body_or_empty body in
  key <> "" ->
  fresh_key key db ->
  AdminV1.getPatient db key = Http.Failed AdminV1.not_found
  /\ AdminV1.deletePatient db key = (Http.Failed AdminV1.not_found, db)
  /\ (AdminV1.replaceErrors sent = [] ->
      AdminV1.replacePatient db e key body = (Http.Failed AdminV1.not_found, db))
  /\ (forall fields, AdminV1.patchFields sent = inr fields -> fields <> [] ->
      AdminV1.patchPatient db e key body = (Http.Failed AdminV1.not_found, db))
  /\ (Js.defined (Js.get "isPinned" sent) = true ->
      Pinning.pinPatient db e key body = (Http.Failed AdminV1.not_found, db))
  /\ Http.code AdminV1.not_found = 404.
Proof.
  intros sent Hkey Hfresh.
  split; [| split; [| split; [| split; [| split]]]].
  - unfold AdminV1.getPatient. rewrite (eqb_empty_false _ Hkey).
    now rewrite (select_missing _ _ Hfresh).
  - unfold AdminV1.deletePatient. rewrite (eqb_empty_false _ Hkey).
    now rewrite (delete_missing _ _ Hfresh).
  - intros Hvalid. unfold AdminV1.replacePatient. fold sent.
    rewrite (eqb_empty_false _ Hkey), Hvalid.
    cbn [List.length Z.of_nat Z.ltb Z.compare].
    now rewrite (update_missing _ _ _ Hfresh).
  - intros fields Hfields Hsome. unfold AdminV1.patchPatient. fold sent.
    rewrite (eqb_empty_false _ Hkey), Hfields.
    replace (Z.of_nat (List.length fields) =? 0) with false.
    + now rewrite (select_missing _ _ Hfresh).
    + symmetry. apply Z.eqb_neq. destruct fields; [congruence | simpl; lia].
  - intros Hdefined. unfold Pinning.pinPatient. fold sent.
    rewrite (eqb_empty_false _ Hkey), Hdefined. cbn [negb].
    now rewrite (select_missing _ _ Hfresh).
  - reflexivity.
Qed.

Lemma unknown_id_changes_nothing_witness :
  AdminV1.replacePatient three_patients later_env "p9" put_body
  = (Http.Failed AdminV1.not_found, three_patients)
  /\ Pinning.pinPatient three_patients later_env "p9" (Js.Obj [("isPinned", Js.Bool true)])
     = (Http.Failed AdminV1.not_found, three_patients).
Proof.
  assert (fresh_key "p9" three_patients) as Hfresh.
  { intros r Hr. vm_compute in Hr.
    repeat (destruct Hr as [<- | Hr]; [vm_compute; reflexivity |]). contradiction. }
  split.
  - destruct (unknown_id_changes_nothing three_patients later_env "p9" put_body)
      as (_ & _ & Hput & _); [discriminate | exact Hfresh |].
    apply Hput. vm_compute. reflexivity.
  - destruct (unknown_id_changes_nothing three_patients later_env "p9"
                (Js.Obj [("isPinned", Js.Bool true)]))
      as (_ & _ & _ & _ & Hpin & _); [discriminate | exact Hfresh |].
    apply Hpin. reflexivity.
Defined.

Lemma replace_table (db : Patients.table) (e : AdminV1.env) (key : string)
    (body : Js.value) :
  table_after (AdminV1.replacePatient db e key body) = db
  \/ table_after (AdminV1.replacePatient db e key body)
     = updated key (AdminV1.replaceParams e (AdminV1.body_or_empty body)) db.
Proof.
  unfold AdminV1.replacePatient, table_after. cbv zeta.
  destruct (key =? "")%string; [now left |].
  destruct (0 <? _); [now left |].
  destruct (Patients.update_where_id _ _ _) as [message | [db' changes]] eqn:E;
    [now left |].
  apply update_where_id_done in E as (-> & _ & _). right.
  destruct (_ =? 0); [reflexivity |].
  destruct (Patients.select_by_id _ _); reflexivity.
Qed.

Lemma patch_table (db : Patients.table) (e : AdminV1.env) (key : string)
    (body : Js.value) :
  table_after (AdminV1.patchPatient db e key body) = db
  \/ exists fields meta,
       AdminV1.patchFields (AdminV1.body_or_empty body) = inr fields
       /\ table_after (AdminV1.patchPatient db e key body)
          = updated key (fields ++ [Patients.SetDoc Patients.metadata meta]) db.
Proof.
  unfold AdminV1.patchPatient, table_after. cbv zeta.
  destruct (key =? "")%string; [now left |].
  destruct (AdminV1.patchFields _) as [err | fields]; [now left |].
  destruct (_ =? 0); [now left |].
  destruct (Patients.select_by_id key db) as [mRow |]; [| now left].
  destruct (Patients.update_where_id _ _ _) as [message | [db' changes]] eqn:E;
    [now left |].
  apply update_where_id_done in E as (-> & _ & _).
  right. eexists. eexists. split; [reflexivity |].
  destruct (_ =? 0); [reflexivity |].
  destruct (Patients.select_by_id _ _); reflexivity.
Qed.

Lemma pin_table (db : Patients.table) (e : AdminV1.env) (key : string)
    (body : Js.value) :
  table_after (Pinning.pinPatient db e key body) = db
  \/ exists flag meta,
       table_after (Pinning.pinPatient db e key body)
       = updated key [ Patients.SetScalar Patients.isPinned flag;
                       Patients.SetDoc Patients.metadata meta ] db.
Proof.
  unfold Pinning.pinPatient, table_after. cbv zeta.
  destruct (key =? "")%string; [now left |].
  destruct (negb _); [now left |].
  destruct (Patients.select_by_id key db) as [mRow |]; [| now left].
  destruct (Patients.update_where_id _ _ _) as [message | [db' changes]] eqn:E;
    [now left |].
  apply update_where_id_done in E as (-> & _ & _).
  right. eexists. eexists. reflexivity.
Qed.

(** X9. PUT, PATCH, the pin endpoint and DELETE change at most the
    patient they address: whatever the body and the outcome, a GET of
    any other id answers afterwards what it answered before. *)
Theorem writes_leave_other_patients (db : Patients.table) (e : AdminV1.env)
    (key other : string) (body : Js.value) :
  other <> key ->
  AdminV1.getPatient (table_after (AdminV1.replacePatient db e key body)) other
  = AdminV1.getPatient db other
  /\ AdminV1.getPatient (table_after (AdminV1.patchPatient db e key body)) other
     = AdminV1.getPatient db other
  /\ AdminV1.getPatient (table_after (Pinning.pinPatient db e key body)) other
     = AdminV1.getPatient db other
  /\ AdminV1.getPatient (table_after (AdminV1.deletePatient db key)) other
     = AdminV1.getPatient db other.
Proof.
  intros Hother. split; [| split; [| split]].
  - destruct (replace_table db e key body) as [-> | ->]; [reflexivity |].
    unfold AdminV1.getPatient. rewrite select_updated_other; [reflexivity | exact Hother |].
    intros r. apply replaceParams_keep_id.
  - destruct (patch_table db e key body) as [-> | (fields & meta & Hfields & ->)];
      [reflexivity |].
    unfold AdminV1.getPatient. rewrite select_updated_other; [reflexivity | exact Hother |].
    intros r. rewrite assign_all_snoc. cbn [Patients.assign Patients.scalar].
    apply (patchFields_columns _ _ r Hfields).
  - destruct (pin_table db e key body) as [-> | (flag & meta & ->)]; [reflexivity |].
    unfold AdminV1.getPatient. rewrite select_updated_other; [reflexivity | exact Hother |].
    reflexivity.
  - unfold AdminV1.deletePatient, table_after.
    destruct (key =? "")%string; [reflexivity |].
    unfold AdminV1.getPatient.
    rewrite <- (select_deleted_other key other db Hother).
    unfold Patients.delete_where_id. cbn [fst].
    destruct (_ =? 0); reflexivity.
Qed.

Lemma writes_leave_other_patients_witness :
  AdminV1.getPatient
    (table_after (AdminV1.replacePatient three_patients later_env "p2" put_body)) "p1"
  = AdminV1.getPatient three_patients "p1".
Proof.
  apply (writes_leave_other_patients three_patients later_env "p2" "p1" put_body).
  discriminate.
Defined.





(** ** Pinning *)

Lemma value_nested_ind (P : Js.value -> Prop) :
  P Js.Undefined -> P Js.Null ->
  (forall b, P (Js.Bool b)) -> (forall z, P (Js.Num z)) -> (forall s, P (Js.Str s)) ->
  (forall l, Forall P l -> P (Js.Arr l)) ->
  (forall fs, Forall (fun kv => P (snd kv)) fs -> P (Js.Obj fs)) ->
  forall v, P v.
Proof.
  intros Hu Hn Hb Hz Hs Ha Ho.
  fix IH 1. intros [| | b | z | s | l | fs].
  - exact Hu.
  - exact Hn.
  - apply Hb.
  - apply Hz.
  - apply Hs.
  - apply Ha. induction l as [| x l IHl]; constructor; [apply IH | exact IHl].
  - apply Ho. induction fs as [| [k x] fs IHfs]; constructor; [apply IH | exact IHfs].
Qed.

Lemma reparse_obj (fs : list (string * Js.value)) :
  Js.reparse (Js.Obj fs) = Js.Obj (reparse_fields fs).
Proof. reflexivity. Qed.

Lemma reparse_fields_idempotent (fs : list (string * Js.value)) :
  Forall (fun kv => Js.reparse (Js.reparse (snd kv)) = Js.reparse (snd kv)) fs ->
  reparse_fields (reparse_fields fs) = reparse_fields fs.
Proof.
  induction 1 as [| [k x] fs Hx _ IH]; [reflexivity |].
  cbn [snd] in Hx. rewrite reparse_fields_cons.
  destruct x; try exact IH; rewrite reparse_fields_cons;
    try (cbn [Js.reparse]; now rewrite IH).
  - rewrite Hx. cbn [Js.reparse]. now rewrite IH.
  - rewrite Hx. cbn [Js.reparse]. now rewrite IH.
Qed.

Lemma reparse_idempotent (v : Js.value) : Js.reparse (Js.reparse v) = Js.reparse v.
Proof.
  induction v as [| | b | z | s | l IH | fs IH] using value_nested_ind;
    try reflexivity.
  - cbn [Js.reparse]. f_equal. rewrite map_map.
    induction IH as [| x l Hx _ IHl]; [reflexivity |].
    cbn [map]. f_equal; [| exact IHl].
    destruct x; try reflexivity; exact Hx.
  - rewrite !reparse_obj. f_equal. now apply reparse_fields_idempotent.
Qed.

Lemma reparse_keeps_defined (v : Js.value) :
  v <> Js.Undefined -> Js.reparse v <> Js.Undefined.
Proof. destruct v; cbn [Js.reparse]; congruence. Qed.

Lemma reparse_fields_members (fs : list (string * Js.value)) :
  json_members (reparse_fields fs).
Proof.
  unfold json_members. induction fs as [| [k x] fs IH]; [constructor |].
  rewrite reparse_fields_cons.
  destruct x; try exact IH; constructor; try exact IH; cbn [snd];
    (split; [apply reparse_keeps_defined; discriminate | apply reparse_idempotent]).
Qed.

Lemma members_fixed (fs : list (string * Js.value)) :
  json_members fs -> reparse_fields fs = fs.
Proof.
  induction 1 as [| [k x] fs [Hdef Hfix] _ IH]; [reflexivity |].
  cbn [snd] in Hdef, Hfix. rewrite reparse_fields_cons, IH, Hfix.
  destruct x; try reflexivity. congruence.
Qed.

Lemma set_members (u : string) (v : Js.value) (fs : list (string * Js.value)) :
  v <> Js.Undefined -> Js.reparse v = v -> json_members fs ->
  json_members (SpecV1.set u v fs).
Proof.
  intros Hdef Hfix. unfold json_members.
  induction 1 as [| [k x] fs Hx Hfs IH]; cbn [SpecV1.set].
  - constructor; [now split | constructor].
  - destruct (u =? k)%string; constructor; auto.
Qed.

Lemma lookup_set_any (k u : string) (v : Js.value) (fs : list (string * Js.value)) :
  Js.lookup k (SpecV1.set u v fs)
  = if (k =? u)%string then v else Js.lookup k fs.
Proof.
  induction fs as [| [k' old] fs IH]; cbn [SpecV1.set Js.lookup].
  - reflexivity.
  - destruct (u =? k')%string eqn:Eu.
    + apply String.eqb_eq in Eu. subst k'. cbn [Js.lookup].
      destruct (k =? u)%string; reflexivity.
    + cbn [Js.lookup]. rewrite IH.
      destruct (k =? k')%string eqn:Ek; [| reflexivity].
      apply String.eqb_eq in Ek. subst k'.
      now rewrite String.eqb_sym, Eu.
Qed.

Lemma merged_stamp (now : string) (r : Patients.row) (k : string) :
  metadata_is_object r ->
  Js.get k (Js.reparse (Pinning.mergedMeta now (existing_meta r)))
  = if (k =? "updatedAt")%string then Js.Str now else stamp k r.
Proof.
  unfold metadata_is_object, existing_meta, stamp, Patients.parsed, Pinning.mergedMeta.
  destruct (Patients.doc r Patients.metadata) as [[| | b | z | s | l | fs] |];
    try contradiction; intros _.
  - rewrite !reparse_obj. cbn [Pinning.spread Js.get].
    rewrite members_fixed.
    + apply lookup_set_any.
    + apply set_members; [discriminate | reflexivity | apply reparse_fields_members].
  - cbn [Pinning.spread SpecV1.set]. rewrite reparse_obj. cbn [Js.get].
    rewrite members_fixed.
    + cbn [Js.lookup]. now destruct (k =? "updatedAt")%string.
    + constructor; [split; [discriminate | reflexivity] | constructor].
Qed.

(** X11. Pinning a stored patient answers 200 and writes two things:
    [isPinned], 1 for any truthy value of the body's [isPinned] and 0
    otherwise, and the [updatedAt] stamp. Every other member of the
    metadata ([updatedBy] included) and every other column stay as they
    were. *)
Theorem pin_writes_flag_and_updatedAt (db : Patients.table) (e : AdminV1.env)
    (key : string) (body : Js.value) (r : Patients.row) :
  let sent := AdminV1.body_or_empty body in
  key <> "" ->
  table_ok db ->
  Patients.select_by_id key db = Some r ->
  Js.defined (Js.get "isPinned" sent) = true ->
  metadata_is_object r ->
  exists db' r',
    Pinning.pinPatient db e key body = (Http.Sent 200 tt, db')
    /\ Patients.select_by_id key db' = Some r'
    /\ Patients.scalar r' Patients.isPinned
       = Sql.Int (if Js.truthy (Js.get "isPinned" sent) then 1 else 0)
    /\ stamp "updatedAt" r' = Js.Str (AdminV1.now e)
    /\ (forall k, k <> "updatedAt" -> stamp k r' = stamp k r)
    /\ (forall c, c <> Patients.isPinned -> Patients.scalar r' c = Patients.scalar r c)
    /\ (forall c, c <> Patients.metadata -> Patients.doc r' c = Patients.doc r c).
Proof.
  intros sent Hkey Hok Hfound Hdefined Hobject.
  set (sets := pin_sets e sent r).
  assert (Patients.select_by_id key (updated key sets db)
          = Some (Patients.assign_all sets r)) as Hread.
  { unfold Patients.select_by_id, updated. rewrite find_after_update.
    - unfold Patients.select_by_id in Hfound. now rewrite Hfound.
    - reflexivity. }
  exists (updated key sets db), (Patients.assign_all sets r).
  split; [| split; [exact Hread | split; [reflexivity |]]].
  - unfold Pinning.pinPatient. fold sent.
    rewrite (eqb_empty_false _ Hkey), Hdefined, Hfound. cbn [negb].
    fold (existing_meta r). fold (pin_sets e sent r). fold sets.
    rewrite update_where_id_ok; [reflexivity |].
    intros x Hx _. exact (Hok x Hx).
  - assert (forall k, stamp k (Patients.assign_all sets r)
                      = if (k =? "updatedAt")%string then Js.Str (AdminV1.now e)
                        else stamp k r) as Hstamp.
    { intros k. rewrite <- (merged_stamp _ _ _ Hobject). reflexivity. }
    split; [apply Hstamp |]. split; [| split].
    + intros k Hk. rewrite Hstamp.
      apply String.eqb_neq in Hk. now rewrite Hk.
    + intros c Hc. destruct c; try reflexivity. congruence.
    + intros c Hc. destruct c; try reflexivity. congruence.
Qed.

Lemma pin_writes_flag_and_updatedAt_witness :
  exists db' r',
    Pinning.pinPatient [stored_patient "p1" "Ann" "Lee" "1990-01-02"] later_env "p1"
      pin_false_text = (Http.Sent 200 tt, db')
    /\ Patients.select_by_id "p1" db' = Some r'
    /\ Patients.scalar r' Patients.isPinned = Sql.Int 1
    /\ stamp "updatedAt" r' = Js.Str "2024-06-15T08:30:00.000Z"
    /\ stamp "updatedBy" r' = Js.Str "system".
Proof.
  destruct (pin_writes_flag_and_updatedAt
              [stored_patient "p1" "Ann" "Lee" "1990-01-02"] later_env "p1"
              pin_false_text (stored_patient "p1" "Ann" "Lee" "1990-01-02"))
    as (db' & r' & Hanswer & Hread & Hflag & Hat & Hother & _).
  - discriminate.
  - intros x [<- | []]. vm_compute. reflexivity.
  - vm_compute. reflexivity.
  - reflexivity.
  - exact I.
  - exists db', r'. split; [exact Hanswer |]. split; [exact Hread |].
    split; [exact Hflag |]. split; [exact Hat |].
    rewrite Hother by discriminate. vm_compute. reflexivity.
Defined.

(** ** The e-mail pattern *)

Lemma inner_dot_shape (s : string) :
  Conv.inner_dot s = true
  <-> exists b c, b <> "" /\ c <> "" /\ s = b ++ "." ++ c.
Proof.
  split.
  - induction s as [| x s IH]; [discriminate |].
    destruct s as [| d rest]; [discriminate |].
    cbn [Conv.inner_dot]. intros H. apply orb_true_iff in H as [H | H].
    + apply andb_true_iff in H as [Hd Hrest].
      apply Ascii.eqb_eq in Hd. subst d.
      exists (String x ""), rest. split; [discriminate |]. split; [| reflexivity].
      intros ->. discriminate.
    + destruct (IH H) as (b & c & Hb & Hc & Heq).
      exists (String x b), c. split; [discriminate |]. split; [exact Hc |].
      cbn [append]. now rewrite Heq.
  - intros (b & c & Hb & Hc & ->). revert Hb.
    induction b as [| x b IH]; [congruence |]. intros _.
    destruct b as [| y b].
    + change (String x "" ++ "." ++ c) with (String x (String "." c)).
      cbn [Conv.inner_dot]. rewrite Ascii.eqb_refl.
      destruct c; [congruence | reflexivity].
    + change (String x (String y b) ++ "." ++ c)
        with (String x (String y (b ++ "." ++ c))).
      cbn [Conv.inner_dot]. apply orb_true_iff. right.
      apply IH. discriminate.
Qed.

Lemma at_then_dot_shape (s : string) :
  Conv.at_then_dot s = true <-> address_shape s.
Proof.
  unfold address_shape. split.
  - induction s as [| x s IH]; [discriminate |].
    destruct s as [| d rest]; [discriminate |].
    cbn [Conv.at_then_dot]. intros H. apply orb_true_iff in H as [H | H].
    + apply andb_true_iff in H as [Hd Hrest].
      apply Ascii.eqb_eq in Hd. subst d.
      apply inner_dot_shape in Hrest as (b & c & Hb & Hc & ->).
      exists (String x ""), b, c. repeat split; try assumption. discriminate.
    + destruct (IH H) as (a & b & c & Ha & Hb & Hc & Heq).
      exists (String x a), b, c. repeat split; try assumption; [discriminate |].
      cbn [append]. now rewrite Heq.
  - intros (a & b & c & Ha & Hb & Hc & ->). revert Ha.
    induction a as [| x a IH]; [congruence |]. intros _.
    destruct a as [| y a].
    + change (String x "" ++ "@" ++ b ++ "." ++ c)
        with (String x (String "@" (b ++ "." ++ c))).
      cbn [Conv.at_then_dot]. rewrite Ascii.eqb_refl.
      apply orb_true_iff. left. cbn [andb].
      apply inner_dot_shape. now exists b, c.
    + change (String x (String y a) ++ "@" ++ b ++ "." ++ c)
        with (String x (String y (a ++ "@" ++ b ++ "." ++ c))).
      cbn [Conv.at_then_dot]. apply orb_true_iff. right.
      apply IH. discriminate.
Qed.

(** X12. The e-mail check of create and PUT accepts exactly the texts
    without white space that read local@domain.tld: something before an
    [@], and after it a dot with something on each side. *)
Theorem email_format_shape (s : string) :
  AdminV1.email_ok (Js.Str s) = true
  <-> Conv.no_space s = true /\ address_shape s.
Proof.
  unfold AdminV1.email_ok, Conv.email_format.
  change (Conv.toString (Js.Str s)) with s.
  rewrite andb_true_iff. now rewrite at_then_dot_shape.
Qed.

(** ** The [/api/patients] generation *)

Lemma insert_sorted_map {A B : Type} (g : A -> B) (key : B -> Sql.value)
    (desc : bool) (x : A) (l : list A) :
  Sql.insert_sorted key desc (g x) (map g l)
  = map g (Sql.insert_sorted (fun a => key (g a)) desc x l).
Proof.
  induction l as [| y l IH]; [reflexivity |].
  cbn [map Sql.insert_sorted]. unfold Sql.before.
  destruct (Sql.compare (key (g x)) (key (g y))); try (destruct desc);
    cbn [negb map]; try reflexivity; now rewrite IH.
Qed.

Lemma order_by_map {A B : Type} (g : A -> B) (key : B -> Sql.value)
    (desc : bool) (l : list A) :
  Sql.order_by key desc (map g l)
  = map g (Sql.order_by (fun a => key (g a)) desc l).
Proof.
  unfold Sql.order_by. induction l as [| x l IH]; [reflexivity |].
  cbn [map fold_right]. rewrite IH. apply insert_sorted_map.
Qed.

Lemma limit_offset_map {A B : Type} (g : A -> B) (n k : Z) (l : list A) :
  Sql.limit_offset n k (map g l) = map g (Sql.limit_offset n k l).
Proof. unfold Sql.limit_offset. now rewrite skipn_map, firstn_map. Qed.

Lemma filter_map_swap {A B : Type} (g : A -> B) (p : B -> bool) (l : list A) :
  filter p (map g l) = map g (filter (fun a => p (g a)) l).
Proof.
  induction l as [| x l IH]; [reflexivity |].
  cbn [map filter]. destruct (p (g x)); cbn [map]; now rewrite IH.
Qed.

(** X13. The answer of the legacy search depends neither on the
    [shipToId] of the request path, as long as it is not empty, nor on
    the [shipToId] the patients are stored with. *)
Theorem legacy_search_ignores_shipToId (db : Legacy.table)
    (relabel : Legacy.row -> Sql.value) (s1 s2 : string) (query : Legacy.query) :
  s1 <> "" -> s2 <> "" ->
  Legacy.searchPatients (refiled relabel db) s1 query
  = Legacy.searchPatients db s2 query.
Proof.
  intros H1 H2. unfold Legacy.searchPatients.
  assert (Legacy.searchPlan s1 query = Legacy.searchPlan s2 query) as Hplan.
  { unfold Legacy.searchPlan.
    now rewrite (eqb_empty_false _ H1), (eqb_empty_false _ H2). }
  rewrite Hplan.
  destruct (Legacy.searchPlan s2 query) as [err | p] eqn:Ep; [reflexivity |].
  cbv zeta. unfold refiled. rewrite filter_map_swap.
  change (fun a => Legacy.where_clause (Legacy.plan_q p) (with_shipTo (relabel a) a))
    with (Legacy.where_clause (Legacy.plan_q p)).
  rewrite length_map.
  pose proof (legacy_dbSort_fixed _ _ _ Ep) as Hsort.
  unfold legacy_sort_columns in Hsort. simpl in Hsort.
  destruct Hsort as [E | [E | [E | [E | []]]]]; rewrite <- E;
    cbv [Legacy.column_by_name String.eqb Ascii.eqb Bool.eqb];
    rewrite order_by_map, limit_offset_map, map_map; reflexivity.
Qed.

Lemma legacy_search_ignores_shipToId_witness :
  Legacy.searchPatients
    (refiled (fun _ => Sql.Text "OTHER") [legacy_row "k1"; legacy_row "k2"])
    "1483051" empty_sortBy
  = Legacy.searchPatients [legacy_row "k1"; legacy_row "k2"] "9999" empty_sortBy.
Proof.
  apply (legacy_search_ignores_shipToId [legacy_row "k1"; legacy_row "k2"]
           (fun _ => Sql.Text "OTHER") "1483051" "9999" empty_sortBy);
    discriminate.
Defined.

Lemma find_map_update {A : Type} (p : A -> bool) (g : A -> A) (l : list A) :
  (forall x, p (g x) = p x) ->
  find p (map (fun x => if p x then g x else x) l) = option_map g (find p l).
Proof.
  intros Hp. induction l as [| x l IH]; [reflexivity |].
  cbn [map find]. destruct (p x) eqn:E.
  - now rewrite Hp, E.
  - now rewrite E.
Qed.

Lemma filter_none {A : Type} (p : A -> bool) (l : list A) :
  (forall x, In x l -> p x = false) -> filter p l = [].
Proof.
  intros H. induction l as [| x l IH]; [reflexivity |].
  cbn [filter]. rewrite (H x (or_introl eq_refl)).
  apply IH. intros y Hy. apply H. now right.
Qed.

Lemma filter_all {A : Type} (p : A -> bool) (l : list A) :
  (forall x, In x l -> p x = true) -> filter p l = l.
Proof.
  intros H. induction l as [| x l IH]; [reflexivity |].
  cbn [filter]. rewrite (H x (or_introl eq_refl)). f_equal.
  apply IH. intros y Hy. apply H. now right.
Qed.

Lemma legacy_key_of_new (now uuid : string) (body : Js.value) :
  Legacy.key_is uuid (LegacyCrud.newRow now uuid body) = true.
Proof.
  unfold Legacy.key_is, Sql.text_eq. cbn. apply String.eqb_refl.
Qed.

Lemma legacy_delete_missing (key : string) (db : Legacy.table) :
  fresh_legacy_key key db ->
  Legacy.deletePatient db key
  = (Http.Failed (Http.handleError 404 "Patient not found" None Js.Null), db).
Proof.
  intros Hfresh. unfold Legacy.deletePatient, Legacy.delete_where_key.
  rewrite (filter_none _ db Hfresh). cbn [List.length Z.of_nat Z.eqb].
  rewrite filter_all; [reflexivity |].
  intros x Hx. now rewrite (Hfresh x Hx).
Qed.

(** X14. A legacy create with the five required fields stores the
    patient under the generated key and answers 201 with the row it
    reads back; a body without [shipToId] is filed under DEFAULT. A
    DELETE of the key answers 404 before the create and 204 after it,
    and then gives back the table as it was before the create. *)
Theorem legacy_create_then_delete (db : Legacy.table) (now uuid : string)
    (body : Js.value) :
  let sent := AdminV1.body_or_empty body in
  let row := LegacyCrud.newRow now uuid sent in
  LegacyCrud.incomplete sent = false ->
  fresh_legacy_key uuid db ->
  LegacyCrud.createPatient db now uuid body
  = (Http.Sent 201 (Legacy.rowToPatient row), (db ++ [row])%list)
  /\ Js.get "patientKey" (Legacy.rowToPatient row) = Js.Str uuid
  /\ (Js.truthy (Js.get "shipToId" sent) = false ->
      Legacy.shipToId row = Sql.Text "DEFAULT")
  /\ status_of (fst (Legacy.deletePatient db uuid)) = 404
  /\ Legacy.deletePatient (db ++ [row])%list uuid = (Http.Sent 204 tt, db).
Proof.
  intros sent row Hcomplete Hfresh.
  assert (find (Legacy.key_is uuid) (db ++ [row])%list = Some row) as Hfind.
  { apply find_app_last; [now apply find_all_false | apply legacy_key_of_new]. }
  split; [| split; [| split; [| split]]].
  - unfold LegacyCrud.createPatient. fold sent. rewrite Hcomplete.
    unfold LegacyCrud.insert. fold row.
    rewrite existsb_all_false; [now rewrite Hfind |].
    intros x Hx. exact (Hfresh x Hx).
  - reflexivity.
  - intros Hfalsy. unfold row, LegacyCrud.newRow. cbn [Legacy.shipToId].
    unfold Js.or. now rewrite Hfalsy.
  - now rewrite (legacy_delete_missing _ _ Hfresh).
  - unfold Legacy.deletePatient, Legacy.delete_where_key.
    assert (Legacy.key_is uuid row = true) as Hrow by apply legacy_key_of_new.
    rewrite !filter_app. cbn [filter]. rewrite Hrow. cbn [negb].
    rewrite (filter_none _ db Hfresh), app_nil_r. cbn [app List.length Z.of_nat].
    rewrite filter_all; [reflexivity |].
    intros x Hx. now rewrite (Hfresh x Hx).
Qed.

Lemma legacy_create_then_delete_witness :
  let row := LegacyCrud.newRow "2024-05-01T10:00:00.000Z" "k9" legacy_body in
  LegacyCrud.createPatient [legacy_row "k1"] "2024-05-01T10:00:00.000Z" "k9" legacy_body
  = (Http.Sent 201 (Legacy.rowToPatient row), [legacy_row "k1"; row])
  /\ Legacy.shipToId row = Sql.Text "DEFAULT"
  /\ Legacy.deletePatient [legacy_row "k1"; row] "k9" = (Http.Sent 204 tt, [legacy_row "k1"]).
Proof.
  destruct (legacy_create_then_delete [legacy_row "k1"] "2024-05-01T10:00:00.000Z" "k9"
              legacy_body)
    as (Hcreate & _ & Hship & _ & Hdelete).
  - reflexivity.
  - intros x [<- | []]. reflexivity.
  - split; [exact Hcreate |]. split; [apply Hship; reflexivity | exact Hdelete].
Defined.

(** X15. A legacy PUT of a stored key with the five required fields
    answers 200 with the row as it is stored afterwards: the five
    fields and the payer are those of the body; the key, the [shipToId]
    and the metadata, which gets no update stamp, are those the row had.
    No row is added or removed. *)
Theorem legacy_put_replaces_fields (db : Legacy.table) (id : string) (body : Js.value)
    (r : Legacy.row) :
  let sent := AdminV1.body_or_empty body in
  LegacyCrud.incomplete sent = false ->
  find (Legacy.key_is id) db = Some r ->
  exists db' r',
    LegacyCrud.replacePatient db id body
    = (Http.Sent 200 (Legacy.rowToPatient r'), db')
    /\ find (Legacy.key_is id) db' = Some r'
    /\ Legacy.firstName r' = Sql.as_text (Sql.bind (Js.get "firstName" sent))
    /\ Legacy.lastName r' = Sql.as_text (Sql.bind (Js.get "lastName" sent))
    /\ Legacy.patientKey r' = Legacy.patientKey r
    /\ Legacy.shipToId r' = Legacy.shipToId r
    /\ Legacy.metadata r' = Legacy.metadata r
    /\ List.length db' = List.length db.
Proof.
  intros sent Hcomplete Hfound.
  set (db' := map (fun x => if Legacy.key_is id x then LegacyCrud.replaced sent x else x) db).
  assert (find (Legacy.key_is id) db' = Some (LegacyCrud.replaced sent r)) as Hread.
  { unfold db'. rewrite find_map_update; [now rewrite Hfound | reflexivity]. }
  exists db', (LegacyCrud.replaced sent r).
  split; [| split; [exact Hread | repeat split]].
  - unfold LegacyCrud.replacePatient. fold sent. rewrite Hcomplete. cbv zeta. fold db'.
    replace (Z.of_nat (List.length (filter (Legacy.key_is id) db)) =? 0) with false.
    + now rewrite Hread.
    + symmetry. apply Z.eqb_neq.
      pose proof (find_in_filter _ _ _ Hfound) as Hin.
      destruct (filter (Legacy.key_is id) db); [contradiction | simpl; lia].
  - unfold db'. apply length_map.
Qed.

Lemma legacy_put_replaces_fields_witness :
  exists db' r',
    LegacyCrud.replacePatient [legacy_row "k1"; legacy_row "k2"] "k2" legacy_body
    = (Http.Sent 200 (Legacy.rowToPatient r'), db')
    /\ find (Legacy.key_is "k2") db' = Some r'
    /\ Legacy.metadata r' = Legacy.metadata (legacy_row "k2").
Proof.
  destruct (legacy_put_replaces_fields [legacy_row "k1"; legacy_row "k2"] "k2" legacy_body
              (legacy_row "k2"))
    as (db' & r' & Hput & Hfind & _ & _ & _ & _ & Hmeta & _).
  - reflexivity.
  - reflexivity.
  - exists db', r'. split; [exact Hput |]. split; [exact Hfind | exact Hmeta].
Defined.





(** ** The bulk-delete request *)

(** C9. The request verify_delete.js sends, a DELETE of
    [/api/patients/<shipToId>] with the keys to delete in
    [?patientKeys=], is served by the single-patient DELETE route, which
    reads the path parameter only: when no patient has the [shipToId]
    as its key, the answer is 404 and the table is unchanged, so every
    listed key that was stored is stored still, and a DELETE of one of
    the listed keys is what deletes it. The GET of [/api/patients/<key>]
    that follows is answered by the search with a 200 page, whether the
    key is stored or not. *)
Theorem bulk_delete_request_deletes_nothing (db : Legacy.table) (shipToId : string)
    (keys : list string) :
  fresh_legacy_key shipToId db ->
  let answer := Legacy.deleteRoute db (Legacy.mkDeleteRequest shipToId keys) in
  status_of (fst answer) = 404
  /\ snd answer = db
  /\ (forall key r, In key keys ->
        find (Legacy.key_is key) db = Some r ->
        find (Legacy.key_is key) (snd answer) = Some r
        /\ status_of (fst (Legacy.deleteRoute db (Legacy.mkDeleteRequest key []))) = 204)
  /\ (forall key, key <> "" ->
        exists page,
          Legacy.searchPatients (snd answer) key no_parameters = Http.Sent 200 page).
Proof.
  intros Hfresh answer. unfold answer, Legacy.deleteRoute. cbn [Legacy.path_id].
  rewrite (legacy_delete_missing _ _ Hfresh). cbn [fst snd status_of].
  split; [reflexivity |]. split; [reflexivity |]. split.
  - intros key r _ Hfound. split; [exact Hfound |].
    unfold Legacy.deletePatient, Legacy.delete_where_key.
    replace (Z.of_nat (List.length (filter (Legacy.key_is key) db)) =? 0) with false;
      [reflexivity |].
    symmetry. apply Z.eqb_neq.
    pose proof (find_in_filter _ _ _ Hfound) as Hin.
    destruct (filter (Legacy.key_is key) db); [contradiction | simpl; lia].
  - intros key Hkey. unfold Legacy.searchPatients, Legacy.searchPlan.
    rewrite (eqb_empty_false _ Hkey). eexists. reflexivity.
Qed.

Lemma bulk_delete_request_deletes_nothing_witness :
  let db := [legacy_row "k1"; legacy_row "k2"] in
  Legacy.deleteRoute db (Legacy.mkDeleteRequest "1483051" ["k1"; "k2"])
  = (Http.Failed (Http.handleError 404 "Patient not found" None Js.Null), db)
  /\ find (Legacy.key_is "k1") db = Some (legacy_row "k1")
  /\ find (Legacy.key_is "k2") db = Some (legacy_row "k2")
  /\ exists page, Legacy.searchPatients db "k1" no_parameters = Http.Sent 200 page.
Proof.
  intros db.
  destruct (bulk_delete_request_deletes_nothing db "1483051" ["k1"; "k2"])
    as (_ & Hsame & Hkept & Hget).
  - intros x [<- | [<- | []]]; reflexivity.
  - cbv zeta in Hsame, Hkept, Hget. rewrite Hsame in Hkept, Hget.
    split; [reflexivity |]. split; [| split].
    + apply (Hkept "k1"); [left; reflexivity | reflexivity].
    + apply (Hkept "k2"); [right; left; reflexivity | reflexivity].
    + apply Hget. discriminate.
Defined.

(** ** The later search [GET /api/v1/patients/:shipToId] *)





Lemma hex_run_keeps (c : ascii) (n : nat) (s rest : string) :
  SpecSearch.hex_run n s = Some rest ->
  Js.includes_char c rest = true -> Js.includes_char c s = true.
Proof.
  revert s. induction n as [| n IH]; intros s; cbn [SpecSearch.hex_run].
  - now intros [= ->].
  - destruct s as [| d s]; [discriminate |].
    destruct (SpecSearch.is_hex d); [| discriminate].
    intros Hrun Hin. cbn [Js.includes_char].
    destruct (Ascii.eqb c d); [reflexivity |]. now apply (IH s).
Qed.

(** X19. The later search hands a request on to the next route when the
    path parameter starts with "pt-" (or looks like the start of a
    UUID), whatever the query; a path parameter without a dash is never
    handed on and is always answered by the search itself. *)
Theorem spec_search_routing (db : Patients.table) (shipToId : string)
    (query : AdminV1.search_query) :
  (Js.startsWith "pt-" shipToId = true ->
     SpecSearch.searchPatients db shipToId query = SpecSearch.PassedOn)
  /\ (Js.includes_char "-" shipToId = false ->
      exists answer,
        SpecSearch.searchPatients db shipToId query = SpecSearch.Answered answer).
Proof.
  split.
  - intros Hpt. unfold SpecSearch.searchPatients, SpecSearch.possibleUUID.
    now rewrite Hpt, orb_true_r.
  - intros Hdash.
    assert (SpecSearch.possibleUUID shipToId = false) as Hroute.
    { unfold SpecSearch.possibleUUID. apply orb_false_iff. split.
      - unfold SpecSearch.uuid_prefix.
        destruct (SpecSearch.hex_run 8 shipToId) as [[| c rest] |] eqn:Erun;
          try reflexivity.
        destruct (Ascii.eqb c "-") eqn:Ec; [| reflexivity].
        apply Ascii.eqb_eq in Ec. subst c.
        rewrite (hex_run_keeps "-" _ _ _ Erun) in Hdash; [discriminate |].
        cbn [Js.includes_char]. now rewrite Ascii.eqb_refl.
      - unfold Js.startsWith.
        destruct shipToId as [| a [| b [| c rest]]]; try reflexivity;
          cbn [String.prefix];
          repeat match goal with
                 | |- context [ascii_dec ?x ?y] => destruct (ascii_dec x y)
                 end; try reflexivity.
        subst. cbn [Js.includes_char] in Hdash.
        rewrite Ascii.eqb_refl in Hdash.
        repeat match type of Hdash with
               | context [if ?c then _ else _] => destruct c
               end; discriminate. }
    unfold SpecSearch.searchPatients. rewrite Hroute.
    destruct (0 <? _); [eexists; reflexivity |].
    cbv zeta. destruct (AdminV1.select_page _ _ _ _ _); eexists; reflexivity.
Qed.

Lemma spec_search_routing_witness :
  SpecSearch.searchPatients three_patients "pt-1001" sample_search = SpecSearch.PassedOn
  /\ exists answer,
       SpecSearch.searchPatients three_patients "1563073" sample_search
       = SpecSearch.Answered answer.
Proof.
  destruct (spec_search_routing three_patients "pt-1001" sample_search) as [Hpass _].
  destruct (spec_search_routing three_patients "1563073" sample_search) as [_ Hanswer].
  split; [apply Hpass; reflexivity | apply Hanswer; reflexivity].
Defined.

(** ** Users *)

Lemma max_id_bound (l : list Users.user) (u : Users.user) :
  In u l -> Users.id u <= fold_right Z.max 0 (map Users.id l).
Proof.
  induction l as [| x l IH]; [intros [] |].
  cbn [map fold_right]. intros [<- | Hin]; [lia |].
  specialize (IH Hin). lia.
Qed.

(** X20. A user created with a name and an e-mail gets an id above
    every stored id and above every id handed out before; deleting
    users afterwards does not free it: the next id is larger still. *)
Theorem user_ids_are_fresh (db : Users.table) (body : Js.value) :
  Js.truthy (Js.get "name" body) = true ->
  Js.truthy (Js.get "email" body) = true ->
  exists n db',
    Users.createUser db body
    = (Http.Sent 201 (Js.Obj [ ("id", Js.Num n); ("name", Js.get "name" body);
                               ("email", Js.get "email" body) ]), db')
    /\ (forall u, In u (Users.rows db) -> Users.id u < n)
    /\ Users.sequence db < n
    /\ (forall matches raw,
          n < Users.nextId (snd (Users.deleteUser matches db' raw))).
Proof.
  intros Hname Hemail. unfold Users.createUser. rewrite Hname, Hemail. cbn [negb orb].
  eexists. eexists. split; [reflexivity |]. split; [| split].
  - intros u Hu. pose proof (max_id_bound _ _ Hu). unfold Users.nextId. lia.
  - unfold Users.nextId. lia.
  - intros matches raw. set (n := Users.nextId db). unfold Users.deleteUser.
    destruct (Users.parseId raw =? "")%string; [| destruct (_ =? 0)];
      unfold Users.nextId; cbn [snd Users.sequence]; lia.
Qed.

Lemma user_ids_are_fresh_witness :
  exists n db',
    Users.createUser two_users new_user
    = (Http.Sent 201 (Js.Obj [ ("id", Js.Num n); ("name", Js.Str "Cy");
                               ("email", Js.Str "cy@example.org") ]), db')
    /\ Users.sequence two_users < n.
Proof.
  destruct (user_ids_are_fresh two_users new_user) as (n & db' & Hcreate & _ & Hseq & _).
  - reflexivity.
  - reflexivity.
  - exists n, db'. split; [exact Hcreate | exact Hseq].
Defined.

Lemma set_field_keeps (updates : list (string * Js.value)) (u : Users.user) :
  Users.id (fold_left Users.set_field updates u) = Users.id u
  /\ ((forall v, ~ In ("name", v) updates) ->
      Users.name (fold_left Users.set_field updates u) = Users.name u)
  /\ ((forall v, ~ In ("email", v) updates) ->
      Users.email (fold_left Users.set_field updates u) = Users.email u).
Proof.
  revert u. induction updates as [| [field v] updates IH]; intros u.
  - repeat split.
  - cbn [fold_left]. destruct (IH (Users.set_field u (field, v))) as (Hid & Hname & Hemail).
    split; [| split].
    + rewrite Hid. unfold Users.set_field.
      destruct (field =? "name")%string; [reflexivity |].
      destruct (field =? "email")%string; reflexivity.
    + intros Hno. rewrite Hname by (intros w Hw; apply (Hno w); now right).
      unfold Users.set_field.
      destruct (field =? "name")%string eqn:E.
      * apply String.eqb_eq in E. subst field. exfalso. apply (Hno v). now left.
      * destruct (field =? "email")%string; reflexivity.
    + intros Hno. rewrite Hemail by (intros w Hw; apply (Hno w); now right).
      unfold Users.set_field.
      destruct (field =? "name")%string; [reflexivity |].
      destruct (field =? "email")%string eqn:E; [| reflexivity].
      apply String.eqb_eq in E. subst field. exfalso. apply (Hno v). now left.
Qed.

Lemma updates_members (body : Js.value) (field : string) (v : Js.value) :
  In (field, v) (Users.updates body) -> Js.truthy (Js.get field body) = true.
Proof.
  unfold Users.updates. cbv zeta.
  destruct (Js.truthy (Js.get "name" body)) eqn:Hname;
    destruct (Js.truthy (Js.get "email" body)) eqn:Hemail; simpl;
    intros H; repeat (destruct H as [[= <- <-] | H]; [assumption |]); contradiction.
Qed.

(** X21. The PATCH of a user goes by truthiness: a member of the body
    that is absent, null, empty, 0 or false leaves its column as it was
    in every row, and a body with no truthy [name] or [email] is
    answered 400 without touching the table. The id never changes. *)
Theorem user_patch_skips_falsy (matches : Z -> string -> bool) (db : Users.table)
    (raw : string) (body : Js.value) :
  let db' := snd (Users.patchUser matches db raw body) in
  (Users.parseId raw <> "" ->
   Js.truthy (Js.get "name" body) = false ->
   Js.truthy (Js.get "email" body) = false ->
   exists e, Users.patchUser matches db raw body = (Http.Failed e, db)
             /\ Http.code e = 400
             /\ Http.message e = "No updatable fields provided")
  /\ map Users.id (Users.rows db') = map Users.id (Users.rows db)
  /\ (Js.truthy (Js.get "name" body) = false ->
      map Users.name (Users.rows db') = map Users.name (Users.rows db))
  /\ (Js.truthy (Js.get "email" body) = false ->
      map Users.email (Users.rows db') = map Users.email (Users.rows db)).
Proof.
  intros db'. split.
  - intros Hid Hname Hemail. unfold Users.patchUser.
    rewrite (eqb_empty_false _ Hid). unfold Users.updates. rewrite Hname, Hemail.
    eexists. split; [reflexivity | split; reflexivity].
  - assert (Users.rows db' = Users.rows db
            \/ Users.rows db'
               = map (fun u => if Users.is_user matches (Users.parseId raw) u
                               then fold_left Users.set_field (Users.updates body) u
                               else u) (Users.rows db)) as Hrows.
    { unfold db', Users.patchUser, Users.update_where.
      destruct (Users.parseId raw =? "")%string; [now left |].
      destruct (Z.of_nat (List.length (Users.updates body)) =? 0); [now left |].
      right. destruct (_ =? 0); reflexivity. }
    destruct Hrows as [-> | ->];
      [split; [reflexivity | split; intros _; reflexivity] |].
    rewrite !map_map.
    split; [| split]; try intros Hfalsy; apply map_ext; intros u;
      destruct (Users.is_user matches (Users.parseId raw) u); try reflexivity;
      destruct (set_field_keeps (Users.updates body) u) as (Hid & Hname & Hemail).
    + exact Hid.
    + apply Hname. intros v Hv. apply updates_members in Hv. congruence.
    + apply Hemail. intros v Hv. apply updates_members in Hv. congruence.
Qed.

Lemma user_patch_skips_falsy_witness :
  map Users.email (Users.rows (snd (Users.patchUser decimal_match two_users "1" rename_only)))
  = [Sql.Text "ann@example.org"; Sql.Text "bob@example.org"]
  /\ map Users.name (Users.rows (snd (Users.patchUser decimal_match two_users "1" rename_only)))
     = [Sql.Text "Anne"; Sql.Text "Bob"].
Proof.
  destruct (user_patch_skips_falsy decimal_match two_users "1" rename_only)
    as (_ & _ & _ & Hemail).
  split; [rewrite Hemail; reflexivity | vm_compute; reflexivity].
Defined.

Lemma trim_blank_parseId (raw : string) :
  Js.trim raw = "" -> Users.parseId raw = "".
Proof.
  intros H. unfold Users.parseId. destruct (raw =? "")%string eqn:E; [| exact H].
  now apply String.eqb_eq in E.
Qed.

(** X22. A user id that is empty or only white space is rejected with
    400 "Invalid id" by GET, PUT, PATCH and DELETE alike, before the
    body is looked at and without touching the table. *)
Theorem user_blank_id_rejected (matches : Z -> string -> bool) (db : Users.table)
    (raw : string) (body : Js.value) :
  Js.trim raw = "" ->
  Users.getUser matches db raw = Http.Failed Users.invalid_id
  /\ Users.replaceUser matches db raw body = (Http.Failed Users.invalid_id, db)
  /\ Users.patchUser matches db raw body = (Http.Failed Users.invalid_id, db)
  /\ Users.deleteUser matches db raw = (Http.Failed Users.invalid_id, db)
  /\ Http.code Users.invalid_id = 400.
Proof.
  intros Hblank. apply trim_blank_parseId in Hblank.
  unfold Users.getUser, Users.replaceUser, Users.patchUser, Users.deleteUser.
  rewrite Hblank. repeat split.
Qed.

Lemma user_blank_id_rejected_witness :
  Users.deleteUser decimal_match two_users "   " = (Http.Failed Users.invalid_id, two_users).
Proof.
  apply (user_blank_id_rejected decimal_match two_users "   " Js.Null). reflexivity.
Defined.

(** ** Method override and the JSON guard *)

Lemma upper_ascii_idempotent (c : ascii) :
  Js.upper_ascii (Js.upper_ascii c) = Js.upper_ascii c.
Proof. destruct c as [[] [] [] [] [] [] [] []]; reflexivity. Qed.

Lemma toUpperCase_idempotent (s : string) :
  Js.toUpperCase (Js.toUpperCase s) = Js.toUpperCase s.
Proof.
  unfold Js.toUpperCase. induction s as [| c s IH]; [reflexivity |].
  cbn [Js.map_string]. now rewrite upper_ascii_idempotent, IH.
Qed.

(** X23. The JSON guard runs after the method override and judges the
    effective method: the [X-HTTP-Method-Override] header if it is not
    empty, else [?_method], else the request's own method, compared in
    upper case. The request is answered 415 exactly when that method is
    POST, PUT or PATCH and the content type is not JSON. *)
Theorem guard_judges_effective_method (header query_method : option string)
    (req : Http.request) :
  Middleware.requireJson (Middleware.methodOverride header query_method req)
  = if AdminV1.has Http.modifying_methods (effective_method header query_method req)
       && negb (Http.type_is_truthy (Http.is_json req))
    then Http.Respond unsupported_media_type
    else Http.Next.
Proof.
  unfold Middleware.requireJson, Middleware.methodOverride, effective_method, AdminV1.has.
  cbv zeta.
  assert (forall m,
             (if existsb (String.eqb (Js.toUpperCase m)) Http.modifying_methods
              then if negb (Http.type_is_truthy (Http.is_json req))
                   then Http.Respond unsupported_media_type else Http.Next
              else Http.Next)
             = (if existsb (String.eqb (Js.toUpperCase m)) Http.modifying_methods
                   && negb (Http.type_is_truthy (Http.is_json req))
                then Http.Respond unsupported_media_type else Http.Next)) as Hshape.
  { intros m. destruct (existsb _ _); [| reflexivity].
    destruct (negb _); reflexivity. }
  destruct header as [h |]; [destruct (h =? "")%string eqn:Eh |];
    (destruct query_method as [m |]; [destruct (m =? "")%string eqn:Em |]);
    repeat (progress (cbn [AdminV1.present AdminV1.param_or negb Http.method
                           Http.is_json];
                      rewrite ?Eh, ?Em));
    rewrite ?toUpperCase_idempotent; apply Hshape.
Qed.

(** ** Search headers, and the list after a create *)

(** X24. The search endpoint checks its two headers before anything
    else: without a non-empty [Authorization] header, and then without
    a non-empty [Ping-Authorization] header, the answer is 401
    whatever the query, also for a query that would be rejected with
    400. *)
Theorem search_checks_headers_first (db : Patients.table)
    (headers : AdminV1.search_headers) (query : AdminV1.search_query) :
  AdminV1.present (AdminV1.authorization headers)
  && AdminV1.present (AdminV1.ping_authorization headers) = false ->
  exists e,
    AdminV1.searchPatients db headers query = Http.Failed e
    /\ Http.code e = 401
    /\ Http.message e = "Unauthorized".
Proof.
  intros Hmissing. unfold AdminV1.searchPatients.
  destruct (AdminV1.present (AdminV1.authorization headers)); cbn [negb].
  - cbn [andb] in Hmissing. rewrite Hmissing. cbn [negb].
    eexists. split; [reflexivity | split; reflexivity].
  - eexists. split; [reflexivity | split; reflexivity].
Qed.

Lemma search_checks_headers_first_witness :
  exists e,
    AdminV1.searchPatients three_patients no_headers bad_search = Http.Failed e
    /\ Http.code e = 401.
Proof.
  destruct (search_checks_headers_first three_patients no_headers bad_search)
    as (e & Hanswer & Hcode & _).
  - reflexivity.
  - exists e. split; [exact Hanswer | exact Hcode].
Defined.


